(** * Workflow execution and self-healing: a shallow embedding

    The development follows the Python sources of the automation agent:

    - [PyStr]            the [str] operations the code relies on
                         ([startswith], [endswith], [in], [lower], [split],
                         slicing), over ASCII strings;
    - [MCPServer]        [mcp_server.py]: [_substitute_variables],
                         [run_workflow], [execute_command];
    - [WorkflowRegistry] [workflow_registry.py]: [find_workflow],
                         [get_workflow], [save_workflow];
    - [Router]           [router.py]: [handle_prompt], [fallback_to_agent];
    - [SelfHealing]      [self_healing.py]: classification, the five repair
                         generators, [handle_workflow_failure], [apply_repair].

    Python values loaded from YAML/JSON are trees ([value]); the objects the
    registry keeps in memory are dictionaries living in a store ([heap]) and
    are referred to by address, because the repair generators copy a step
    shallowly and then write through the copy.

    Exceptions are an explicit outcome ([Raise]); [try ... except Exception]
    is [try_except]; [await] is sequencing. What lies outside the sources is
    a parameter: the behaviour of a registered command once it is called
    (the browser agent), and the answer of the language model. Strings are
    ASCII strings, floats occur only as the literal confidence scores
    (rationals here), and printing to the console is not modelled.

    The definitions come first, module by module, each followed by the
    sample states used later; the properties follow. *)

From stdpp Require Import gmap strings list fin_maps.
From Stdlib Require Import ZArith QArith Ascii String.

Set Warnings "-register-all".

Close Scope Q_scope.
Local Open Scope string_scope.

(* ===================================================================== *)
(** * Python [str] operations *)
(* ===================================================================== *)

Module PyStr.

(** [s.startswith(p)] *)
Fixpoint startswith (s p : string) {struct p} : bool :=
  match p, s with
  | EmptyString, _ => true
  | String a p', String b s' => Ascii.eqb a b && startswith s' p'
  | String _ _, EmptyString => false
  end.

(** [s.endswith(p)]: some tail of [s] is [p]. *)
Fixpoint endswith (s p : string) : bool :=
  String.eqb s p ||
  match s with
  | EmptyString => false
  | String _ s' => endswith s' p
  end.

(** [t in s] *)
Fixpoint contains (t s : string) : bool :=
  startswith s t ||
  match s with
  | EmptyString => false
  | String _ s' => contains t s'
  end.

(** [s[1:]] *)
Definition tail (s : string) : string :=
  match s with
  | EmptyString => EmptyString
  | String _ s' => s'
  end.

(** [s[:-1]] *)
Fixpoint drop_last (s : string) : string :=
  match s with
  | EmptyString => EmptyString
  | String a EmptyString => EmptyString
  | String a s' => String a (drop_last s')
  end.

(** [s[2:-1]] *)
Definition slice_2_m1 (s : string) : string := drop_last (tail (tail s)).

Definition is_upper (c : ascii) : bool :=
  let n := nat_of_ascii c in (65 <=? n)%nat && (n <=? 90)%nat.

Definition lower_char (c : ascii) : ascii :=
  if is_upper c then ascii_of_nat (nat_of_ascii c + 32) else c.

(** [s.lower()] *)
Fixpoint lower (s : string) : string :=
  match s with
  | EmptyString => EmptyString
  | String c s' => String (lower_char c) (lower s')
  end.

(** The characters [str.split()] and the regex class [\s] treat as blank:
    TAB, LF, VT, FF, CR, the four separators FS..US and the space. *)
Definition is_space (c : ascii) : bool :=
  let n := nat_of_ascii c in
  ((9 <=? n)%nat && (n <=? 13)%nat) || ((28 <=? n)%nat && (n <=? 32)%nat).

(** [s.split()]: maximal runs of non-blank characters. [cur] is the token
    being read, reversed. *)
Fixpoint split_go (s : string) (cur : string) : list string :=
  match s with
  | EmptyString =>
      match cur with EmptyString => [] | _ => [String.rev cur] end
  | String c s' =>
      if is_space c then
        match cur with
        | EmptyString => split_go s' EmptyString
        | _ => String.rev cur :: split_go s' EmptyString
        end
      else split_go s' (String c cur)
  end.

Definition split (s : string) : list string := split_go s EmptyString.

(** The specification of [in]: [t] occurs somewhere inside [s]. *)
Definition occurs (t s : string) : Prop := exists a b, s = a ++ t ++ b.

(** [t] occurs in [s] and is not the whole of [s]. *)
Definition occurs_properly (t s : string) : Prop :=
  exists a b, s = a ++ t ++ b /\ (a <> "" \/ b <> "").

End PyStr.

(* ===================================================================== *)
(** * Python values, exceptions, and the state-and-exception monad *)
(* ===================================================================== *)

Module Py.

(** Data as [yaml.safe_load] and JSON produce it. Dictionaries have string
    keys. Floats and other scalar types do not occur in what is modelled. *)
Inductive value :=
| VNone
| VBool (b : bool)
| VInt (z : Z)
| VStr (s : string)
| VList (l : list value)
| VDict (d : gmap string value).

(** [bool(v)] *)
Definition truthy (v : value) : bool :=
  match v with
  | VNone => false
  | VBool b => b
  | VInt z => negb (Z.eqb z 0)
  | VStr s => negb (String.eqb s "")
  | VList l => match l with [] => false | _ => true end
  | VDict d => negb (Nat.eqb (size d) 0)
  end.

(** An exception: its class name and [str(e)]. *)
Record exn := Exn { exn_kind : string; exn_msg : string }.

Definition TypeError := Exn "TypeError".
Definition AttributeError := Exn "AttributeError".
Definition IndexError := Exn "IndexError".
Definition KeyError := Exn "KeyError".
Definition YAMLError := Exn "YAMLError".
Definition OSError := Exn "OSError".

Inductive outcome (A : Type) :=
| Ok (a : A)
| Raise (e : exn).
Arguments Ok {A} a.
Arguments Raise {A} e.

(** A computation over a mutable state [S] that returns or raises. A raise
    keeps the state changes made before it. *)
Definition M (S A : Type) : Type := S -> outcome A * S.

Definition ret {S A} (a : A) : M S A := fun s => (Ok a, s).

Definition bind {S A B} (m : M S A) (k : A -> M S B) : M S B :=
  fun s =>
    match m s with
    | (Ok a, s') => k a s'
    | (Raise e, s') => (Raise e, s')
    end.

Definition raise {S A} (e : exn) : M S A := fun s => (Raise e, s).

(** [try: body  except Exception as e: handler(e)] *)
Definition try_except {S A} (body : M S A) (handler : exn -> M S A) : M S A :=
  fun s =>
    match body s with
    | (Ok a, s') => (Ok a, s')
    | (Raise e, s') => handler e s'
    end.

Definition get {S} : M S S := fun s => (Ok s, s).
Definition put {S} (s : S) : M S unit := fun _ => (Ok tt, s).
Definition modify {S} (f : S -> S) : M S unit := fun s => (Ok tt, f s).

(** Lift a pure result that may be an exception. *)
Definition lift {S A} (o : outcome A) : M S A := fun s => (o, s).

Declare Scope py_scope.
Delimit Scope py_scope with py.
Notation "x <- m ;; k" := (bind m (fun x => k))
  (at level 100, m at next level, right associativity) : py_scope.
Notation "m ;;; k" := (bind m (fun _ => k))
  (at level 100, right associativity) : py_scope.

(** [d.get(k)] and [d.get(k, dflt)] on a value that should be a dict. *)
Definition dict_get (v : value) (k : string) (dflt : value) : outcome value :=
  match v with
  | VDict d => Ok (default dflt (d !! k))
  | _ => Raise (AttributeError "object has no attribute 'get'")
  end.

(** [for x in v]: the sequence of items iterated over. A dict iterates
    over its keys, a string over its characters. *)
Fixpoint chars (s : string) : list value :=
  match s with
  | EmptyString => []
  | String c s' => VStr (String c EmptyString) :: chars s'
  end.

Definition iterate (v : value) : outcome (list value) :=
  match v with
  | VList l => Ok l
  | VDict d => Ok (VStr <$> (map_to_list d).*1)
  | VStr s => Ok (chars s)
  | _ => Raise (TypeError "object is not iterable")
  end.

End Py.

(* ===================================================================== *)
(** * [mcp_server.py]: the step-execution engine *)
(* ===================================================================== *)

Module MCPServer.
Import Py.
Local Open Scope py_scope.

(** A file of the workflows directory, as [yaml.safe_load] sees it. *)
Inductive file :=
| FileYaml (content : value)
| FileMalformed.

Definition safe_load (f : file) : outcome value :=
  match f with
  | FileYaml v => Ok v
  | FileMalformed => Raise (YAMLError "could not parse the document")
  end.

Record log_entry := {
  log_command : string;
  log_parameters : gmap string value;
  log_result : gmap string value;
  log_timestamp : nat
}.

(** The keys of [self.commands], as [_register_commands] fills it. *)
Definition registered : list string :=
  ["navigate"; "click"; "type"; "extract"; "screenshot";
   "run_workflow"; "record_workflow"; "list_workflows"].

(** [isinstance(value, str) and value.startswith("${") and value.endswith("}")] *)
Definition is_placeholder (v : value) : bool :=
  match v with
  | VStr s => PyStr.startswith s "${" && PyStr.endswith s "}"
  | _ => false
  end.

(** [value[2:-1]] *)
Definition var_name (v : value) : string :=
  match v with
  | VStr s => PyStr.slice_2_m1 s
  | _ => ""
  end.

(** The body of the loop of [_substitute_variables] for one item. *)
Definition substitute_value (variables : gmap string value) (v : value) : value :=
  if is_placeholder v then default v (variables !! var_name v) else v.

(** [_substitute_variables(args, variables)]: a new dict with the keys of
    [args]. *)
Definition _substitute_variables (args variables : gmap string value)
  : gmap string value :=
  substitute_value variables <$> args.

(** [self._substitute_variables(args, variables)] on whatever the step has
    under ['args']: [args.items()] needs a dict. *)
Definition substitute_args (args : value) (variables : gmap string value)
  : outcome value :=
  match args with
  | VDict d => Ok (VDict (_substitute_variables d variables))
  | _ => Raise (AttributeError "object has no attribute 'items'")
  end.

(** [action in self.commands] *)
Definition in_commands (action : value) : outcome bool :=
  match action with
  | VStr a => Ok (bool_decide (a ∈ registered))
  | VList _ | VDict _ => Raise (TypeError "unhashable type")
  | _ => Ok false
  end.

(** [not result.get('success')] *)
Definition failed (result : gmap string value) : bool :=
  negb (truthy (default VNone (result !! "success"))).

Definition not_found (name : string) : gmap string value :=
  {[ "success" := VBool false;
     "error" := VStr ("Workflow '" ++ name ++ "' not found") ]}.

Definition error_result (e : exn) : gmap string value :=
  {[ "success" := VBool false; "error" := VStr (exn_msg e) ]}.

Definition workflow_result (name : string) (results : list (gmap string value))
  : gmap string value :=
  {[ "success" := VBool true;
     "workflow" := VStr name;
     "results" := VList (VDict <$> results) ]}.

Definition unknown_command (command_name : string) : gmap string value :=
  {[ "success" := VBool false;
     "error" := VStr ("Unknown command: " ++ command_name) ]}.

(** [traceback.format_exc()] *)
Definition format_exc (e : exn) : string := exn_kind e ++ ": " ++ exn_msg e.

Definition error_result_tb (e : exn) : gmap string value :=
  {[ "success" := VBool false;
     "error" := VStr (exn_msg e);
     "traceback" := VStr (format_exc e) ]}.

Section Server.

(** The state of the browser agent behind the server. *)
Context {browser : Type}.

Record server := {
  workflows_dir : gmap string file;   (** [workflows/<name>.yaml] *)
  logs : list log_entry;
  clock : nat;                        (** the event loop's time *)
  actuator : browser
}.

(** What calling [self.commands[name]] with keyword arguments does. The five browser
    methods go to the external agent and three re-enter the server, so the
    behaviour of a call is a parameter; which names can be called is
    [registered]. *)
Variable command : string -> gmap string value -> M server (gmap string value).

(** [self.commands[action]] called with the items of [args] as keyword
    arguments. *)
Definition call_command (action args : value) : M server (gmap string value) :=
  match action, args with
  | VStr a, VDict kwargs => command a kwargs
  | _, _ => raise (TypeError "argument after ** must be a mapping")
  end.

(** The [if variables: ... else: variables = {}] of the loop body. *)
Definition prepare_args (args : value) (variables : option (gmap string value))
  : outcome (value * option (gmap string value)) :=
  match variables with
  | Some vars =>
      if truthy (VDict vars) then
        match substitute_args args vars with
        | Ok args' => Ok (args', variables)
        | Raise e => Raise e
        end
      else Ok (args, Some ∅)
  | None => Ok (args, Some ∅)
  end.

(** The [for step in ...] loop of [run_workflow]; returning early is the
    [break]. *)
Fixpoint run_steps (steps : list value) (variables : option (gmap string value))
    (results : list (gmap string value)) : M server (list (gmap string value)) :=
  match steps with
  | [] => ret results
  | step :: rest =>
      action <- lift (dict_get step "action" VNone) ;;
      args <- lift (dict_get step "args" (VDict ∅)) ;;
      av <- lift (prepare_args args variables) ;;
      known <- lift (in_commands action) ;;
      if known : bool then
        result <- call_command action av.1 ;;
        if failed result then ret (results ++ [result])%list
        else run_steps rest av.2 (results ++ [result])%list
      else run_steps rest av.2 results
  end.

Definition run_workflow (name : string) (variables : option (gmap string value))
  : M server (gmap string value) :=
  try_except
    (s <- get ;;
     match workflows_dir s !! name with
     | None => ret (not_found name)
     | Some f =>
         workflow <- lift (safe_load f) ;;
         steps <- lift (dict_get workflow "steps" (VList [])) ;;
         steps <- lift (iterate steps) ;;
         results <- run_steps steps variables [] ;;
         ret (workflow_result name results)
     end)
    (fun e => ret (error_result e)).

Definition append_log (command_name : string) (parameters result : gmap string value)
  : M server unit :=
  modify (fun s =>
    {| workflows_dir := workflows_dir s;
       logs := (logs s ++ [ {| log_command := command_name;
                               log_parameters := parameters;
                               log_result := result;
                               log_timestamp := clock s |} ])%list;
       clock := S (clock s);
       actuator := actuator s |}).

Definition execute_command (command_name : string) (parameters : gmap string value)
  : M server (gmap string value) :=
  try_except
    (if bool_decide (command_name ∈ registered) then
       result <- command command_name parameters ;;
       append_log command_name parameters result ;;;
       ret result
     else ret (unknown_command command_name))
    (fun e =>
       append_log command_name parameters (error_result_tb e) ;;;
       ret (error_result_tb e)).

End Server.

End MCPServer.

(* ===================================================================== *)
(** * Substitution as the specification words it, and sample runs *)
(* ===================================================================== *)

Module SubstitutionSpec.
Import Py MCPServer.

Definition is_letter (c : ascii) : bool :=
  let n := nat_of_ascii c in
  ((65 <=? n)%nat && (n <=? 90)%nat) || ((97 <=? n)%nat && (n <=? 122)%nat).

Definition is_digit (c : ascii) : bool :=
  let n := nat_of_ascii c in (48 <=? n)%nat && (n <=? 57)%nat.

Definition is_underscore (c : ascii) : bool := Ascii.eqb c "_".

Fixpoint all_chars (p : ascii -> bool) (s : string) : bool :=
  match s with
  | EmptyString => true
  | String c s' => p c && all_chars p s'
  end.

(** An identifier: a letter or underscore, then letters, digits and
    underscores. *)
Definition is_identifier (s : string) : bool :=
  match s with
  | EmptyString => false
  | String c s' =>
      (is_letter c || is_underscore c) &&
      all_chars (fun x => is_letter x || is_digit x || is_underscore x) s'
  end.

(** The placeholder that refers to [ident]. *)
Definition placeholder (ident : string) : string := "${" ++ ident ++ "}".

(** "A value is replaced only when it is a string exactly of the form
    [${identifier}]." *)
Definition only_exact_placeholders_replaced
    (args variables : gmap string value) : Prop :=
  forall key v,
    args !! key = Some v ->
    _substitute_variables args variables !! key <> Some v ->
    exists ident, is_identifier ident = true /\ v = VStr (placeholder ident).

(** "A string containing a placeholder as a proper substring is returned
    unchanged." *)
Definition partial_placeholders_unchanged
    (args variables : gmap string value) : Prop :=
  forall key s ident,
    args !! key = Some (VStr s) ->
    is_identifier ident = true ->
    PyStr.occurs_properly (placeholder ident) s ->
    _substitute_variables args variables !! key = Some (VStr s).

(** Arguments whose value starts with one placeholder and ends with
    another, and a variables mapping that has the text in between as a key. *)
Definition two_placeholder_args : gmap string value :=
  {[ "url" := VStr "${a}${b}" ]}.

Definition odd_key_variables : gmap string value :=
  {[ "a}${b" := VStr "https://x.com" ]}.

End SubstitutionSpec.

Module ServerScenario.
Import Py MCPServer.

(** The steps of the sample workflow [test_navigation]. *)
Definition step (action : string) (arg : string) (val : string) : value :=
  VDict {[ "action" := VStr action; "args" := VDict {[ arg := VStr val ]} ]}.

Definition test_navigation : value :=
  VDict {[ "name" := VStr "test_navigation";
           "version" := VStr "1.0";
           "domain" := VStr "example.com";
           "variables" := VDict ∅;
           "steps" := VList [ step "navigate" "url" "https://example.com";
                              step "screenshot" "path" "test.png";
                              step "extract" "selector" "h1" ] ]}.

(** A workflow whose first step names an action that is not registered. *)
Definition hover_menu : value :=
  VDict {[ "name" := VStr "hover_menu";
           "steps" := VList [ step "hover" "selector" "#menu";
                              step "screenshot" "path" "menu.png" ] ]}.

Definition sample_server : @server unit :=
  {| workflows_dir := {[ "test_navigation" := FileYaml test_navigation;
                         "hover_menu" := FileYaml hover_menu ]};
     logs := [];
     clock := 0;
     actuator := tt |}.

Definition navigation_failure : gmap string value :=
  {[ "success" := VBool false;
     "error" := VStr "Navigation failed: net::ERR_NAME_NOT_RESOLVED" ]}.

Definition simulated (kwargs : gmap string value) : gmap string value :=
  <[ "success" := VBool true ]> kwargs.

(** A browser whose [navigate] fails and whose other commands succeed. *)
Definition offline_browser (name : string) (kwargs : gmap string value)
  : M (@server unit) (gmap string value) :=
  if String.eqb name "navigate" then ret navigation_failure
  else ret (simulated kwargs).

(** A browser on which every command succeeds. *)
Definition online_browser (name : string) (kwargs : gmap string value)
  : M (@server unit) (gmap string value) :=
  ret (simulated kwargs).

End ServerScenario.

(* ===================================================================== *)
(** * [mcp_server.py]: recording and listing workflows *)
(* ===================================================================== *)

Module MCPCommands.
Import Py MCPServer.
Local Open Scope py_scope.

(** All results but the last are successes. *)
Definition all_but_last_ok (results : list (gmap string value)) : Prop :=
  forall i r,
    results !! i = Some r -> S i < List.length results -> failed r = false.

(** The empty shell that [record_workflow] writes. *)
Definition recorded_shell (name : string) : value :=
  VDict {[ "name" := VStr name; "version" := VStr "1.0";
           "steps" := VList []; "variables" := VDict ∅ ]}.

Definition recording (name : string) : gmap string value :=
  {[ "success" := VBool true; "workflow" := VStr name;
     "recording" := VBool true ]}.

(** One element of the listing: the [name] and [version] the file gives
    and the file's name. *)
Definition listing_entry (stem : string) (f : file) : outcome value :=
  match safe_load f with
  | Raise e => Raise e
  | Ok workflow =>
      match dict_get workflow "name" VNone with
      | Raise e => Raise e
      | Ok name =>
          match dict_get workflow "version" VNone with
          | Raise e => Raise e
          | Ok version =>
              Ok (VDict {[ "name" := name; "version" := version;
                           "file" := VStr (stem ++ ".yaml") ]})
          end
      end
  end.

(** The loop over the files of the directory. *)
Fixpoint listing (files : list (string * file)) : outcome (list value) :=
  match files with
  | [] => Ok []
  | (stem, f) :: rest =>
      match listing_entry stem f with
      | Raise e => Raise e
      | Ok entry =>
          match listing rest with
          | Raise e => Raise e
          | Ok entries => Ok (entry :: entries)
          end
      end
  end.

Definition listed (entries : list value) : gmap string value :=
  {[ "success" := VBool true; "workflows" := VList entries ]}.

Section Commands.
Context {browser : Type}.

(** [record_workflow(name)]. Whether the file can be written is up to the
    file system and comes as [can_write]. *)
Definition record_workflow (can_write : bool) (name : string)
  : M (@server browser) (gmap string value) :=
  try_except
    (if can_write then
       modify (fun s =>
         {| workflows_dir := <[ name := FileYaml (recorded_shell name) ]>
                               (workflows_dir s);
            logs := logs s; clock := clock s; actuator := actuator s |}) ;;;
       ret (recording name)
     else raise (OSError "cannot open the workflow file for writing"))
    (fun e => ret (error_result e)).

(** [list_workflows()]: the files come in the order of the directory
    listing, here the order of the map. *)
Definition list_workflows : M (@server browser) (gmap string value) :=
  try_except
    (s <- get ;;
     entries <- lift (listing (map_to_list (workflows_dir s))) ;;
     ret (listed entries))
    (fun e => ret (error_result e)).

End Commands.

(** A file that [list_workflows] and [run_workflow] can read: a mapping. *)
Definition is_mapping (f : file) : Prop := exists d, f = FileYaml (VDict d).

End MCPCommands.

(* ===================================================================== *)
(** * The object store: dictionaries held by reference *)
(* ===================================================================== *)

Module Store.

Definition loc := positive.

(** A value held in memory: a scalar, or the address of a dict object.
    Two addresses that are equal denote the same, shared dict. *)
Inductive hval :=
| HNone
| HBool (b : bool)
| HInt (z : Z)
| HStr (s : string)
| HRef (l : loc).
Arguments HRef l%_positive.

Record heap := {
  objects : gmap loc (gmap string hval);
  next : loc
}.

Definition empty_heap : heap := {| objects := ∅; next := 1%positive |}.

(** A new dict object with the given items. *)
Definition alloc (d : gmap string hval) (h : heap) : loc * heap :=
  (next h, {| objects := <[ next h := d ]> (objects h);
              next := Pos.succ (next h) |}).

(** [obj[k] = v] on the dict at [l]. *)
Definition store (l : loc) (k : string) (v : hval) (h : heap) : heap :=
  {| objects := alter (fun d => <[ k := v ]> d) l (objects h);
     next := next h |}.

Definition deref (h : heap) (l : loc) : option (gmap string hval) :=
  objects h !! l.

(** The items of the dict a value refers to, if it refers to one. *)
Definition dict_of (h : heap) (v : hval) : option (gmap string hval) :=
  match v with
  | HRef l => deref h l
  | _ => None
  end.

(** [xs[i]] for a Python index: negative indices count from the end. *)
Definition index {A} (xs : list A) (i : Z) : option A :=
  if (0 <=? i)%Z then xs !! Z.to_nat i
  else if (0 <=? i + Z.of_nat (List.length xs))%Z
       then xs !! Z.to_nat (i + Z.of_nat (List.length xs))
       else None.

(** [xs[i] = x]: [None] stands for the [IndexError]. *)
Definition set_index {A} (xs : list A) (i : Z) (x : A) : option (list A) :=
  if (0 <=? i)%Z then
    if (i <? Z.of_nat (List.length xs))%Z then Some (<[ Z.to_nat i := x ]> xs)
    else None
  else if (0 <=? i + Z.of_nat (List.length xs))%Z
       then Some (<[ Z.to_nat (i + Z.of_nat (List.length xs)) := x ]> xs)
       else None.

End Store.

(* ===================================================================== *)
(** * [workflow_registry.py]: the workflow store *)
(* ===================================================================== *)

Module WorkflowRegistry.
Import Store.

Record WorkflowSpec := {
  name : string;
  version : string;
  domain : option string;
  variables : gmap string string;
  steps : list hval;                 (** each step is a dict object *)
  metadata : gmap string Py.value
}.

(** The registry: [self.workflows], a dict in insertion order keyed by the
    workflow's name, and the directory of YAML files. What a file holds is
    the spec as written together with the objects its steps referred to at
    that moment. [writable] says whether writing a file succeeds. *)
Record registry := {
  workflows : list (string * WorkflowSpec);
  files : gmap string (WorkflowSpec * heap);
  writable : bool
}.

(** [self.workflows.values()] *)
Definition values (r : registry) : list WorkflowSpec := (workflows r).*2.

(** [d[k] = v] on a dict in insertion order: an existing key keeps its
    place, a new key goes last. *)
Fixpoint dict_set {A} (k : string) (v : A) (d : list (string * A))
  : list (string * A) :=
  match d with
  | [] => [(k, v)]
  | (k', v') :: rest =>
      if String.eqb k' k then (k, v) :: rest else (k', v') :: dict_set k v rest
  end.

Fixpoint dict_lookup {A} (k : string) (d : list (string * A)) : option A :=
  match d with
  | [] => None
  | (k', v') :: rest => if String.eqb k' k then Some v' else dict_lookup k rest
  end.

(** [site and workflow.domain and site in workflow.domain] *)
Definition domain_matches (site : option string) (w : WorkflowSpec) : bool :=
  match site, domain w with
  | Some s, Some d =>
      negb (String.eqb s "") && negb (String.eqb d "") && PyStr.contains s d
  | _, _ => false
  end.

(** [intent.lower() in workflow.name.lower()] *)
Definition name_matches (intent : string) (w : WorkflowSpec) : bool :=
  PyStr.contains (PyStr.lower intent) (PyStr.lower (name w)).

(** The loop of [find_workflow]. *)
Fixpoint find_in (site : option string) (intent : string)
    (ws : list WorkflowSpec) : option WorkflowSpec :=
  match ws with
  | [] => None
  | w :: rest =>
      if domain_matches site w then Some w
      else if name_matches intent w then Some w
      else find_in site intent rest
  end.

Definition find_workflow (site : option string) (intent : string)
    (r : registry) : option WorkflowSpec :=
  find_in site intent (values r).

Definition get_workflow (nm : string) (r : registry) : option WorkflowSpec :=
  dict_lookup nm (workflows r).

(** [save_workflow(spec)]: write the file, then index the spec under its
    name; a failed write is caught and reported as [False], leaving the
    index as it was. *)
Definition save_workflow (spec : WorkflowSpec) (h : heap) (r : registry)
  : bool * registry :=
  if writable r then
    (true, {| workflows := dict_set (name spec) spec (workflows r);
              files := <[ name spec := (spec, h) ]> (files r);
              writable := writable r |})
  else (false, r).

(** ** The matching policy as the specification words it *)

(** (a) a site is given (a non-empty string) and the candidate's domain
    contains it. *)
Definition matches_by_domain (site : option string) (w : WorkflowSpec) : Prop :=
  exists s d, site = Some s /\ s <> "" /\ domain w = Some d /\ PyStr.occurs s d.

(** (b) the intent, case-insensitively, is a substring of the candidate's
    name. *)
Definition matches_by_name (intent : string) (w : WorkflowSpec) : Prop :=
  PyStr.occurs (PyStr.lower intent) (PyStr.lower (name w)).

Definition matches (site : option string) (intent : string) (w : WorkflowSpec)
  : Prop :=
  matches_by_domain site w \/ matches_by_name intent w.

(** [w] is the first candidate of [ws] that matches. *)
Definition first_match (site : option string) (intent : string)
    (ws : list WorkflowSpec) (w : WorkflowSpec) : Prop :=
  exists before after,
    ws = (before ++ w :: after)%list /\
    matches site intent w /\
    Forall (fun w' => ~ matches site intent w') before.

(** "The only domain-bearing workflow of the store is [w]." *)
Definition only_domain_bearing (ws : list WorkflowSpec) (w : WorkflowSpec) : Prop :=
  w ∈ ws /\ forall w', w' ∈ ws -> domain w' <> None -> w' = w.

(** ** Sample stores *)

Definition plain_spec (nm : string) (dom : option string) : WorkflowSpec :=
  {| name := nm; version := "1.0"; domain := dom;
     variables := ∅; steps := []; metadata := ∅ |}.

Definition jira_ticket_export : WorkflowSpec :=
  plain_spec "jira_ticket_export" (Some "jira.company.com").

Definition export_report : WorkflowSpec := plain_spec "export_report" None.

Definition registry_of (ws : list WorkflowSpec) : registry :=
  {| workflows := (fun w => (name w, w)) <$> ws; files := ∅; writable := true |}.

(** A store in which a workflow without a domain precedes the Jira one. *)
Definition reports_then_jira : registry :=
  registry_of [export_report; jira_ticket_export].

Definition jira_only : registry := registry_of [jira_ticket_export].

End WorkflowRegistry.

(* ===================================================================== *)
(** * The workflow store: the shape of the index *)
(* ===================================================================== *)

Module RegistryShape.
Import Store WorkflowRegistry.

(** The keys of [self.workflows] in insertion order. *)
Definition keys (r : registry) : list string := (workflows r).*1.

(** Every workflow is indexed under its own name, as [load_all_workflows]
    and [save_workflow] enter it. *)
Definition keyed_by_name (r : registry) : Prop :=
  Forall (fun kw => kw.1 = name kw.2) (workflows r).

(** The index is a dict: no key occurs twice. *)
Definition well_formed (r : registry) : Prop :=
  keyed_by_name r /\ NoDup (keys r).

End RegistryShape.

(* ===================================================================== *)
(** * [router.py]: from a prompt to a workflow or to the agent *)
(* ===================================================================== *)

Module Router.
Import Py.
Local Open Scope py_scope.

(** ** The two regular expressions *)

(** The longest prefix of [s] whose characters satisfy [p], and the rest. *)
Fixpoint span (p : ascii -> bool) (s : string) : string * string :=
  match s with
  | EmptyString => (EmptyString, EmptyString)
  | String c s' =>
      if p c then let r := span p s' in (String c r.1, r.2)
      else (EmptyString, s)
  end.

Fixpoint drop (n : nat) (s : string) : string :=
  match n, s with
  | O, _ => s
  | S n', String _ s' => drop n' s'
  | S _, EmptyString => EmptyString
  end.

(** [re.search]: the match at the leftmost position that has one. *)
Fixpoint search {A} (match_at : string -> option A) (s : string) : option A :=
  match match_at s with
  | Some x => Some x
  | None =>
      match s with
      | EmptyString => None
      | String _ s' => search match_at s'
      end
  end.

Definition non_space (c : ascii) : bool := negb (PyStr.is_space c).

(** [https?://[^\s]+] at the start of [s]: group 0. *)
Definition url_at (s : string) : option string :=
  let after (scheme : string) :=
    let run := (span non_space (drop (String.length scheme) s)).1 in
    if String.eqb run "" then None else Some (scheme ++ run) in
  if PyStr.startswith s "https://" then after "https://"
  else if PyStr.startswith s "http://" then after "http://"
  else None.

Definition is_letter (c : ascii) : bool :=
  let n := nat_of_ascii c in
  ((65 <=? n)%nat && (n <=? 90)%nat) || ((97 <=? n)%nat && (n <=? 122)%nat).

Definition is_colon_or_space (c : ascii) : bool :=
  Ascii.eqb c ":" || PyStr.is_space c.

(** [project[:\s]+([A-Z]+)] with [re.IGNORECASE] at the start of [s]:
    group 1. *)
Definition project_at (s : string) : option string :=
  if PyStr.startswith (PyStr.lower s) "project" then
    let r := span is_colon_or_space (drop 7 s) in
    if String.eqb r.1 "" then None
    else
      let key := (span is_letter r.2).1 in
      if String.eqb key "" then None else Some key
  else None.

(** [any(word in prompt_lower for word in words)] *)
Definition any_in (words : list string) (s : string) : bool :=
  existsb (fun w => PyStr.contains w s) words.

(** What [parse_prompt] returns. *)
Record parsed := {
  p_site : option string;
  p_intent : string;
  p_variables : gmap string value
}.

Definition regex_parse_prompt (prompt : string) : parsed :=
  let prompt_lower := PyStr.lower prompt in
  let site :=
    if PyStr.contains "jira" prompt_lower then Some "jira.company.com"
    else if PyStr.contains "github" prompt_lower then Some "github.com"
    else if PyStr.contains "example.com" prompt_lower then Some "example.com"
    else None in
  let intent :=
    if any_in ["export"; "download"; "get"; "extract"] prompt_lower then "export"
    else if any_in ["navigate"; "go"; "visit"; "open"] prompt_lower then "navigate"
    else if any_in ["test"; "check"; "verify"] prompt_lower then "test"
    else "general" in
  let variables : gmap string value := ∅ in
  let variables :=
    match search project_at prompt with
    | Some key => <[ "project_key" := VStr key ]> variables
    | None => variables
    end in
  let variables :=
    match search url_at prompt with
    | Some url => <[ "url" := VStr url ]> variables
    | None => variables
    end in
  {| p_site := site; p_intent := intent; p_variables := variables |}.

(** The answer of the language model after [json.loads]: the three fields
    it may carry, at the types the prompt asks for. *)
Record answer := {
  a_site : option string;
  a_intent : option string;
  a_variables : option (gmap string value)
}.

Section Routing.

Context {browser : Type}.

Record router := {
  registry : WorkflowRegistry.registry;
  server : @MCPServer.server browser;
  llm : bool                          (** an API key is configured *)
}.

(** Calls into the server, which change only the server. *)
Definition on_server {A} (m : M (@MCPServer.server browser) A) : M router A :=
  fun r =>
    match m (server r) with
    | (o, s') => (o, {| registry := registry r; server := s'; llm := llm r |})
    end.

(** The registered commands, as in [MCPServer]. *)
Variable command :
  string -> gmap string value -> M (@MCPServer.server browser) (gmap string value).

(** The chat completion: the parsed JSON answer, or an exception. *)
Variable oracle : string -> outcome answer.

(** How the server runs a workflow; [handle_prompt] below uses the server's
    own [run_workflow]. *)
Variable run_workflow :
  string -> option (gmap string value) ->
  M (@MCPServer.server browser) (gmap string value).

Definition ai_parse_prompt (prompt : string) : parsed :=
  match oracle prompt with
  | Ok a =>
      let site :=
        match a_site a with
        | Some s => if String.eqb s "null" || String.eqb s "None" then None
                    else Some s
        | None => None
        end in
      {| p_site := site;
         p_intent := default "general" (a_intent a);
         p_variables := default ∅ (a_variables a) |}
  | Raise _ => regex_parse_prompt prompt
  end.

(** What [parse_prompt] yields in a given router state. *)
Definition parsed_prompt (prompt : string) (r : router) : parsed :=
  if llm r then ai_parse_prompt prompt else regex_parse_prompt prompt.

Definition with_server (r : router) (s : @MCPServer.server browser) : router :=
  {| registry := registry r; server := s; llm := llm r |}.

Definition parse_prompt (prompt : string) : M router parsed :=
  r <- get ;;
  if llm r then ret (ai_parse_prompt prompt) else ret (regex_parse_prompt prompt).

Definition agent_error (e : exn) : gmap string value :=
  {[ "success" := VBool false; "error" := VStr (exn_msg e);
     "source" := VStr "agent" ]}.

Definition router_error (e : exn) : gmap string value :=
  {[ "success" := VBool false; "error" := VStr (exn_msg e);
     "source" := VStr "router" ]}.

Definition agent_result (prompt : string) (result : gmap string value)
  : gmap string value :=
  {[ "success" := VBool true; "source" := VStr "agent";
     "prompt" := VStr prompt; "result" := VDict result ]}.

Definition workflow_routed (nm : string) (result : gmap string value)
  : gmap string value :=
  {[ "success" := VBool true; "source" := VStr "workflow";
     "workflow" := VStr nm; "result" := VDict result ]}.

(** [fallback_to_agent(prompt, failed_workflow)]; the second argument is
    not used by the body. *)
Definition fallback_to_agent (prompt : string) : M router (gmap string value) :=
  try_except
    (let result : gmap string value :=
       {[ "success" := VBool true;
          "message" := VStr "Agent execution simulated" ]} in
     result <-
       (if PyStr.contains "navigate" (PyStr.lower prompt) then
          let url := default "https://example.com" (search url_at prompt) in
          nav_result <- on_server (command "navigate" {[ "url" := VStr url ]}) ;;
          ret (<[ "navigation" := VDict nav_result ]> result)
        else ret result) ;;
     result <-
       (if PyStr.contains "screenshot" (PyStr.lower prompt) then
          screenshot_result <- on_server (command "screenshot" ∅) ;;
          ret (<[ "screenshot" := VDict screenshot_result ]> result)
        else ret result) ;;
     ret (agent_result prompt result))
    (fun e => ret (agent_error e)).

Definition handle_prompt_with (prompt : string) : M router (gmap string value) :=
  try_except
    (p <- parse_prompt prompt ;;
     r <- get ;;
     match WorkflowRegistry.find_workflow (p_site p) (p_intent p) (registry r) with
     | Some workflow =>
         try_except
           (result <- on_server
                        (run_workflow (WorkflowRegistry.name workflow)
                                      (Some (p_variables p))) ;;
            ret (workflow_routed (WorkflowRegistry.name workflow) result))
           (fun e => fallback_to_agent prompt)
     | None => fallback_to_agent prompt
     end)
    (fun e => ret (router_error e)).

End Routing.

(** [Router.handle_prompt]: routing over the server's [run_workflow]. *)
Definition handle_prompt {browser : Type}
    (command : string -> gmap string value ->
               M (@MCPServer.server browser) (gmap string value))
    (oracle : string -> outcome answer)
    (prompt : string) : M (@router browser) (gmap string value) :=
  handle_prompt_with command oracle (MCPServer.run_workflow command) prompt.

(** ** A sample router *)

(** The registry indexes a workflow [nightly_test] whose file is not in
    the server's workflows directory. *)
Definition nightly_test : WorkflowRegistry.WorkflowSpec :=
  WorkflowRegistry.plain_spec "nightly_test" None.

Definition sample_router : @router unit :=
  {| registry := WorkflowRegistry.registry_of [nightly_test];
     server := ServerScenario.sample_server;
     llm := false |}.

Definition no_oracle (prompt : string) : outcome answer :=
  Raise (Exn "APIError" "no API key").

(** A server object whose [run_workflow] lets an exception escape. *)
Definition raising_run (nm : string) (variables : option (gmap string value))
  : M (@MCPServer.server unit) (gmap string value) :=
  raise (Exn "RuntimeError" "browser crashed").

End Router.

(* ===================================================================== *)
(** * [router.py]: what a URL match looks like *)
(* ===================================================================== *)

Module RouterShape.
Import Py Router.

(** A match of the URL pattern followed by [rest]: a scheme, then a
    non-empty run of non-blank characters that ends at a blank or at the
    end of the text. *)
Definition url_shape (url rest : string) : Prop :=
  exists scheme run,
    (scheme = "https://" \/ scheme = "http://") /\
    url = scheme ++ run /\ run <> "" /\
    SubstitutionSpec.all_chars non_space run = true /\
    (rest = "" \/ exists c rest', rest = String c rest' /\ PyStr.is_space c = true).


(** One of the words occurs in the text. *)
Definition mentions (words : list string) (s : string) : Prop :=
  exists w, w ∈ words /\ PyStr.occurs w s.

End RouterShape.

(* ===================================================================== *)
(** * [self_healing.py]: classification, repair suggestions, and applying them *)
(* ===================================================================== *)

Module SelfHealing.
Import Py Store.
Local Open Scope py_scope.

Module RepairSuggestion.
Record t := {
  workflow_name : string;
  step_index : Z;
  issue_type : string;
  issue_description : string;
  suggested_fix : hval;              (** a step: the address of a dict *)
  confidence_score : Q;
  timestamp : nat
}.
End RepairSuggestion.

Module WorkflowFailure.
Record t := {
  workflow_name : string;
  step_index : Z;
  error_type : string;
  error_message : string;
  screenshot_path : option string;
  dom_snapshot : option string;
  timestamp : nat
}.
End WorkflowFailure.

(** The dicts the two entry points return; a key that is not in the dict
    is [None]. The copy of the suggestion that [asdict] makes for the
    result is not modelled: the result names the suggestion itself. *)
Record result := {
  success : bool;
  failure_recorded : option bool;
  repair_suggested : option bool;
  suggestion : option RepairSuggestion.t;
  requires_approval : option bool;
  workflow_updated : option bool;
  message : option string;
  error : option string
}.

Definition failure_with (msg : string) : result :=
  {| success := false; failure_recorded := None; repair_suggested := None;
     suggestion := None; requires_approval := None; workflow_updated := None;
     message := None; error := Some msg |}.

Definition suggested (s : RepairSuggestion.t) : result :=
  {| success := true; failure_recorded := Some true;
     repair_suggested := Some true; suggestion := Some s;
     requires_approval := Some true; workflow_updated := None;
     message := None; error := None |}.

Definition no_suggestion : result :=
  {| success := false; failure_recorded := Some true;
     repair_suggested := Some false; suggestion := None;
     requires_approval := None; workflow_updated := None;
     message := Some "Could not generate repair suggestion"; error := None |}.

Definition applied : result :=
  {| success := true; failure_recorded := None; repair_suggested := None;
     suggestion := None; requires_approval := None;
     workflow_updated := Some true;
     message := Some "Repair applied successfully"; error := None |}.

(** The engine together with what it shares with the rest of the process:
    the objects in memory and the registry. *)
Record engine := {
  heap : Store.heap;
  registry : WorkflowRegistry.registry;
  repair_agent : bool;               (** a repair agent was supplied *)
  failures_log : list WorkflowFailure.t;
  repair_suggestions : list RepairSuggestion.t;
  healing_enabled : bool;
  repairs_dir : list RepairSuggestion.t;  (** the suggestion files written *)
  repairs_writable : bool;
  now : nat                          (** the clock behind [datetime.now()] *)
}.

Definition set_heap (h : Store.heap) (e : engine) : engine :=
  {| heap := h; registry := registry e; repair_agent := repair_agent e;
     failures_log := failures_log e; repair_suggestions := repair_suggestions e;
     healing_enabled := healing_enabled e; repairs_dir := repairs_dir e;
     repairs_writable := repairs_writable e; now := now e |}.

Definition set_registry (r : WorkflowRegistry.registry) (e : engine) : engine :=
  {| heap := heap e; registry := r; repair_agent := repair_agent e;
     failures_log := failures_log e; repair_suggestions := repair_suggestions e;
     healing_enabled := healing_enabled e; repairs_dir := repairs_dir e;
     repairs_writable := repairs_writable e; now := now e |}.

(** [self.healing_enabled = enabled] *)
Definition enable_healing (enabled : bool) (e : engine) : engine :=
  {| heap := heap e; registry := registry e; repair_agent := repair_agent e;
     failures_log := failures_log e; repair_suggestions := repair_suggestions e;
     healing_enabled := enabled; repairs_dir := repairs_dir e;
     repairs_writable := repairs_writable e; now := now e |}.

(** [datetime.now()] *)
Definition datetime_now : M engine nat :=
  fun e =>
    (Ok (now e),
     {| heap := heap e; registry := registry e; repair_agent := repair_agent e;
        failures_log := failures_log e;
        repair_suggestions := repair_suggestions e;
        healing_enabled := healing_enabled e; repairs_dir := repairs_dir e;
        repairs_writable := repairs_writable e; now := S (now e) |}).

(** ** Dict objects *)

(** The items of the dict [v] refers to; a value that is no dict has none
    of the dict methods. *)
Definition as_dict (h : Store.heap) (v : hval) : outcome (gmap string hval) :=
  match dict_of h v with
  | Some d => Ok d
  | None => Raise (AttributeError "object is not a dict")
  end.

(** A dict literal: a new object. *)
Definition new_dict (d : gmap string hval) : M engine hval :=
  fun e => let (l, h') := alloc d (heap e) in (Ok (HRef l), set_heap h' e).

(** [v.copy()]: a new dict with the same items. The items are not copied:
    a nested dict is shared between the original and the copy. *)
Definition copy (v : hval) : M engine hval :=
  e <- get ;;
  d <- lift (as_dict (heap e) v) ;;
  new_dict d.

(** [v[k]] *)
Definition getitem (v : hval) (k : string) : M engine hval :=
  e <- get ;;
  d <- lift (as_dict (heap e) v) ;;
  match d !! k with
  | Some x => ret x
  | None => raise (KeyError k)
  end.

(** [v[k] = x] *)
Definition setitem (v : hval) (k : string) (x : hval) : M engine unit :=
  e <- get ;;
  match v with
  | HRef l =>
      match deref (heap e) l with
      | Some _ => put (set_heap (store l k x (heap e)) e)
      | None => raise (TypeError "object does not support item assignment")
      end
  | _ => raise (TypeError "object does not support item assignment")
  end.

(** [failing_step.get('args', {}).get('selector', '')] *)
Definition read_selector (h : Store.heap) (failing_step : hval) : outcome hval :=
  match as_dict h failing_step with
  | Raise e => Raise e
  | Ok d =>
      match d !! "args" with
      | None => Ok (HStr "")
      | Some a =>
          match as_dict h a with
          | Raise e => Raise e
          | Ok ad => Ok (default (HStr "") (ad !! "selector"))
          end
      end
  end.

(** A selector has the [str] methods only if it is a string. *)
Definition as_str (v : hval) : outcome string :=
  match v with
  | HStr s => Ok s
  | _ => Raise (AttributeError "object is not a str")
  end.

(** [xs[-1]] *)
Definition last_token (xs : list string) : outcome string :=
  match last xs with
  | Some x => Ok x
  | None => Raise (IndexError "list index out of range")
  end.

(** The alternatives derived from the shape of the failing selector. *)
Definition alternatives (current_selector : string) : outcome (list string) :=
  if PyStr.startswith current_selector "#" then
    let base_name := PyStr.tail current_selector in
    Ok [ "." ++ base_name;
         "[id*='" ++ base_name ++ "']";
         "[name='" ++ base_name ++ "']" ]
  else if PyStr.startswith current_selector "." then
    let base_name := PyStr.tail current_selector in
    Ok [ "#" ++ base_name;
         "[class*='" ++ base_name ++ "']";
         "button[class*='" ++ base_name ++ "']" ]
  else
    match last_token (PyStr.split current_selector) with
    | Raise e => Raise e
    | Ok token =>
        Ok [ "[data-testid*='" ++ token ++ "']";
             "[aria-label*='" ++ current_selector ++ "']";
             "button:contains('" ++ current_selector ++ "')" ]
    end.

(** [get_ai_selector_suggestion]: any exception inside gives [None]. *)
Definition get_ai_selector_suggestion (failing_step : hval) : M engine (option string) :=
  e <- get ;;
  if repair_agent e then
    match read_selector (heap e) failing_step with
    | Ok (HStr current_selector) =>
        if PyStr.contains "#" current_selector
           && PyStr.contains "submit" current_selector
        then ret (Some "button[type='submit'], input[type='submit']")
        else if PyStr.contains "login" current_selector
        then ret (Some "#login, .login-button, button[data-action='login']")
        else ret None
    | _ => ret None
    end
  else ret None.

(** [alternative_selectors[0] if alternative_selectors else current_selector] *)
Definition best_alternative (alts : list string) (current_selector : string) : string :=
  match alts with
  | a :: _ => a
  | [] => current_selector
  end.

(** ** The five repair generators *)

Definition suggest_selector_repair (failure : WorkflowFailure.t) (failing_step : hval)
  : M engine (option RepairSuggestion.t) :=
  e <- get ;;
  selector <- lift (read_selector (heap e) failing_step) ;;
  current_selector <- lift (as_str selector) ;;
  alts <- lift (alternatives current_selector) ;;
  ai_suggestion <-
    (if repair_agent e then get_ai_selector_suggestion failing_step
     else ret None) ;;
  let alternative_selectors :=
    match ai_suggestion with
    | Some s => if String.eqb s "" then alts else s :: alts
    | None => alts
    end in
  suggested_fix <- copy failing_step ;;
  args <- getitem suggested_fix "args" ;;
  setitem args "selector"
          (HStr (best_alternative alternative_selectors current_selector)) ;;;
  t <- datetime_now ;;
  ret (Some {| RepairSuggestion.workflow_name := WorkflowFailure.workflow_name failure;
               RepairSuggestion.step_index := WorkflowFailure.step_index failure;
               RepairSuggestion.issue_type := "selector_drift";
               RepairSuggestion.issue_description :=
                 "Selector '" ++ current_selector
                 ++ "' not found. UI may have changed.";
               RepairSuggestion.suggested_fix := suggested_fix;
               RepairSuggestion.confidence_score :=
                 match alternative_selectors with
                 | [] => (3 # 10)%Q
                 | _ => (7 # 10)%Q
                 end;
               RepairSuggestion.timestamp := t |}).

(** [x * 2] *)
Definition times_two (x : hval) : outcome hval :=
  match x with
  | HInt z => Ok (HInt (z * 2))
  | HBool b => Ok (HInt (if b then 2 else 0))
  | HStr s => Ok (HStr (s ++ s))
  | _ => Raise (TypeError "unsupported operand type(s) for *")
  end.

Definition suggest_timeout_repair (failure : WorkflowFailure.t) (failing_step : hval)
  : M engine (option RepairSuggestion.t) :=
  suggested_fix <- copy failing_step ;;
  e <- get ;;
  d <- lift (as_dict (heap e) suggested_fix) ;;
  (match d !! "args" with
   | None => fresh <- new_dict ∅ ;; setitem suggested_fix "args" fresh
   | Some _ => ret tt
   end) ;;;
  args <- getitem suggested_fix "args" ;;
  e <- get ;;
  ad <- lift (as_dict (heap e) args) ;;
  doubled <- lift (times_two (default (HInt 30) (ad !! "timeout"))) ;;
  setitem args "timeout" doubled ;;;
  setitem args "wait_for_load" (HBool true) ;;;
  t <- datetime_now ;;
  ret (Some {| RepairSuggestion.workflow_name := WorkflowFailure.workflow_name failure;
               RepairSuggestion.step_index := WorkflowFailure.step_index failure;
               RepairSuggestion.issue_type := "timeout";
               RepairSuggestion.issue_description :=
                 "Operation timed out. Page may be loading slowly.";
               RepairSuggestion.suggested_fix := suggested_fix;
               RepairSuggestion.confidence_score := (6 # 10)%Q;
               RepairSuggestion.timestamp := t |}).

Definition suggest_network_repair (failure : WorkflowFailure.t) (failing_step : hval)
  : M engine (option RepairSuggestion.t) :=
  suggested_fix <- copy failing_step ;;
  setitem suggested_fix "retry_count" (HInt 3) ;;;
  setitem suggested_fix "retry_delay" (HInt 5) ;;;
  t <- datetime_now ;;
  ret (Some {| RepairSuggestion.workflow_name := WorkflowFailure.workflow_name failure;
               RepairSuggestion.step_index := WorkflowFailure.step_index failure;
               RepairSuggestion.issue_type := "network_error";
               RepairSuggestion.issue_description :=
                 "Network connectivity issue. Adding retry logic.";
               RepairSuggestion.suggested_fix := suggested_fix;
               RepairSuggestion.confidence_score := (5 # 10)%Q;
               RepairSuggestion.timestamp := t |}).

Definition suggest_auth_repair (failure : WorkflowFailure.t) (failing_step : hval)
  : M engine (option RepairSuggestion.t) :=
  suggested_fix <- copy failing_step ;;
  auth_args <- new_dict {[ "check_login_state" := HBool true;
                           "re_authenticate" := HBool true ]} ;;
  auth_step <- new_dict {[ "action" := HStr "authenticate";
                           "args" := auth_args ]} ;;
  t <- datetime_now ;;
  ret (Some {| RepairSuggestion.workflow_name := WorkflowFailure.workflow_name failure;
               RepairSuggestion.step_index := WorkflowFailure.step_index failure;
               RepairSuggestion.issue_type := "authentication_failure";
               RepairSuggestion.issue_description :=
                 "Authentication required. Adding login verification step.";
               RepairSuggestion.suggested_fix := auth_step;
               RepairSuggestion.confidence_score := (8 # 10)%Q;
               RepairSuggestion.timestamp := t |}).

Definition suggest_generic_repair (failure : WorkflowFailure.t) (failing_step : hval)
  : M engine (option RepairSuggestion.t) :=
  e <- get ;;
  t <- datetime_now ;;
  if repair_agent e then
    ret (Some {| RepairSuggestion.workflow_name := WorkflowFailure.workflow_name failure;
                 RepairSuggestion.step_index := WorkflowFailure.step_index failure;
                 RepairSuggestion.issue_type := "generic_error";
                 RepairSuggestion.issue_description :=
                   "AI-analyzed error: " ++ WorkflowFailure.error_message failure;
                 RepairSuggestion.suggested_fix := failing_step;
                 RepairSuggestion.confidence_score := (6 # 10)%Q;
                 RepairSuggestion.timestamp := t |})
  else
    ret (Some {| RepairSuggestion.workflow_name := WorkflowFailure.workflow_name failure;
                 RepairSuggestion.step_index := WorkflowFailure.step_index failure;
                 RepairSuggestion.issue_type := "unknown_error";
                 RepairSuggestion.issue_description :=
                   "Unknown error: " ++ WorkflowFailure.error_message failure;
                 RepairSuggestion.suggested_fix := failing_step;
                 RepairSuggestion.confidence_score := (2 # 10)%Q;
                 RepairSuggestion.timestamp := t |}).

(** ** Classification *)

Definition classify_and_suggest_repair (failure : WorkflowFailure.t)
    (failing_step : hval) : M engine (option RepairSuggestion.t) :=
  let error_message := PyStr.lower (WorkflowFailure.error_message failure) in
  if PyStr.contains "selector" error_message
     || PyStr.contains "element not found" error_message
  then suggest_selector_repair failure failing_step
  else if PyStr.contains "timeout" error_message
  then suggest_timeout_repair failure failing_step
  else if PyStr.contains "network" error_message
          || PyStr.contains "connection" error_message
  then suggest_network_repair failure failing_step
  else if PyStr.contains "authentication" error_message
          || PyStr.contains "login" error_message
  then suggest_auth_repair failure failing_step
  else suggest_generic_repair failure failing_step.

(** The tests of the cascade as the specification words them, on the
    lower-cased message. *)
Definition says_selector (m : string) : Prop :=
  PyStr.occurs "selector" m \/ PyStr.occurs "element not found" m.
Definition says_timeout (m : string) : Prop := PyStr.occurs "timeout" m.
Definition says_network (m : string) : Prop :=
  PyStr.occurs "network" m \/ PyStr.occurs "connection" m.
Definition says_auth (m : string) : Prop :=
  PyStr.occurs "authentication" m \/ PyStr.occurs "login" m.

(** [workflow.steps[failure.step_index]] *)
Definition step_at (steps : list hval) (i : Z) : outcome hval :=
  match index steps i with
  | Some s => Ok s
  | None => Raise (IndexError "list index out of range")
  end.

Definition analyze_and_repair (failure : WorkflowFailure.t)
  : M engine (option RepairSuggestion.t) :=
  try_except
    (e <- get ;;
     match WorkflowRegistry.get_workflow (WorkflowFailure.workflow_name failure)
             (registry e) with
     | None => ret None
     | Some workflow =>
         let steps := WorkflowRegistry.steps workflow in
         if (Z.of_nat (List.length steps) <=? WorkflowFailure.step_index failure)%Z
         then ret None
         else
           failing_step <- lift (step_at steps (WorkflowFailure.step_index failure)) ;;
           classify_and_suggest_repair failure failing_step
     end)
    (fun _ => ret None).

(** [save_repair_suggestion]: a failed write is caught and only printed. *)
Definition save_repair_suggestion (s : RepairSuggestion.t) : M engine unit :=
  datetime_now ;;;
  modify (fun e =>
    if repairs_writable e then
      {| heap := heap e; registry := registry e; repair_agent := repair_agent e;
         failures_log := failures_log e;
         repair_suggestions := repair_suggestions e;
         healing_enabled := healing_enabled e;
         repairs_dir := (repairs_dir e ++ [s])%list;
         repairs_writable := repairs_writable e; now := now e |}
    else e).

Definition record_failure (f : WorkflowFailure.t) : M engine unit :=
  modify (fun e =>
    {| heap := heap e; registry := registry e; repair_agent := repair_agent e;
       failures_log := (failures_log e ++ [f])%list;
       repair_suggestions := repair_suggestions e;
       healing_enabled := healing_enabled e; repairs_dir := repairs_dir e;
       repairs_writable := repairs_writable e; now := now e |}).

Definition record_suggestion (s : RepairSuggestion.t) : M engine unit :=
  modify (fun e =>
    {| heap := heap e; registry := registry e; repair_agent := repair_agent e;
       failures_log := failures_log e;
       repair_suggestions := (repair_suggestions e ++ [s])%list;
       healing_enabled := healing_enabled e; repairs_dir := repairs_dir e;
       repairs_writable := repairs_writable e; now := now e |}).

(** [handle_workflow_failure(workflow_name, step_index, error, context)]:
    the exception comes as its class name and its text, the context as the
    two entries that are read from it. *)
Definition handle_workflow_failure (workflow_name : string) (step_index : Z)
    (error_type error_message : string)
    (screenshot_path dom_snapshot : option string) : M engine result :=
  e <- get ;;
  if negb (healing_enabled e) then ret (failure_with "Self-healing is disabled")
  else
    try_except
      (t <- datetime_now ;;
       let failure :=
         {| WorkflowFailure.workflow_name := workflow_name;
            WorkflowFailure.step_index := step_index;
            WorkflowFailure.error_type := error_type;
            WorkflowFailure.error_message := error_message;
            WorkflowFailure.screenshot_path := screenshot_path;
            WorkflowFailure.dom_snapshot := dom_snapshot;
            WorkflowFailure.timestamp := t |} in
       record_failure failure ;;;
       s <- analyze_and_repair failure ;;
       match s with
       | Some s =>
           record_suggestion s ;;;
           save_repair_suggestion s ;;;
           ret (suggested s)
       | None => ret no_suggestion
       end)
      (fun ex => ret (failure_with ("Self-healing failed: " ++ exn_msg ex))).

(** ** Applying a repair *)

(** [workflow.steps[i] = x]: the workflow is the object the registry
    holds, so the registry sees the new list at once. *)
Definition assign_step (workflow : WorkflowRegistry.WorkflowSpec) (i : Z) (x : hval)
  : M engine WorkflowRegistry.WorkflowSpec :=
  match set_index (WorkflowRegistry.steps workflow) i x with
  | None => raise (IndexError "list assignment index out of range")
  | Some steps' =>
      let workflow' :=
        {| WorkflowRegistry.name := WorkflowRegistry.name workflow;
           WorkflowRegistry.version := WorkflowRegistry.version workflow;
           WorkflowRegistry.domain := WorkflowRegistry.domain workflow;
           WorkflowRegistry.variables := WorkflowRegistry.variables workflow;
           WorkflowRegistry.steps := steps';
           WorkflowRegistry.metadata := WorkflowRegistry.metadata workflow |} in
      e <- get ;;
      put (set_registry
             {| WorkflowRegistry.workflows :=
                  WorkflowRegistry.dict_set (WorkflowRegistry.name workflow)
                    workflow' (WorkflowRegistry.workflows (registry e));
                WorkflowRegistry.files := WorkflowRegistry.files (registry e);
                WorkflowRegistry.writable := WorkflowRegistry.writable (registry e) |}
             e) ;;;
      ret workflow'
  end.

(** [self.registry.save_workflow(workflow)] *)
Definition save (workflow : WorkflowRegistry.WorkflowSpec) : M engine bool :=
  fun e =>
    let (ok, r') := WorkflowRegistry.save_workflow workflow (heap e) (registry e) in
    (Ok ok, set_registry r' e).

Definition apply_repair (s : RepairSuggestion.t) (approved : bool) : M engine result :=
  if negb approved then ret (failure_with "Repair requires human approval")
  else
    try_except
      (e <- get ;;
       match WorkflowRegistry.get_workflow (RepairSuggestion.workflow_name s)
               (registry e) with
       | None => ret (failure_with "Workflow not found")
       | Some workflow =>
           if (RepairSuggestion.step_index s
                 <? Z.of_nat (List.length (WorkflowRegistry.steps workflow)))%Z
           then
             workflow' <- assign_step workflow (RepairSuggestion.step_index s)
                            (RepairSuggestion.suggested_fix s) ;;
             saved <- save workflow' ;;
             if saved : bool then ret applied
             else ret (failure_with "Could not apply repair")
           else ret (failure_with "Could not apply repair")
       end)
      (fun ex => ret (failure_with ("Repair application failed: " ++ exn_msg ex))).

(** What [get_workflow(name).steps] is in a state. *)
Definition steps_of (nm : string) (e : engine) : option (list hval) :=
  WorkflowRegistry.steps <$> WorkflowRegistry.get_workflow nm (registry e).

(** The position Python gives to an index [i] of a list of length [n]
    when [-n <= i < n]. *)
Definition position (n : nat) (i : Z) : nat :=
  if (0 <=? i)%Z then Z.to_nat i else Z.to_nat (i + Z.of_nat n).

(** The registry is the same and the objects that existed before read the
    same afterwards. *)
Definition preserves_objects (e e' : engine) : Prop :=
  registry e' = registry e /\
  forall l, (l < next (heap e))%positive ->
            objects (heap e') !! l = objects (heap e) !! l.

End SelfHealing.

(* ===================================================================== *)
(** * Sample engines *)
(* ===================================================================== *)

Module HealingScenario.
Import Py Store SelfHealing.

(** The objects of the sample workflow [test_navigation]: three steps,
    each a dict with its own [args] dict. *)
Definition sample_heap : Store.heap :=
  {| objects :=
       {[ 1%positive := {[ "url" := HStr "https://example.com" ]};
          2%positive := {[ "action" := HStr "navigate"; "args" := HRef 1 ]};
          3%positive := {[ "path" := HStr "test.png" ]};
          4%positive := {[ "action" := HStr "screenshot"; "args" := HRef 3 ]};
          5%positive := {[ "selector" := HStr "h1" ]};
          6%positive := {[ "action" := HStr "extract"; "args" := HRef 5 ]};
          7%positive := {[ "selector" := HStr "#account" ]};
          8%positive := {[ "action" := HStr "click"; "args" := HRef 7 ]};
          9%positive := {[ "action" := HStr "screenshot" ]} ]};
     next := 10%positive |}.

Definition test_navigation : WorkflowRegistry.WorkflowSpec :=
  {| WorkflowRegistry.name := "test_navigation";
     WorkflowRegistry.version := "1.0";
     WorkflowRegistry.domain := Some "example.com";
     WorkflowRegistry.variables := ∅;
     WorkflowRegistry.steps := [HRef 2; HRef 4; HRef 6];
     WorkflowRegistry.metadata := {[ "description" := VStr "Simple test workflow" ]} |}.

(** A workflow that opens a page and clicks into the account area. *)
Definition portal_account : WorkflowRegistry.WorkflowSpec :=
  {| WorkflowRegistry.name := "portal_account";
     WorkflowRegistry.version := "1.0";
     WorkflowRegistry.domain := None;
     WorkflowRegistry.variables := ∅;
     WorkflowRegistry.steps := [HRef 2; HRef 8];
     WorkflowRegistry.metadata := ∅ |}.

(** A workflow whose only step has no arguments at all. *)
Definition bare_screenshot : WorkflowRegistry.WorkflowSpec :=
  {| WorkflowRegistry.name := "bare_screenshot";
     WorkflowRegistry.version := "1.0";
     WorkflowRegistry.domain := None;
     WorkflowRegistry.variables := ∅;
     WorkflowRegistry.steps := [HRef 9];
     WorkflowRegistry.metadata := ∅ |}.

Definition sample_engine : engine :=
  {| heap := sample_heap;
     registry := WorkflowRegistry.registry_of
                   [test_navigation; portal_account; bare_screenshot];
     repair_agent := false;
     failures_log := [];
     repair_suggestions := [];
     healing_enabled := true;
     repairs_dir := [];
     repairs_writable := true;
     now := 0 |}.

(** The [args] dict of step [i] of the stored workflow [nm], as
    [get_workflow(nm).steps[i]['args']] reads it. *)
Definition stored_args (nm : string) (i : Z) (e : engine)
  : option (gmap string hval) :=
  match steps_of nm e with
  | None => None
  | Some steps =>
      match index steps i with
      | None => None
      | Some step =>
          match dict_of (heap e) step with
          | None => None
          | Some d =>
              match d !! "args" with
              | None => None
              | Some a => dict_of (heap e) a
              end
          end
      end
  end.

(** [get_workflow(nm).steps[i]['args'].get(k)] *)
Definition stored_arg (nm : string) (i : Z) (k : string) (e : engine)
  : option hval :=
  match stored_args nm i e with
  | Some d => d !! k
  | None => None
  end.

(** The engine after the failure of the [extract] step has been handled. *)
Definition after_selector_failure : engine :=
  snd (handle_workflow_failure "test_navigation" 2 "Exception"
         "element not found: h1.old" None None sample_engine).

(** The engine after a timeout of the [navigate] step has been handled. *)
Definition after_timeout_failure : engine :=
  snd (handle_workflow_failure "test_navigation" 0 "TimeoutError"
         "timeout after 30s" None None sample_engine).

(** A suggestion that addresses the last step from the end. *)
Definition from_the_end : RepairSuggestion.t :=
  {| RepairSuggestion.workflow_name := "test_navigation";
     RepairSuggestion.step_index := (-1)%Z;
     RepairSuggestion.issue_type := "unknown_error";
     RepairSuggestion.issue_description := "Unknown error: boom";
     RepairSuggestion.suggested_fix := HRef 4;
     RepairSuggestion.confidence_score := (2 # 10)%Q;
     RepairSuggestion.timestamp := 0 |}.

(** The engine after a login failure of the [click] step of
    [portal_account] has been handled, and the suggestion made for it. *)
Definition login_failure_handled : outcome result * engine :=
  handle_workflow_failure "portal_account" 1 "Exception"
    "login required" None None sample_engine.

Definition login_suggestion : option RepairSuggestion.t :=
  match login_failure_handled.1 with
  | Ok r => suggestion r
  | Raise _ => None
  end.

Definition after_auth_repair : option (outcome result * engine) :=
  match login_suggestion with
  | Some s => Some (apply_repair s true login_failure_handled.2)
  | None => None
  end.

(** A failure whose message names both a timeout and a selector. *)
Definition selector_and_timeout : WorkflowFailure.t :=
  {| WorkflowFailure.workflow_name := "test_navigation";
     WorkflowFailure.step_index := 2;
     WorkflowFailure.error_type := "TimeoutError";
     WorkflowFailure.error_message := "timeout: selector h1 not found";
     WorkflowFailure.screenshot_path := None;
     WorkflowFailure.dom_snapshot := None;
     WorkflowFailure.timestamp := 0 |}.

End HealingScenario.

(* ===================================================================== *)
(** * [self_healing.py]: queries, and what a computation leaves alone *)
(* ===================================================================== *)

Module HealingBooks.
Import Py Store SelfHealing.

(** [get_repair_suggestions(workflow_name)]: an absent or empty name
    selects everything. *)
Definition get_repair_suggestions (workflow_name : option string) (e : engine)
  : list RepairSuggestion.t :=
  match workflow_name with
  | Some nm =>
      if String.eqb nm "" then repair_suggestions e
      else List.filter
             (fun s => String.eqb (RepairSuggestion.workflow_name s) nm)
             (repair_suggestions e)
  | None => repair_suggestions e
  end.

(** [get_failure_history(workflow_name)] *)
Definition get_failure_history (workflow_name : option string) (e : engine)
  : list WorkflowFailure.t :=
  match workflow_name with
  | Some nm =>
      if String.eqb nm "" then failures_log e
      else List.filter
             (fun f => String.eqb (WorkflowFailure.workflow_name f) nm)
             (failures_log e)
  | None => failures_log e
  end.

(** The engine's own books and the registry are the same in both states;
    only objects in memory and the clock may differ. *)
Definition same_books (e e' : engine) : Prop :=
  registry e' = registry e /\
  failures_log e' = failures_log e /\
  repair_suggestions e' = repair_suggestions e /\
  repairs_dir e' = repairs_dir e /\
  healing_enabled e' = healing_enabled e /\
  repair_agent e' = repair_agent e /\
  repairs_writable e' = repairs_writable e.

(** A computation that, however it ends, leaves the books alone. *)
Definition keeps_books {A} (m : M engine A) : Prop :=
  forall e o e', m e = (o, e') -> same_books e e'.

(** No object lives at or beyond the next free address. *)
Definition heap_ok (h : Store.heap) : Prop :=
  forall l : loc, (next h <= l)%positive -> objects h !! l = None.

(** All characters of the string are blank. *)
Fixpoint is_blank (s : string) : bool :=
  match s with
  | EmptyString => true
  | String c s' => PyStr.is_space c && is_blank s'
  end.

(** All characters of the string are ASCII, where the blanks of
    [str.split()] are the ones [PyStr.is_space] lists. *)
Fixpoint is_ascii (s : string) : bool :=
  match s with
  | EmptyString => true
  | String c s' => (nat_of_ascii c <? 128)%nat && is_ascii s'
  end.

(** The indices that Python accepts for a list of length [n]. *)
Definition in_range (n : nat) (i : Z) : Prop :=
  (- Z.of_nat n <= i < Z.of_nat n)%Z.

(** The spec [w] with the step at Python index [i] replaced by [x]. *)
Definition with_step (w : WorkflowRegistry.WorkflowSpec) (i : Z) (x : hval)
  : WorkflowRegistry.WorkflowSpec :=
  {| WorkflowRegistry.name := WorkflowRegistry.name w;
     WorkflowRegistry.version := WorkflowRegistry.version w;
     WorkflowRegistry.domain := WorkflowRegistry.domain w;
     WorkflowRegistry.variables := WorkflowRegistry.variables w;
     WorkflowRegistry.steps :=
       <[ position (List.length (WorkflowRegistry.steps w)) i := x ]>
         (WorkflowRegistry.steps w);
     WorkflowRegistry.metadata := WorkflowRegistry.metadata w |}.

End HealingBooks.

Module HealingMoreScenario.
Import Py Store SelfHealing HealingScenario.

(** The sample engine on a file system that refuses writes. *)
Definition readonly_engine : engine :=
  set_registry
    {| WorkflowRegistry.workflows := WorkflowRegistry.workflows (registry sample_engine);
       WorkflowRegistry.files := WorkflowRegistry.files (registry sample_engine);
       WorkflowRegistry.writable := false |}
    sample_engine.

(** A suggestion to put the [extract] step in place of the [screenshot]
    step of [test_navigation]. *)
Definition replace_second : RepairSuggestion.t :=
  {| RepairSuggestion.workflow_name := "test_navigation";
     RepairSuggestion.step_index := 1;
     RepairSuggestion.issue_type := "generic_error";
     RepairSuggestion.issue_description := "AI-analyzed error: boom";
     RepairSuggestion.suggested_fix := HRef 6;
     RepairSuggestion.confidence_score := (6 # 10)%Q;
     RepairSuggestion.timestamp := 0 |}.

(** A suggestion whose fix is the step that is already there. *)
Definition keep_second : RepairSuggestion.t :=
  {| RepairSuggestion.workflow_name := "test_navigation";
     RepairSuggestion.step_index := 1;
     RepairSuggestion.issue_type := "unknown_error";
     RepairSuggestion.issue_description := "Unknown error: boom";
     RepairSuggestion.suggested_fix := HRef 4;
     RepairSuggestion.confidence_score := (2 # 10)%Q;
     RepairSuggestion.timestamp := 0 |}.

(** A failure that none of the keywords classifies. *)
Definition unclassified : WorkflowFailure.t :=
  {| WorkflowFailure.workflow_name := "test_navigation";
     WorkflowFailure.step_index := 1;
     WorkflowFailure.error_type := "Exception";
     WorkflowFailure.error_message := "boom";
     WorkflowFailure.screenshot_path := None;
     WorkflowFailure.dom_snapshot := None;
     WorkflowFailure.timestamp := 0 |}.

End HealingMoreScenario.
(* ===================================================================== *)
(** * Facts about the string operations *)
(* ===================================================================== *)

Module PyStrFacts.
Import PyStr.

Lemma app_nil_l (b : string) : "" ++ b = b.
Proof. reflexivity. Qed.

Lemma app_cons (x : ascii) (a b : string) : String x a ++ b = String x (a ++ b).
Proof. reflexivity. Qed.

Ltac str_simpl := rewrite ?app_cons, ?app_nil_l; simpl.
Ltac str_simpl_in H := rewrite ?app_cons, ?app_nil_l in H; simpl in H.

Lemma app_assoc (a b c : string) : (a ++ b) ++ c = a ++ (b ++ c).
Proof. induction a as [|x a IH]; str_simpl; [reflexivity | now rewrite IH]. Qed.

Lemma app_empty_r (a : string) : a ++ "" = a.
Proof. induction a as [|x a IH]; str_simpl; [reflexivity | now rewrite IH]. Qed.

Lemma startswith_spec (s p : string) :
  startswith s p = true <-> exists b, s = p ++ b.
Proof.
  revert s. induction p as [|a p IH]; intros s; simpl.
  - split; [intros _; now exists s | reflexivity].
  - destruct s as [|b s].
    + split; [discriminate | intros [r Hr]; discriminate].
    + rewrite andb_true_iff, IH. split.
      * intros [Hab [r ->]]. apply Ascii.eqb_eq in Hab. subst. now exists r.
      * intros [r Hr]. str_simpl_in Hr. injection Hr as -> ->.
        split; [apply Ascii.eqb_refl | now exists r].
Qed.

Lemma endswith_spec (s p : string) :
  endswith s p = true <-> exists a, s = a ++ p.
Proof.
  induction s as [|c s IH]; cbn [endswith].
  - rewrite orb_false_r. split.
    + intros H. apply String.eqb_eq in H. subst. now exists "".
    + intros [a Ha]. destruct a; str_simpl_in Ha; [subst; reflexivity | discriminate].
  - rewrite orb_true_iff, IH. split.
    + intros [H | [a ->]].
      * apply String.eqb_eq in H. now exists "".
      * now exists (String c a).
    + intros [a Ha]. destruct a as [|x a]; str_simpl_in Ha.
      * left. subst. apply String.eqb_refl.
      * right. injection Ha as -> ->. now exists a.
Qed.

Lemma contains_spec (t s : string) : contains t s = true <-> occurs t s.
Proof.
  unfold occurs. induction s as [|c s IH]; cbn [contains].
  - rewrite orb_false_r, startswith_spec. split.
    + intros [b Hb]. now exists "", b.
    + intros [a [b H]]. destruct a; str_simpl_in H; [now exists b | discriminate].
  - rewrite orb_true_iff, startswith_spec, IH. split.
    + intros [[b Hb] | [a [b ->]]].
      * now exists "", b.
      * now exists (String c a), b.
    + intros [a [b H]]. destruct a as [|x a]; str_simpl_in H.
      * left. now exists b.
      * right. injection H as -> ->. now exists a, b.
Qed.

Lemma lower_app (a b : string) : lower (a ++ b) = lower a ++ lower b.
Proof. induction a as [|x a IH]; str_simpl; [reflexivity | now rewrite IH]. Qed.

(** Lower-casing the haystack keeps every occurrence of a needle that is
    already lower case. *)
Lemma occurs_lower (t s : string) :
  lower t = t -> occurs t s -> occurs t (lower s).
Proof.
  intros Ht [a [b ->]]. exists (lower a), (lower b).
  now rewrite !lower_app, Ht.
Qed.

Lemma contains_lower (t s : string) :
  lower t = t -> contains t s = true -> contains t (lower s) = true.
Proof. rewrite !contains_spec. apply occurs_lower. Qed.

Lemma drop_last_snoc (k : string) (c : ascii) :
  drop_last (k ++ String c "") = k.
Proof.
  induction k as [|x k IH]; str_simpl; [reflexivity |].
  rewrite IH. destruct k; reflexivity.
Qed.

(** A string starts with [${] and ends with [}] exactly when it is
    [${] + k + [}] for the text [k] that [s[2:-1]] extracts. *)
Lemma placeholder_shape (s : string) :
  startswith s "${" && endswith s "}" = true <->
  s = "${" ++ slice_2_m1 s ++ "}".
Proof.
  split.
  - rewrite andb_true_iff, startswith_spec. intros [[b ->] He].
    str_simpl_in He. str_simpl.
    assert (Hb : endswith b "}" = true).
    { destruct b as [|x b]; simpl in *; [discriminate |].
      destruct b; simpl in *; exact He. }
    apply endswith_spec in Hb as [k ->].
    unfold slice_2_m1. simpl. now rewrite drop_last_snoc.
  - intros ->. rewrite andb_true_iff. split.
    + apply startswith_spec. now eexists.
    + apply endswith_spec. exists ("${" ++ slice_2_m1 s). now rewrite app_assoc.
Qed.

Lemma slice_placeholder (k : string) : slice_2_m1 ("${" ++ k ++ "}") = k.
Proof. unfold slice_2_m1. str_simpl. apply drop_last_snoc. Qed.

End PyStrFacts.

(* ===================================================================== *)
(** * The step-execution engine: variable substitution *)
(* ===================================================================== *)

Section Substitution.
Import Py MCPServer SubstitutionSpec PyStrFacts.

Lemma is_placeholder_shape (v : value) :
  is_placeholder v = true <-> exists text, v = VStr ("${" ++ text ++ "}").
Proof.
  destruct v as [| | |s| |]; unfold is_placeholder;
    try (split; [discriminate | intros [t Ht]; discriminate]).
  rewrite placeholder_shape. split.
  - intros H. eexists. f_equal. exact H.
  - intros [t Ht]. injection Ht as ->. now rewrite slice_placeholder.
Qed.

Lemma substitute_value_placeholder (variables : gmap string value) (text : string) :
  substitute_value variables (VStr ("${" ++ text ++ "}")) =
  default (VStr ("${" ++ text ++ "}")) (variables !! text).
Proof.
  unfold substitute_value.
  assert (H : is_placeholder (VStr ("${" ++ text ++ "}")) = true)
    by (apply is_placeholder_shape; now eexists).
  rewrite H. simpl. now rewrite slice_placeholder.
Qed.

Lemma substitute_value_other (variables : gmap string value) (v : value) :
  is_placeholder v = false -> substitute_value variables v = v.
Proof. unfold substitute_value. now intros ->. Qed.

Lemma substitute_lookup (args variables : gmap string value) (key : string) :
  _substitute_variables args variables !! key =
  substitute_value variables <$> (args !! key).
Proof. unfold _substitute_variables. apply lookup_fmap. Qed.

(** C5, as stated, fails: the value ["${a}${b}"] contains the placeholder
    ["${a}"] as a proper substring, yet it starts with ["${"] and ends with
    ["}"], so the text in between is looked up and the value is replaced. *)
Lemma substitution_rewrites_partial_placeholder :
  ~ partial_placeholders_unchanged two_placeholder_args odd_key_variables.
Proof.
  intros H.
  specialize (H "url" "${a}${b}" "a" eq_refl eq_refl).
  assert (Hp : PyStr.occurs_properly (placeholder "a") "${a}${b}").
  { exists "", "${b}". split; [reflexivity | right; discriminate]. }
  specialize (H Hp). vm_compute in H. discriminate.
Qed.

(** C5 (amended): substitution keeps the keys of [args] and decides per
    value. A string of the shape ["${" + text + "}"], for any text, becomes
    [variables[text]] when [text] is a key and stays as it is otherwise; a
    string that does not both start with ["${"] and end with ["}"] (such as
    ["https://${target}"]) is returned unchanged; a value that is not a
    string is returned unchanged; and a value that comes out different was
    of that shape with its text a key of [variables]. *)
Theorem substitute_variables_by_shape
    (args variables : gmap string value) (key : string) (v : value) :
  args !! key = Some v ->
  (forall text, v = VStr ("${" ++ text ++ "}") ->
     _substitute_variables args variables !! key =
       Some (default v (variables !! text))) /\
  (forall s, v = VStr s ->
     PyStr.startswith s "${" && PyStr.endswith s "}" = false ->
     _substitute_variables args variables !! key = Some v) /\
  ((forall s, v <> VStr s) ->
     _substitute_variables args variables !! key = Some v) /\
  (forall w, _substitute_variables args variables !! key = Some w -> w <> v ->
     exists text, v = VStr ("${" ++ text ++ "}") /\ variables !! text = Some w) /\
  substitute_value variables (VStr "https://${target}") = VStr "https://${target}".
Proof.
  intros Hv. rewrite substitute_lookup, Hv. simpl.
  repeat split.
  - intros text ->. now rewrite substitute_value_placeholder.
  - intros s -> Hs. now rewrite substitute_value_other.
  - intros Hns. rewrite substitute_value_other; [reflexivity |].
    destruct v; try reflexivity. now destruct (Hns s).
  - intros w Hw Hne. injection Hw as Hw.
    destruct (is_placeholder v) eqn:Hp.
    + apply is_placeholder_shape in Hp as [text ->]. exists text.
      split; [reflexivity |].
      rewrite substitute_value_placeholder in Hw.
      destruct (variables !! text) as [x|]; simpl in Hw; congruence.
    + rewrite substitute_value_other in Hw by assumption. congruence.
Qed.

(** The three examples of the specification. *)
Lemma substitute_variables_witness :
  let args : gmap string value := {[ "url" := VStr "${target}" ]} in
  let variables : gmap string value := {[ "target" := VStr "https://x.com" ]} in
  args !! "url" = Some (VStr "${target}") /\
  _substitute_variables args variables !! "url" = Some (VStr "https://x.com") /\
  _substitute_variables args ∅ !! "url" = Some (VStr "${target}").
Proof.
  intros args variables.
  destruct (substitute_variables_by_shape args variables "url" (VStr "${target}") eq_refl)
    as (H1 & _).
  destruct (substitute_variables_by_shape args ∅ "url" (VStr "${target}") eq_refl)
    as (H2 & _).
  split; [reflexivity |]. split.
  - exact (H1 "target" eq_refl).
  - exact (H2 "target" eq_refl).
Defined.

End Substitution.

(* ===================================================================== *)
(** * The step-execution engine: running a workflow *)
(* ===================================================================== *)

Section RunWorkflow.
Import Py MCPServer.
Context {browser : Type}.
Variable command : string -> gmap string value -> M (@server browser) (gmap string value).

(** [run_workflow] catches everything: it always returns a dict. *)
Lemma run_workflow_returns (name : string) (variables : option (gmap string value))
    (s : server) :
  exists d s', run_workflow command name variables s = (Ok d, s').
Proof.
  unfold run_workflow, try_except.
  destruct (bind get _ s) as [[d|e] s']; eauto.
Qed.

(** The dict it returns is one of three: the not-found error, the error of
    a caught exception, or the results under [success = True]. *)
Lemma run_workflow_cases (name : string) (variables : option (gmap string value))
    (s s' : server) (d : gmap string value) :
  run_workflow command name variables s = (Ok d, s') ->
  d = not_found name \/
  (exists e, d = error_result e) \/
  (exists results, d = workflow_result name results).
Proof.
  unfold run_workflow, try_except, bind, get, lift, ret.
  destruct (workflows_dir s !! name) as [f|]; [| intros [= <- <-]; now left].
  destruct (safe_load f) as [workflow|e]; [| intros [= <- <-]; right; left; eauto].
  destruct (dict_get workflow "steps" (VList [])) as [steps|e];
    [| intros [= <- <-]; right; left; eauto].
  destruct (iterate steps) as [l|e]; [| intros [= <- <-]; right; left; eauto].
  destruct (run_steps command l variables [] s) as [[results|e] s''];
    intros [= <- <-]; right; [right | left]; eauto.
Qed.

(** Whenever per-step results are reported, the flag next to them is
    [True]: it does not depend on the results. *)
Lemma run_workflow_flag_constant (name : string)
    (variables : option (gmap string value)) (s s' : server)
    (d : gmap string value) :
  run_workflow command name variables s = (Ok d, s') ->
  is_Some (d !! "results") ->
  d !! "success" = Some (VBool true).
Proof.
  intros Hrun Hres.
  destruct (run_workflow_cases _ _ _ _ _ Hrun) as [-> | [[e ->] | [results ->]]].
  - vm_compute in Hres. destruct Hres as [x Hx]. discriminate.
  - destruct Hres as [x Hx]. unfold error_result in Hx.
    rewrite lookup_insert_ne in Hx by discriminate.
    rewrite lookup_singleton_ne in Hx by discriminate. discriminate.
  - reflexivity.
Qed.

(** A step whose action is a string outside [registered] contributes
    nothing: the loop goes on with the remaining steps (here for a run
    without variables). *)
Lemma run_steps_skips_unregistered (d : gmap string value) (a : string)
    (rest : list value) (results : list (gmap string value)) (s : server) :
  d !! "action" = Some (VStr a) ->
  a ∉ registered ->
  run_steps command (VDict d :: rest) None results s =
  run_steps command rest (Some ∅) results s.
Proof.
  intros Ha Hnot. cbn [run_steps]. unfold bind, lift. simpl.
  rewrite Ha. simpl. rewrite bool_decide_eq_false_2 by assumption. reflexivity.
Qed.

(** The sibling entry point does reject an unregistered name. *)
Lemma execute_command_unknown (a : string) (parameters : gmap string value)
    (s : server) :
  a ∉ registered ->
  execute_command command a parameters s = (Ok (unknown_command a), s).
Proof.
  intros Hnot. unfold execute_command, try_except.
  rewrite bool_decide_eq_false_2 by assumption. reflexivity.
Qed.

End RunWorkflow.

Section RunWorkflowExamples.
Import Py MCPServer ServerScenario.

(** C1: the code departs from the specification. On the sample workflow with a
    browser whose navigation fails, the loop stops after the first step
    and the result carries the failed step result, but its [success] flag
    is [True]. *)
Theorem run_workflow_success_despite_failed_step :
  run_workflow offline_browser "test_navigation" None sample_server =
    (Ok (workflow_result "test_navigation" [navigation_failure]), sample_server) /\
  failed navigation_failure = true /\
  workflow_result "test_navigation" [navigation_failure] !! "success" =
    Some (VBool true).
Proof. vm_compute. repeat split. Qed.

(** C2: the code departs from the specification. The step with the unregistered
    action ["hover"] leaves no trace in the results (the only result is the
    screenshot's) and the run reports [success = True], while
    [execute_command] answers the same name with an "Unknown command"
    error. *)
Theorem run_workflow_skips_unknown_action :
  run_workflow online_browser "hover_menu" None sample_server =
    (Ok (workflow_result "hover_menu"
           [ {[ "success" := VBool true; "path" := VStr "menu.png" ]} ]),
     sample_server) /\
  fst (execute_command online_browser "hover" {[ "selector" := VStr "#menu" ]}
         sample_server) =
    Ok {[ "success" := VBool false; "error" := VStr "Unknown command: hover" ]}.
Proof. vm_compute. repeat split. Qed.

End RunWorkflowExamples.

(* ===================================================================== *)
(** * The workflow store: matching *)
(* ===================================================================== *)

Section Matching.
Import Store WorkflowRegistry PyStrFacts.

Lemma domain_matches_spec (site : option string) (w : WorkflowSpec) :
  domain_matches site w = true <-> matches_by_domain site w.
Proof.
  unfold domain_matches, matches_by_domain.
  destruct site as [s|], (domain w) as [d|].
  - rewrite !andb_true_iff, !negb_true_iff, contains_spec. split.
    + intros [[Hs Hd] Hin]. exists s, d. repeat split; try assumption.
      apply String.eqb_neq. exact Hs.
    + intros (s' & d' & [= <-] & Hs & [= <-] & Hin). repeat split.
      * now apply String.eqb_neq.
      * apply String.eqb_neq. intros ->.
        destruct Hin as (a & b & Hab). apply Hs.
        destruct a; [| discriminate]. destruct s; [reflexivity | discriminate].
      * assumption.
  - split; [discriminate | intros (s' & d' & _ & _ & [=] & _)].
  - split; [discriminate | intros (s' & d' & [=] & _)].
  - split; [discriminate | intros (s' & d' & [=] & _)].
Qed.

Lemma name_matches_spec (intent : string) (w : WorkflowSpec) :
  name_matches intent w = true <-> matches_by_name intent w.
Proof. apply contains_spec. Qed.

Lemma matches_spec (site : option string) (intent : string) (w : WorkflowSpec) :
  domain_matches site w || name_matches intent w = true <-> matches site intent w.
Proof.
  unfold matches.
  now rewrite orb_true_iff, domain_matches_spec, name_matches_spec.
Qed.

Lemma find_in_step (site : option string) (intent : string)
    (w : WorkflowSpec) (rest : list WorkflowSpec) :
  find_in site intent (w :: rest) =
  if domain_matches site w || name_matches intent w then Some w
  else find_in site intent rest.
Proof. simpl. now destruct (domain_matches site w), (name_matches intent w). Qed.

Lemma find_in_none (site : option string) (intent : string)
    (ws : list WorkflowSpec) :
  find_in site intent ws = None <->
  Forall (fun w => ~ matches site intent w) ws.
Proof.
  induction ws as [|w rest IH].
  - split; [constructor | reflexivity].
  - rewrite find_in_step.
    destruct (domain_matches site w || name_matches intent w) eqn:Hm.
    + split; [discriminate |]. intros H. inversion H as [|? ? Hw _]; subst.
      destruct Hw. now apply matches_spec.
    + rewrite IH. split.
      * intros H. constructor; [| exact H].
        rewrite <- matches_spec, Hm. discriminate.
      * intros H. now inversion H.
Qed.

Lemma find_in_some (site : option string) (intent : string)
    (ws : list WorkflowSpec) (w : WorkflowSpec) :
  find_in site intent ws = Some w <-> first_match site intent ws w.
Proof.
  unfold first_match. revert w. induction ws as [|x rest IH]; intros w.
  - split; [discriminate |]. intros (before & after & H & _).
    destruct before; discriminate.
  - rewrite find_in_step.
    destruct (domain_matches site x || name_matches intent x) eqn:Hm.
    + split.
      * intros [= <-]. exists [], rest. repeat split; [| constructor].
        now apply matches_spec.
      * intros (before & after & Hws & Hw & Hbefore).
        destruct before as [|y before]; simpl in Hws; injection Hws as <- ->.
        -- reflexivity.
        -- inversion Hbefore as [|? ? Hy _]; subst.
           destruct Hy. now apply matches_spec.
    + rewrite IH. split.
      * intros (before & after & -> & Hw & Hbefore).
        exists (x :: before), after. repeat split; [assumption |].
        constructor; [| assumption]. rewrite <- matches_spec, Hm. discriminate.
      * intros (before & after & Hws & Hw & Hbefore).
        destruct before as [|y before]; simpl in Hws; injection Hws as <- ->.
        -- apply matches_spec in Hw. congruence.
        -- exists before, after. repeat split; [assumption |].
           now inversion Hbefore.
Qed.

(** C9, as stated, fails in its particular case: in a store whose only
    domain-bearing workflow is the Jira one, a workflow without a domain
    that comes first and whose name contains the intent is returned instead. *)
Lemma find_prefers_earlier_name_match :
  only_domain_bearing (values reports_then_jira) jira_ticket_export /\
  domain jira_ticket_export = Some "jira.company.com" /\
  find_workflow (Some "jira.company.com") "export" reports_then_jira
    = Some export_report /\
  find_workflow (Some "jira.company.com") "export" reports_then_jira
    <> Some jira_ticket_export.
Proof.
  split; [| split; [reflexivity | split; [reflexivity | discriminate]]].
  split.
  - apply list_elem_of_In. simpl. auto.
  - intros w' Hin Hdom. apply list_elem_of_In in Hin. simpl in Hin.
    destruct Hin as [<- | [<- | []]]; [now destruct Hdom | reflexivity].
Qed.

(** C9 (amended): [find_workflow] goes through the store in iteration
    order and returns the first candidate for which (a) a non-empty site is
    given and the candidate's domain contains it, or else (b) the intent,
    case-insensitively, is a substring of the candidate's name; it returns
    none exactly when no candidate satisfies either. In particular a
    workflow with domain ["jira.company.com"] is returned for the site
    ["jira.company.com"], whatever the intent, provided no workflow before
    it in the store matches. *)
Theorem find_workflow_first_match (r : registry) (site : option string)
    (intent : string) :
  (forall w, find_workflow site intent r = Some w <->
             first_match site intent (values r) w) /\
  (find_workflow site intent r = None <->
     Forall (fun w => ~ matches site intent w) (values r)) /\
  (forall w before after,
     domain w = Some "jira.company.com" ->
     values r = (before ++ w :: after)%list ->
     Forall (fun w' => ~ matches (Some "jira.company.com") intent w') before ->
     find_workflow (Some "jira.company.com") intent r = Some w).
Proof.
  unfold find_workflow. split; [| split].
  - intros w. apply find_in_some.
  - apply find_in_none.
  - intros w before after Hdom Hvals Hbefore. apply find_in_some.
    exists before, after. repeat split; try assumption.
    left. exists "jira.company.com", "jira.company.com".
    repeat split; [discriminate | assumption |].
    exists "", "". reflexivity.
Qed.

(** On the store that holds only the Jira workflow, an unrelated intent
    still finds it. *)
Lemma find_workflow_first_match_witness :
  domain jira_ticket_export = Some "jira.company.com" /\
  values jira_only = ([] ++ jira_ticket_export :: [])%list /\
  Forall (fun w' => ~ matches (Some "jira.company.com") "zzz" w') [] /\
  find_workflow (Some "jira.company.com") "zzz" jira_only = Some jira_ticket_export.
Proof.
  split; [reflexivity |]. split; [reflexivity |]. split; [constructor |].
  destruct (find_workflow_first_match jira_only (Some "jira.company.com") "zzz")
    as (_ & _ & H).
  apply (H jira_ticket_export [] []); [reflexivity | reflexivity | constructor].
Defined.

End Matching.

(* ===================================================================== *)
(** * The prompt router: workflow or agent *)
(* ===================================================================== *)

Section RouterFacts.
Import Py Router.
Context {browser : Type}.
Variable command :
  string -> gmap string value -> M (@MCPServer.server browser) (gmap string value).
Variable oracle : string -> outcome answer.

Lemma parse_prompt_total (prompt : string) (r : @router browser) :
  parse_prompt oracle prompt r = (Ok (parsed_prompt oracle prompt r), r).
Proof.
  unfold parse_prompt, parsed_prompt, bind, get, ret. now destruct (llm r).
Qed.

(** The agent path always answers, and tags its answer with the source
    ["agent"]. *)
Lemma fallback_source_agent (prompt : string) (r : router) :
  exists d r', fallback_to_agent command prompt r = (Ok d, r') /\
               d !! "source" = Some (VStr "agent").
Proof.
  unfold fallback_to_agent, try_except.
  match goal with |- context [match ?m r with _ => _ end] => destruct (m r) as [[d|e] r'] eqn:Hm end.
  - exists d, r'. split; [reflexivity |].
    unfold bind, ret in Hm.
    repeat match type of Hm with
           | context [match ?x with _ => _ end] => destruct x
           end; try discriminate; injection Hm as <- <-; reflexivity.
  - exists (agent_error e), r'. split; reflexivity.
Qed.

Section Runner.
Variable run :
  string -> option (gmap string value) ->
  M (@MCPServer.server browser) (gmap string value).

(** When the run returns a dict, that dict is wrapped as a success of
    source ["workflow"], whatever it says. *)
Lemma handle_prompt_run_returns (prompt : string) (r : router)
    (w : WorkflowRegistry.WorkflowSpec) (d : gmap string value)
    (s' : MCPServer.server) :
  let p := parsed_prompt oracle prompt r in
  WorkflowRegistry.find_workflow (p_site p) (p_intent p) (registry r) = Some w ->
  run (WorkflowRegistry.name w) (Some (p_variables p)) (server r) = (Ok d, s') ->
  handle_prompt_with command oracle run prompt r =
    (Ok (workflow_routed (WorkflowRegistry.name w) d), with_server r s').
Proof.
  intros p Hfind Hrun. unfold handle_prompt_with, try_except at 1.
  unfold bind at 1. rewrite parse_prompt_total. fold p.
  unfold bind at 1, get. rewrite Hfind.
  unfold try_except, bind, on_server. rewrite Hrun. reflexivity.
Qed.

(** When the run raises, the agent path answers instead. *)
Lemma handle_prompt_run_raises (prompt : string) (r : router)
    (w : WorkflowRegistry.WorkflowSpec) (e : exn) (s' : MCPServer.server) :
  let p := parsed_prompt oracle prompt r in
  WorkflowRegistry.find_workflow (p_site p) (p_intent p) (registry r) = Some w ->
  run (WorkflowRegistry.name w) (Some (p_variables p)) (server r) = (Raise e, s') ->
  handle_prompt_with command oracle run prompt r =
    fallback_to_agent command prompt (with_server r s').
Proof.
  intros p Hfind Hrun. unfold handle_prompt_with, try_except at 1.
  unfold bind at 1. rewrite parse_prompt_total. fold p.
  unfold bind at 1, get. rewrite Hfind.
  unfold try_except at 1, bind, on_server. rewrite Hrun.
  destruct (fallback_source_agent prompt (with_server r s')) as (d & r' & Hf & _).
  unfold with_server in Hf. rewrite Hf. unfold with_server. now rewrite Hf.
Qed.

End Runner.
End RouterFacts.

Section RouterClaims.
Import Py Router.

(** The deterministic parser on the prompt of the specification's example. *)
Lemma regex_parse_prompt_example :
  let p := regex_parse_prompt "Navigate to https://foo.com and take a screenshot" in
  p_site p = None /\ p_intent p = "navigate" /\
  p_variables p = {[ "url" := VStr "https://foo.com" ]}.
Proof. vm_compute. repeat split. Qed.

(** C3: the code departs from the specification. The registry finds
    [nightly_test] for the prompt; its run is unsuccessful (the workflow
    file is missing, so the result has [success = False]); [handle_prompt]
    nevertheless answers [success = True] with source ["workflow"] and does
    not go to the agent. *)
Theorem handle_prompt_wraps_failed_run :
  let answer := fst (handle_prompt ServerScenario.online_browser no_oracle
                       "run the nightly test" sample_router) in
  fst (MCPServer.run_workflow ServerScenario.online_browser "nightly_test"
         (Some ∅) (server sample_router))
    = Ok (MCPServer.not_found "nightly_test") /\
  MCPServer.not_found "nightly_test" !! "success" = Some (VBool false) /\
  answer = Ok (workflow_routed "nightly_test" (MCPServer.not_found "nightly_test")) /\
  workflow_routed "nightly_test" (MCPServer.not_found "nightly_test") !! "success"
    = Some (VBool true) /\
  workflow_routed "nightly_test" (MCPServer.not_found "nightly_test") !! "source"
    = Some (VStr "workflow").
Proof. vm_compute. repeat split. Qed.

(** Routing is driven by exceptions only. For every prompt for which a
    matching workflow is found, [handle_prompt] goes to the agent, and
    answers with source ["agent"], when running the workflow raises; when
    the run returns a result, successful or not, it answers
    [success = True] with source ["workflow"] and that result inside. The
    server's own [run_workflow] catches every exception, so with it the
    answer for a matched workflow always has source ["workflow"]. *)
Lemma handle_prompt_fallback_only_on_raise {browser : Type}
    (command : string -> gmap string value ->
               M (@MCPServer.server browser) (gmap string value))
    (oracle : string -> outcome answer)
    (prompt : string) (r : @router browser) (w : WorkflowRegistry.WorkflowSpec) :
  let p := parsed_prompt oracle prompt r in
  WorkflowRegistry.find_workflow (p_site p) (p_intent p) (registry r) = Some w ->
  (forall run e s',
     run (WorkflowRegistry.name w) (Some (p_variables p)) (server r) = (Raise e, s') ->
     exists d r',
       handle_prompt_with command oracle run prompt r = (Ok d, r') /\
       handle_prompt_with command oracle run prompt r =
         fallback_to_agent command prompt (with_server r s') /\
       d !! "source" = Some (VStr "agent")) /\
  (forall run d s',
     run (WorkflowRegistry.name w) (Some (p_variables p)) (server r) = (Ok d, s') ->
     handle_prompt_with command oracle run prompt r =
       (Ok (workflow_routed (WorkflowRegistry.name w) d), with_server r s')) /\
  (exists d s',
     MCPServer.run_workflow command (WorkflowRegistry.name w)
       (Some (p_variables p)) (server r) = (Ok d, s') /\
     handle_prompt command oracle prompt r =
       (Ok (workflow_routed (WorkflowRegistry.name w) d), with_server r s')).
Proof.
  intros p Hfind. split; [| split].
  - intros run e s' Hrun.
    pose proof (handle_prompt_run_raises command oracle run prompt r w e s' Hfind Hrun)
      as Heq.
    destruct (fallback_source_agent command prompt (with_server r s'))
      as (d & r' & Hf & Hsrc).
    exists d, r'. rewrite Heq. auto.
  - intros run d s' Hrun.
    exact (handle_prompt_run_returns command oracle run prompt r w d s' Hfind Hrun).
  - destruct (run_workflow_returns command (WorkflowRegistry.name w)
                (Some (p_variables p)) (server r)) as (d & s' & Hrun).
    exists d, s'. split; [exact Hrun |].
    exact (handle_prompt_run_returns command oracle _ prompt r w d s' Hfind Hrun).
Qed.

(** With a server object whose run raises, the sample prompt is answered
    by the agent. *)
Lemma handle_prompt_fallback_example :
  WorkflowRegistry.find_workflow None "test" (registry sample_router)
    = Some nightly_test /\
  exists d r',
    handle_prompt_with ServerScenario.online_browser no_oracle raising_run
      "run the nightly test" sample_router = (Ok d, r') /\
    d !! "source" = Some (VStr "agent").
Proof.
  split; [reflexivity |].
  destruct (handle_prompt_fallback_only_on_raise ServerScenario.online_browser
              no_oracle "run the nightly test" sample_router nightly_test eq_refl)
    as (H & _).
  destruct (H raising_run (Exn "RuntimeError" "browser crashed")
              (server sample_router) eq_refl) as (d & r' & H1 & _ & H3).
  exists d, r'. split; assumption.
Defined.

End RouterClaims.

(* ===================================================================== *)
(** * Self-healing: the repair generators and stored workflows *)
(* ===================================================================== *)

Section HealingExamples.
Import Py Store SelfHealing HealingScenario.

(** C4: the code departs from the specification. Handling a selector failure of
    step 2 of [test_navigation] only generates a suggestion, and the step
    objects of the stored workflow are the same as before; yet the
    [selector] under the stored step's [args] has changed from ["h1"] to the
    suggested alternative, because the suggestion is a shallow copy of the
    step and shares its [args] dict. A timeout failure of step 0 likewise
    adds [timeout] and [wait_for_load] to the stored step's [args]. In
    neither case was [apply_repair] called. *)
Theorem suggestion_rewrites_stored_args :
  stored_arg "test_navigation" 2 "selector" sample_engine = Some (HStr "h1") /\
  steps_of "test_navigation" after_selector_failure
    = steps_of "test_navigation" sample_engine /\
  stored_arg "test_navigation" 2 "selector" after_selector_failure
    = Some (HStr "[data-testid*='h1']") /\
  stored_arg "test_navigation" 0 "timeout" sample_engine = None /\
  steps_of "test_navigation" after_timeout_failure
    = steps_of "test_navigation" sample_engine /\
  stored_arg "test_navigation" 0 "timeout" after_timeout_failure
    = Some (HInt 60) /\
  stored_arg "test_navigation" 0 "wait_for_load" after_timeout_failure
    = Some (HBool true).
Proof. vm_compute. repeat split. Qed.

(** C6: the code departs from the specification. The index [-1] is outside
    [0 .. 2], but it passes the test [step_index < len(steps)]; the
    assignment then counts from the end, the last step is replaced and the
    repair is reported as applied. *)
Theorem apply_repair_accepts_negative_index :
  RepairSuggestion.step_index from_the_end = (-1)%Z /\
  steps_of "test_navigation" sample_engine = Some [HRef 2; HRef 4; HRef 6] /\
  fst (apply_repair from_the_end true sample_engine) = Ok applied /\
  steps_of "test_navigation" (snd (apply_repair from_the_end true sample_engine))
    = Some [HRef 2; HRef 4; HRef 4].
Proof. vm_compute. repeat split. Qed.

(** C8: the code departs from the specification. For the login failure of step 1
    of [portal_account] the suggestion has confidence 0.8 and its fix is a
    new [authenticate] step; once approved and applied, that step stands in
    place of the failing step: the workflow still has two steps and the
    failing [click] step is no longer among them. *)
Theorem auth_repair_replaces_failing_step :
  steps_of "portal_account" sample_engine = Some [HRef 2; HRef 8] /\
  (exists s,
     login_suggestion = Some s /\
     RepairSuggestion.issue_type s = "authentication_failure" /\
     RepairSuggestion.step_index s = 1%Z /\
     RepairSuggestion.confidence_score s = (8 # 10)%Q /\
     RepairSuggestion.suggested_fix s = HRef 12) /\
  (exists d,
     dict_of (heap login_failure_handled.2) (HRef 12) = Some d /\
     d !! "action" = Some (HStr "authenticate")) /\
  (exists e',
     after_auth_repair = Some (Ok applied, e') /\
     steps_of "portal_account" e' = Some [HRef 2; HRef 12]).
Proof.
  split; [reflexivity |]. split; [| split].
  - eexists. vm_compute. repeat split.
  - eexists. vm_compute. repeat split.
  - eexists. vm_compute. repeat split.
Qed.

End HealingExamples.

(* ===================================================================== *)
(** * Self-healing: classification *)
(* ===================================================================== *)

(** Take apart a run of monadic steps that ended in a given outcome. *)
Ltac run_cases H :=
  cbv [Py.bind Py.get Py.put Py.modify Py.lift Py.ret Py.raise Py.try_except] in H;
  repeat match type of H with
         | context [match ?x with _ => _ end] =>
             destruct x eqn:?; try discriminate H
         | context [if ?x then _ else _] =>
             destruct x eqn:?; try discriminate H
         | context [let (_, _) := ?x in _] =>
             destruct x eqn:?; try discriminate H
         end.

Section Classification.
Import Py Store SelfHealing PyStrFacts.

Lemma datetime_now_run (e : engine) :
  exists e', datetime_now e = (Ok (now e), e') /\ heap e' = heap e /\
             registry e' = registry e /\ repair_agent e' = repair_agent e.
Proof. eexists. split; [reflexivity |]. repeat split. Qed.

(** Every generator names its own category. *)
Lemma suggest_selector_repair_type (f : WorkflowFailure.t) (st : hval)
    (e e' : engine) (s : RepairSuggestion.t) :
  suggest_selector_repair f st e = (Ok (Some s), e') ->
  RepairSuggestion.issue_type s = "selector_drift".
Proof.
  unfold suggest_selector_repair, copy, getitem, setitem, new_dict,
    get_ai_selector_suggestion, datetime_now.
  intros H. run_cases H; injection H as <- <-; reflexivity.
Qed.

Lemma suggest_timeout_repair_type (f : WorkflowFailure.t) (st : hval)
    (e e' : engine) (s : RepairSuggestion.t) :
  suggest_timeout_repair f st e = (Ok (Some s), e') ->
  RepairSuggestion.issue_type s = "timeout".
Proof.
  unfold suggest_timeout_repair, copy, getitem, setitem, new_dict, datetime_now.
  intros H. run_cases H; injection H as <- <-; reflexivity.
Qed.

Lemma suggest_network_repair_type (f : WorkflowFailure.t) (st : hval)
    (e e' : engine) (s : RepairSuggestion.t) :
  suggest_network_repair f st e = (Ok (Some s), e') ->
  RepairSuggestion.issue_type s = "network_error".
Proof.
  unfold suggest_network_repair, copy, getitem, setitem, new_dict, datetime_now.
  intros H. run_cases H; injection H as <- <-; reflexivity.
Qed.

Lemma suggest_auth_repair_type (f : WorkflowFailure.t) (st : hval)
    (e e' : engine) (s : RepairSuggestion.t) :
  suggest_auth_repair f st e = (Ok (Some s), e') ->
  RepairSuggestion.issue_type s = "authentication_failure" /\
  RepairSuggestion.confidence_score s = (8 # 10)%Q.
Proof.
  unfold suggest_auth_repair, copy, getitem, setitem, new_dict, datetime_now.
  intros H. run_cases H; injection H as <- <-; split; reflexivity.
Qed.

Lemma suggest_generic_repair_type (f : WorkflowFailure.t) (st : hval)
    (e e' : engine) (s : RepairSuggestion.t) :
  suggest_generic_repair f st e = (Ok (Some s), e') ->
  RepairSuggestion.issue_type s = "generic_error" \/
  RepairSuggestion.issue_type s = "unknown_error".
Proof.
  unfold suggest_generic_repair, datetime_now.
  intros H. run_cases H; injection H as <- <-; auto.
Qed.

Lemma get_ai_selector_suggestion_run (st : hval) (e : engine) :
  exists o, get_ai_selector_suggestion st e = (Ok o, e).
Proof.
  unfold get_ai_selector_suggestion, bind, get, ret.
  destruct (repair_agent e); [| eauto].
  destruct (read_selector (heap e) st) as [[| | |sel|]|]; eauto.
  destruct (_ && _); eauto. destruct (PyStr.contains "login" sel); eauto.
Qed.

Lemma copy_run (st : hval) (e : engine) (d : gmap string hval) :
  as_dict (heap e) st = Ok d ->
  copy st e = (Ok (HRef (next (heap e))), set_heap (alloc d (heap e)).2 e).
Proof.
  intros H. unfold copy, bind, get, lift, new_dict. rewrite H. reflexivity.
Qed.

Lemma as_dict_inv (h : Store.heap) (v : hval) (d : gmap string hval) :
  as_dict h v = Ok d -> exists l, v = HRef l /\ objects h !! l = Some d.
Proof.
  unfold as_dict, dict_of, deref. destruct v; try discriminate.
  destruct (objects h !! l) eqn:E; [| discriminate]. intros [= <-]. eauto.
Qed.

Lemma as_dict_fresh (e : engine) (d : gmap string hval) :
  as_dict (heap (set_heap (alloc d (heap e)).2 e)) (HRef (next (heap e))) = Ok d.
Proof.
  unfold as_dict, dict_of, deref, alloc. simpl. now rewrite lookup_insert_eq.
Qed.

Lemma deref_after_alloc (e : engine) (d ad : gmap string hval) (la : loc) :
  objects (heap e) !! la = Some ad ->
  deref (heap (set_heap (alloc d (heap e)).2 e)) la =
    Some (if decide (next (heap e) = la) then d else ad).
Proof.
  intros H. unfold deref, alloc. simpl. rewrite lookup_insert.
  destruct (decide (next (heap e) = la)); [reflexivity | exact H].
Qed.

(** A step with a string selector for which alternatives can be derived
    gets a suggestion. *)
Lemma suggest_selector_repair_returns (f : WorkflowFailure.t) (st : hval)
    (e : engine) (d ad : gmap string hval) (a : hval) (sel : string)
    (alts : list string) :
  as_dict (heap e) st = Ok d ->
  d !! "args" = Some a ->
  as_dict (heap e) a = Ok ad ->
  ad !! "selector" = Some (HStr sel) ->
  alternatives sel = Ok alts ->
  exists s e', suggest_selector_repair f st e = (Ok (Some s), e').
Proof.
  intros Hst Hargs Ha Hsel Halts.
  assert (Hread : read_selector (heap e) st = Ok (HStr sel)).
  { unfold read_selector. now rewrite Hst, Hargs, Ha, Hsel. }
  destruct (as_dict_inv _ _ _ Ha) as (la & -> & Hla).
  unfold suggest_selector_repair.
  unfold bind at 1, get. unfold bind at 1, lift. rewrite Hread.
  unfold bind at 1. simpl as_str. cbv beta iota.
  unfold bind at 1. rewrite Halts.
  unfold bind at 1.
  assert (Hai : exists o,
            (if repair_agent e then get_ai_selector_suggestion st else ret None) e
            = (Ok o, e)).
  { destruct (repair_agent e);
      [apply get_ai_selector_suggestion_run | eexists; reflexivity]. }
  destruct Hai as [o Hai]. rewrite Hai.
  unfold bind at 1. rewrite (copy_run _ _ _ Hst).
  unfold bind at 1, getitem. unfold bind at 1, get. unfold bind at 1, lift.
  rewrite as_dict_fresh, Hargs. unfold ret at 1.
  unfold bind at 1, setitem. unfold bind at 1, get.
  rewrite (deref_after_alloc _ _ _ _ Hla).
  unfold put, bind, datetime_now, ret. eauto.
Qed.

Lemma either_contains (a b m : string) :
  PyStr.contains a m || PyStr.contains b m = true <->
  PyStr.occurs a m \/ PyStr.occurs b m.
Proof. now rewrite orb_true_iff, !contains_spec. Qed.

Lemma neither_contains (a b m : string) :
  ~ (PyStr.occurs a m \/ PyStr.occurs b m) ->
  PyStr.contains a m || PyStr.contains b m = false.
Proof.
  intros H. apply not_true_is_false. intros Hb. apply H.
  now apply either_contains.
Qed.

Lemma not_contains (a m : string) :
  ~ PyStr.occurs a m -> PyStr.contains a m = false.
Proof.
  intros H. apply not_true_is_false. intros Hb. apply H.
  now apply contains_spec.
Qed.

Lemma selector_keyword_classified (f : WorkflowFailure.t) (st : hval) :
  PyStr.occurs "element not found" (WorkflowFailure.error_message f) \/
  PyStr.occurs "selector" (WorkflowFailure.error_message f) ->
  classify_and_suggest_repair f st = suggest_selector_repair f st.
Proof.
  intros H. unfold classify_and_suggest_repair.
  assert (Hb : PyStr.contains "selector" (PyStr.lower (WorkflowFailure.error_message f))
               || PyStr.contains "element not found"
                    (PyStr.lower (WorkflowFailure.error_message f)) = true).
  { apply orb_true_iff. destruct H as [H | H]; [right | left];
      apply contains_lower; try reflexivity; now apply contains_spec. }
  now rewrite Hb.
Qed.

(** C7: classification tests the lower-cased message in a fixed order,
    selector or "element not found" first, then timeout, then network or
    connection, then authentication or login, and the generic case last;
    each branch hands over to the generator of its category. So for a
    message that contains both "selector" and "timeout" every suggestion
    that comes out is a [selector_drift] one, never a [timeout] one, and
    one does come out when the failing step has a string selector from
    which alternatives can be derived. *)
Theorem classification_priority (f : WorkflowFailure.t) (st : hval) :
  let m := PyStr.lower (WorkflowFailure.error_message f) in
  (says_selector m ->
     classify_and_suggest_repair f st = suggest_selector_repair f st) /\
  (~ says_selector m -> says_timeout m ->
     classify_and_suggest_repair f st = suggest_timeout_repair f st) /\
  (~ says_selector m -> ~ says_timeout m -> says_network m ->
     classify_and_suggest_repair f st = suggest_network_repair f st) /\
  (~ says_selector m -> ~ says_timeout m -> ~ says_network m -> says_auth m ->
     classify_and_suggest_repair f st = suggest_auth_repair f st) /\
  (~ says_selector m -> ~ says_timeout m -> ~ says_network m -> ~ says_auth m ->
     classify_and_suggest_repair f st = suggest_generic_repair f st) /\
  (PyStr.occurs "selector" (WorkflowFailure.error_message f) ->
   PyStr.occurs "timeout" (WorkflowFailure.error_message f) ->
   (forall e s e',
      classify_and_suggest_repair f st e = (Ok (Some s), e') ->
      RepairSuggestion.issue_type s = "selector_drift" /\
      RepairSuggestion.issue_type s <> "timeout") /\
   (forall e d a ad sel alts,
      as_dict (heap e) st = Ok d ->
      d !! "args" = Some a ->
      as_dict (heap e) a = Ok ad ->
      ad !! "selector" = Some (HStr sel) ->
      alternatives sel = Ok alts ->
      exists s e',
        classify_and_suggest_repair f st e = (Ok (Some s), e') /\
        RepairSuggestion.issue_type s = "selector_drift")).
Proof.
  intros m. unfold says_selector, says_timeout, says_network, says_auth.
  repeat split.
  - intros H. unfold classify_and_suggest_repair. fold m.
    now rewrite (proj2 (either_contains _ _ _) H).
  - intros H1 H2. unfold classify_and_suggest_repair. fold m.
    rewrite (neither_contains _ _ _ H1).
    now rewrite (proj2 (contains_spec _ _) H2).
  - intros H1 H2 H3. unfold classify_and_suggest_repair. fold m.
    rewrite (neither_contains _ _ _ H1), (not_contains _ _ H2).
    now rewrite (proj2 (either_contains _ _ _) H3).
  - intros H1 H2 H3 H4. unfold classify_and_suggest_repair. fold m.
    rewrite (neither_contains _ _ _ H1), (not_contains _ _ H2).
    rewrite (neither_contains _ _ _ H3).
    now rewrite (proj2 (either_contains _ _ _) H4).
  - intros H1 H2 H3 H4. unfold classify_and_suggest_repair. fold m.
    rewrite (neither_contains _ _ _ H1), (not_contains _ _ H2).
    now rewrite (neither_contains _ _ _ H3), (neither_contains _ _ _ H4).
  - rewrite selector_keyword_classified in H1 by (right; assumption).
    now apply suggest_selector_repair_type in H1.
  - rewrite selector_keyword_classified in H1 by (right; assumption).
    apply suggest_selector_repair_type in H1. rewrite H1. discriminate.
  - intros e d a ad sel alts Hd Ha Had Hsel Halts.
    rewrite selector_keyword_classified by (right; assumption).
    destruct (suggest_selector_repair_returns f st e d ad a sel alts
                Hd Ha Had Hsel Halts) as (s & e' & Hs).
    exists s, e'. split; [exact Hs |].
    now apply suggest_selector_repair_type in Hs.
Qed.

End Classification.

Section ClassificationExamples.
Import Py Store SelfHealing HealingScenario.

(** The sample failure "timeout: selector h1 not found" on the [extract]
    step gets a [selector_drift] suggestion. *)
Lemma classification_priority_witness :
  PyStr.occurs "selector" (WorkflowFailure.error_message selector_and_timeout) /\
  PyStr.occurs "timeout" (WorkflowFailure.error_message selector_and_timeout) /\
  exists s e',
    classify_and_suggest_repair selector_and_timeout (HRef 6) sample_engine
      = (Ok (Some s), e') /\
    RepairSuggestion.issue_type s = "selector_drift".
Proof.
  assert (Hsel : PyStr.occurs "selector"
                   (WorkflowFailure.error_message selector_and_timeout))
    by (exists "timeout: ", " h1 not found"; reflexivity).
  assert (Htmo : PyStr.occurs "timeout"
                   (WorkflowFailure.error_message selector_and_timeout))
    by (exists "", ": selector h1 not found"; reflexivity).
  split; [exact Hsel |]. split; [exact Htmo |].
  destruct (classification_priority selector_and_timeout (HRef 6))
    as (_ & _ & _ & _ & _ & H).
  destruct (H Hsel Htmo) as [_ Hex].
  apply (Hex sample_engine
           {[ "action" := HStr "extract"; "args" := HRef 5 ]}
           (HRef 5)
           {[ "selector" := HStr "h1" ]}
           "h1"
           [ "[data-testid*='h1']"; "[aria-label*='h1']"; "button:contains('h1')" ]);
    vm_compute; reflexivity.
Defined.

End ClassificationExamples.

(* ===================================================================== *)
(** * Self-healing: a selector failure on a step without a selector *)
(* ===================================================================== *)

Section MissingSelector.
Import Py Store SelfHealing PyStrFacts.

Lemma index_some_lt {A} (xs : list A) (i : Z) (x : A) :
  index xs i = Some x -> (i < Z.of_nat (List.length xs))%Z.
Proof.
  unfold index. destruct (0 <=? i)%Z eqn:Hi.
  - intros H. apply lookup_lt_Some in H. apply Z.leb_le in Hi. lia.
  - intros _. apply Z.leb_gt in Hi. lia.
Qed.

Lemma read_selector_missing (h : Store.heap) (st : hval) (d : gmap string hval) :
  as_dict h st = Ok d ->
  (d !! "args" = None \/
   exists a ad, d !! "args" = Some a /\ as_dict h a = Ok ad /\
                ad !! "selector" = None) ->
  read_selector h st = Ok (HStr "").
Proof.
  intros Hd [Hn | (a & ad & Ha & Had & Hs)]; unfold read_selector; rewrite Hd.
  - now rewrite Hn.
  - now rewrite Ha, Had, Hs.
Qed.

(** With the empty selector the third branch of the alternatives indexes
    the last token of an empty split. *)
Lemma suggest_selector_repair_blank (f : WorkflowFailure.t) (st : hval) (e : engine) :
  read_selector (heap e) st = Ok (HStr "") ->
  suggest_selector_repair f st e = (Raise (IndexError "list index out of range"), e).
Proof.
  intros H. unfold suggest_selector_repair, bind, get, lift. now rewrite H.
Qed.

(** C10: with healing enabled, for a failure whose message contains
    "element not found" or "selector" and whose failing step has no
    [selector] in its [args] (or no [args] at all), the current selector is
    the empty string, deriving alternatives raises an [IndexError], the
    analysis wrapper swallows it, and [handle_workflow_failure] returns,
    without raising, the result with [repair_suggested = False] and the
    message "Could not generate repair suggestion". The failure is logged;
    no suggestion is kept and no object or stored workflow changes. *)
Theorem selector_failure_without_selector
    (e : engine) (workflow_name : string) (step_index : Z)
    (error_type error_message : string)
    (screenshot_path dom_snapshot : option string)
    (workflow : WorkflowRegistry.WorkflowSpec) (failing_step : hval)
    (d : gmap string hval) :
  healing_enabled e = true ->
  PyStr.occurs "element not found" error_message \/
    PyStr.occurs "selector" error_message ->
  WorkflowRegistry.get_workflow workflow_name (registry e) = Some workflow ->
  step_at (WorkflowRegistry.steps workflow) step_index = Ok failing_step ->
  as_dict (heap e) failing_step = Ok d ->
  (d !! "args" = None \/
   exists a ad, d !! "args" = Some a /\ as_dict (heap e) a = Ok ad /\
                ad !! "selector" = None) ->
  read_selector (heap e) failing_step = Ok (HStr "") /\
  alternatives "" = Raise (IndexError "list index out of range") /\
  (forall f e0, heap e0 = heap e ->
     suggest_selector_repair f failing_step e0 =
       (Raise (IndexError "list index out of range"), e0)) /\
  exists e',
    handle_workflow_failure workflow_name step_index error_type error_message
      screenshot_path dom_snapshot e = (Ok no_suggestion, e') /\
    repair_suggested no_suggestion = Some false /\
    suggestion no_suggestion = None /\
    message no_suggestion = Some "Could not generate repair suggestion" /\
    heap e' = heap e /\ registry e' = registry e /\
    repair_suggestions e' = repair_suggestions e /\
    repairs_dir e' = repairs_dir e /\
    List.length (failures_log e') = S (List.length (failures_log e)).
Proof.
  intros Hen Hmsg Hget Hstep Hd Hargs.
  pose proof (read_selector_missing _ _ _ Hd Hargs) as Hread.
  split; [exact Hread |]. split; [reflexivity |]. split.
  { intros f e0 Hh. apply suggest_selector_repair_blank. now rewrite Hh. }
  unfold handle_workflow_failure, bind at 1, get. rewrite Hen. cbn [negb].
  unfold try_except, bind at 1, datetime_now.
  unfold bind at 1, record_failure, modify.
  unfold bind at 1, analyze_and_repair, try_except, bind at 1, get.
  cbn [registry WorkflowFailure.workflow_name WorkflowFailure.step_index].
  rewrite Hget.
  assert (Hlt : (Z.of_nat (List.length (WorkflowRegistry.steps workflow))
                   <=? step_index)%Z = false).
  { apply Z.leb_gt. unfold step_at in Hstep.
    destruct (index (WorkflowRegistry.steps workflow) step_index) eqn:E;
      [| discriminate].
    eapply index_some_lt. exact E. }
  rewrite Hlt. unfold bind at 1, lift. rewrite Hstep.
  rewrite selector_keyword_classified by exact Hmsg.
  rewrite suggest_selector_repair_blank by exact Hread.
  unfold ret. eexists. split; [reflexivity |].
  cbn. rewrite length_app. cbn. repeat split. lia.
Qed.

End MissingSelector.

Section MissingSelectorExamples.
Import Py Store SelfHealing HealingScenario.

(** The [screenshot] step of [bare_screenshot] has no [args]; an "element
    not found" failure on it yields no suggestion. *)
Lemma selector_failure_without_selector_witness :
  healing_enabled sample_engine = true /\
  PyStr.occurs "element not found" "element not found: #shot" /\
  WorkflowRegistry.get_workflow "bare_screenshot" (registry sample_engine)
    = Some bare_screenshot /\
  step_at (WorkflowRegistry.steps bare_screenshot) 0 = Ok (HRef 9) /\
  as_dict (heap sample_engine) (HRef 9) = Ok {[ "action" := HStr "screenshot" ]} /\
  exists e',
    handle_workflow_failure "bare_screenshot" 0 "Exception"
      "element not found: #shot" None None sample_engine = (Ok no_suggestion, e').
Proof.
  assert (Hocc : PyStr.occurs "element not found" "element not found: #shot")
    by (exists "", ": #shot"; reflexivity).
  split; [reflexivity |]. split; [exact Hocc |].
  split; [reflexivity |]. split; [reflexivity |]. split; [reflexivity |].
  destruct (selector_failure_without_selector sample_engine "bare_screenshot" 0
              "Exception" "element not found: #shot" None None
              bare_screenshot (HRef 9) {[ "action" := HStr "screenshot" ]}
              eq_refl (or_introl Hocc) eq_refl eq_refl eq_refl
              (or_introl eq_refl))
    as (_ & _ & _ & e' & H & _).
  exists e'. exact H.
Defined.

End MissingSelectorExamples.

(* ===================================================================== *)
(** * Self-healing: what the generators leave alone *)
(* ===================================================================== *)

Section Preservation.
Import Py Store SelfHealing.

Lemma copy_fresh (st : hval) (e e' : engine) (v : hval) :
  copy st e = (Ok v, e') ->
  v = HRef (next (heap e)) /\ registry e' = registry e /\
  next (heap e') = Pos.succ (next (heap e)) /\
  forall l, l <> next (heap e) -> objects (heap e') !! l = objects (heap e) !! l.
Proof.
  unfold copy, bind, get, lift, new_dict.
  destruct (as_dict (heap e) st); [| discriminate].
  simpl. intros [= <- <-]. simpl. repeat split.
  intros l Hl. now rewrite lookup_insert_ne.
Qed.

Lemma setitem_only (v : hval) (k : string) (x : hval) (e e' : engine) (o : outcome unit) :
  setitem v k x e = (o, e') ->
  registry e' = registry e /\ next (heap e') = next (heap e) /\
  forall l, v <> HRef l -> objects (heap e') !! l = objects (heap e) !! l.
Proof.
  unfold setitem, bind, get, put, raise.
  destruct v; try (intros [= <- <-]; now repeat split).
  destruct (deref (heap e) l) eqn:E; intros [= <- <-]; [| now repeat split].
  simpl. repeat split. intros l' Hl'.
  rewrite lookup_alter_ne; [reflexivity | congruence].
Qed.

Lemma network_preserves (f : WorkflowFailure.t) (st : hval) (e e' : engine)
    (o : outcome (option RepairSuggestion.t)) :
  suggest_network_repair f st e = (o, e') -> preserves_objects e e'.
Proof.
  unfold suggest_network_repair. unfold bind at 1.
  destruct (copy st e) as [[v|ex] e1] eqn:Hcopy.
  - apply copy_fresh in Hcopy as (-> & Hr1 & Hn1 & Ho1).
    unfold bind at 1.
    destruct (setitem _ "retry_count" _ e1) as [[[]|ex] e2] eqn:H1;
      apply setitem_only in H1 as (Hr2 & Hn2 & Ho2).
    + unfold bind at 1.
      destruct (setitem _ "retry_delay" _ e2) as [[[]|ex] e3] eqn:H2;
        apply setitem_only in H2 as (Hr3 & Hn3 & Ho3).
      * unfold bind, datetime_now, ret. intros [= <- <-].
        unfold preserves_objects. simpl. split.
        -- congruence.
        -- intros l Hl.
           rewrite Ho3, Ho2, Ho1; try reflexivity; try (intros [=]); lia.
      * intros [= <- <-]. split; [congruence |]. intros l Hl.
        rewrite Ho3, Ho2, Ho1; try reflexivity; try (intros [=]); lia.
    + intros [= <- <-]. split; [congruence |]. intros l Hl.
      rewrite Ho2, Ho1; try reflexivity; try (intros [=]); lia.
  - intros [= <- <-]. unfold copy, bind, get, lift, new_dict in Hcopy.
    destruct (as_dict (heap e) st); [discriminate |].
    injection Hcopy as <- <-. now split.
Qed.

Lemma auth_preserves (f : WorkflowFailure.t) (st : hval) (e e' : engine)
    (o : outcome (option RepairSuggestion.t)) :
  suggest_auth_repair f st e = (o, e') -> preserves_objects e e'.
Proof.
  unfold suggest_auth_repair. unfold bind at 1.
  destruct (copy st e) as [[v|ex] e1] eqn:Hcopy.
  - apply copy_fresh in Hcopy as (-> & Hr1 & Hn1 & Ho1).
    unfold bind, new_dict, alloc, datetime_now, ret. simpl.
    intros [= <- <-]. unfold preserves_objects. simpl. split; [exact Hr1 |].
    intros l Hl. rewrite !lookup_insert_ne by lia. apply Ho1. lia.
  - intros [= <- <-]. unfold copy, bind, get, lift, new_dict in Hcopy.
    destruct (as_dict (heap e) st); [discriminate |].
    injection Hcopy as <- <-. now split.
Qed.

Lemma generic_preserves (f : WorkflowFailure.t) (st : hval) (e e' : engine)
    (o : outcome (option RepairSuggestion.t)) :
  suggest_generic_repair f st e = (o, e') -> preserves_objects e e'.
Proof.
  unfold suggest_generic_repair, bind, get, datetime_now, ret.
  destruct (repair_agent e); intros [= <- <-]; now split.
Qed.

End Preservation.

(* ===================================================================== *)
(** * Self-healing: applying a repair *)
(* ===================================================================== *)

Section ApplyRepair.
Import Py Store SelfHealing.

Lemma dict_lookup_set_eq {A} (k : string) (v : A) (d : list (string * A)) :
  WorkflowRegistry.dict_lookup k (WorkflowRegistry.dict_set k v d) = Some v.
Proof.
  induction d as [|[k' v'] d IH]; simpl.
  - now rewrite String.eqb_refl.
  - destruct (String.eqb k' k) eqn:E; simpl.
    + now rewrite String.eqb_refl.
    + now rewrite E.
Qed.

Lemma apply_repair_unapproved (s : RepairSuggestion.t) (e : engine) :
  apply_repair s false e = (Ok (failure_with "Repair requires human approval"), e).
Proof. reflexivity. Qed.

Lemma apply_repair_too_large (s : RepairSuggestion.t) (e : engine)
    (w : WorkflowRegistry.WorkflowSpec) :
  WorkflowRegistry.get_workflow (RepairSuggestion.workflow_name s) (registry e) = Some w ->
  (Z.of_nat (List.length (WorkflowRegistry.steps w)) <= RepairSuggestion.step_index s)%Z ->
  apply_repair s true e = (Ok (failure_with "Could not apply repair"), e).
Proof.
  intros Hget Hge. unfold apply_repair, try_except, bind, get. cbn [negb].
  rewrite Hget.
  rewrite (proj2 (Z.ltb_ge _ _) Hge). reflexivity.
Qed.

Lemma apply_repair_far_below (s : RepairSuggestion.t) (e : engine)
    (w : WorkflowRegistry.WorkflowSpec) :
  WorkflowRegistry.get_workflow (RepairSuggestion.workflow_name s) (registry e) = Some w ->
  (RepairSuggestion.step_index s < - Z.of_nat (List.length (WorkflowRegistry.steps w)))%Z ->
  apply_repair s true e =
    (Ok (failure_with
           "Repair application failed: list assignment index out of range"), e).
Proof.
  intros Hget Hlt. unfold apply_repair, try_except, bind at 1, get. cbn [negb].
  rewrite Hget.
  rewrite (proj2 (Z.ltb_lt _ _)) by lia.
  unfold bind at 1, assign_step, set_index.
  rewrite (proj2 (Z.leb_gt _ _)) by lia.
  rewrite (proj2 (Z.leb_gt _ _)) by lia.
  reflexivity.
Qed.

Lemma apply_repair_assigns (s : RepairSuggestion.t) (e : engine)
    (w : WorkflowRegistry.WorkflowSpec) :
  let n := List.length (WorkflowRegistry.steps w) in
  let i := RepairSuggestion.step_index s in
  WorkflowRegistry.get_workflow (RepairSuggestion.workflow_name s) (registry e) = Some w ->
  WorkflowRegistry.name w = RepairSuggestion.workflow_name s ->
  WorkflowRegistry.writable (registry e) = true ->
  (- Z.of_nat n <= i < Z.of_nat n)%Z ->
  exists e',
    apply_repair s true e = (Ok applied, e') /\
    heap e' = heap e /\
    steps_of (RepairSuggestion.workflow_name s) e' =
      Some (<[ position n i := RepairSuggestion.suggested_fix s ]>
              (WorkflowRegistry.steps w)).
Proof.
  intros n i Hget Hname Hw Hrange.
  unfold apply_repair, try_except, bind at 1, get. cbn [negb].
  rewrite Hget. fold i. fold n.
  rewrite (proj2 (Z.ltb_lt _ _)) by lia.
  unfold bind at 1, assign_step.
  assert (Hset : set_index (WorkflowRegistry.steps w) i (RepairSuggestion.suggested_fix s)
                 = Some (<[ position n i := RepairSuggestion.suggested_fix s ]>
                           (WorkflowRegistry.steps w))).
  { unfold set_index, position. fold n.
    destruct (0 <=? i)%Z eqn:Hi.
    - rewrite (proj2 (Z.ltb_lt _ _)) by lia. reflexivity.
    - apply Z.leb_gt in Hi. rewrite (proj2 (Z.leb_le _ _)) by lia. reflexivity. }
  fold i. rewrite Hset.
  unfold bind at 1, get. unfold bind at 1, put. unfold ret at 1.
  unfold bind at 1, save, WorkflowRegistry.save_workflow.
  cbn [registry set_registry WorkflowRegistry.writable WorkflowRegistry.name heap].
  rewrite Hw. unfold ret.
  eexists. split; [reflexivity |]. split; [reflexivity |].
  unfold steps_of, WorkflowRegistry.get_workflow.
  cbn [registry set_registry WorkflowRegistry.workflows].
  rewrite Hname, dict_lookup_set_eq. reflexivity.
Qed.

End ApplyRepair.

(* ===================================================================== *)
(** * More on the step-execution engine *)
(* ===================================================================== *)

Section MoreSubstitution.
Import Py MCPServer.

(** X1: substitution returns the arguments unchanged when no placeholder
    among their values names a key of [variables]; in particular when
    [variables] is empty, or when no value is a placeholder. *)
Theorem substitute_without_bound_placeholder (args variables : gmap string value) :
  (forall k v, args !! k = Some v -> is_placeholder v = true ->
               variables !! var_name v = None) ->
  _substitute_variables args variables = args.
Proof.
  intros H. unfold _substitute_variables. apply map_eq. intros k.
  rewrite lookup_fmap. destruct (args !! k) as [v|] eqn:Hk; [| reflexivity].
  simpl. f_equal. unfold substitute_value.
  destruct (is_placeholder v) eqn:Hp; [| reflexivity].
  now rewrite (H k v Hk Hp).
Qed.

Lemma substitute_without_bound_placeholder_witness :
  let args : gmap string value :=
    {[ "url" := VStr "${target}"; "retries" := VInt 3 ]} in
  (forall k v, args !! k = Some v -> is_placeholder v = true ->
               (∅ : gmap string value) !! var_name v = None) /\
  _substitute_variables args ∅ = args.
Proof.
  intros args.
  assert (H : forall k v, args !! k = Some v -> is_placeholder v = true ->
                          (∅ : gmap string value) !! var_name v = None)
    by (intros; apply lookup_empty).
  split; [exact H |].
  exact (substitute_without_bound_placeholder args ∅ H).
Defined.

End MoreSubstitution.

Section MoreRunSteps.
Import Py MCPServer MCPCommands.
Context {browser : Type}.
Variable command : string -> gmap string value -> M (@server browser) (gmap string value).

Lemma run_steps_results_from (steps : list value) :
  forall variables acc s results s',
    run_steps command steps variables acc s = (Ok results, s') ->
    Forall (fun r => failed r = false) acc ->
    exists new,
      results = (acc ++ new)%list /\
      List.length new <= List.length steps /\
      all_but_last_ok results.
Proof.
  induction steps as [|step rest IH]; intros variables acc s results s' Hrun Hacc.
  - injection Hrun as <- <-. exists []. rewrite app_nil_r. repeat split; [simpl; lia |].
    intros i r Hi _. eapply Forall_lookup_1 in Hacc; eauto.
  - cbn [run_steps] in Hrun. unfold bind at 1, lift in Hrun.
    destruct (dict_get step "action" VNone) as [action|]; [| discriminate].
    unfold bind at 1 in Hrun.
    destruct (dict_get step "args" (VDict ∅)) as [args|]; [| discriminate].
    unfold bind at 1 in Hrun.
    destruct (prepare_args args variables) as [av|]; [| discriminate].
    unfold bind at 1 in Hrun.
    destruct (in_commands action) as [[|]|]; [| | discriminate].
    + unfold bind at 1 in Hrun.
      destruct (call_command command action av.1 s) as [[result|] s1]; [| discriminate].
      destruct (failed result) eqn:Hf.
      * injection Hrun as <- <-. exists [result]. repeat split; [simpl; lia |].
        intros i r Hi Hlt. rewrite length_app in Hlt. simpl in Hlt.
        rewrite lookup_app_l in Hi by lia.
        eapply Forall_lookup_1 in Hacc; eauto.
      * apply IH in Hrun as (new & -> & Hlen & Hok).
        -- exists (result :: new). rewrite <- app_assoc. repeat split; [simpl; lia |].
           rewrite <- app_assoc in Hok. exact Hok.
        -- apply Forall_app. split; [exact Hacc |]. now constructor.
    + apply IH in Hrun as (new & -> & Hlen & Hok); [| exact Hacc].
      exists new. repeat split; [simpl; lia | exact Hok].
Qed.

Lemma last_failed_not_ok (acc : list (gmap string value)) (r : gmap string value) :
  Forall (fun r => failed r = false) acc -> last acc = Some r -> failed r = true -> False.
Proof.
  intros Hacc Hlast Hf. rewrite last_lookup in Hlast.
  eapply Forall_lookup_1 in Hacc; eauto. congruence.
Qed.

Lemma run_steps_cut_from (steps post : list value) :
  forall variables acc s results s',
    Forall (fun r => failed r = false) acc ->
    run_steps command steps variables acc s = (Ok results, s') ->
    (exists r, last results = Some r /\ failed r = true) ->
    run_steps command (steps ++ post) variables acc s = (Ok results, s').
Proof.
  induction steps as [|step rest IH]; intros variables acc s results s' Hacc Hrun Hlast.
  - injection Hrun as <- <-. destruct Hlast as (r & Hl & Hf).
    destruct (last_failed_not_ok _ _ Hacc Hl Hf).
  - rewrite <- app_comm_cons. cbn [run_steps] in *.
    unfold bind at 1, lift in Hrun. unfold bind at 1, lift.
    destruct (dict_get step "action" VNone) as [action|]; [| discriminate].
    unfold bind at 1 in Hrun. unfold bind at 1.
    destruct (dict_get step "args" (VDict ∅)) as [args|]; [| discriminate].
    unfold bind at 1 in Hrun. unfold bind at 1.
    destruct (prepare_args args variables) as [av|]; [| discriminate].
    unfold bind at 1 in Hrun. unfold bind at 1.
    destruct (in_commands action) as [[|]|]; [| | discriminate].
    + unfold bind at 1 in Hrun. unfold bind at 1.
      destruct (call_command command action av.1 s) as [[result|] s1]; [| discriminate].
      destruct (failed result) eqn:Hf; [exact Hrun |].
      apply IH; [| exact Hrun | exact Hlast].
      apply Forall_app. split; [exact Hacc |]. now constructor.
    + now apply IH.
Qed.

(** X2: in the loop of [run_workflow] every result but the last is a
    success, and there is at most one result per step: a failed result can
    only be the last one. *)
Theorem run_steps_results (steps : list value)
    (variables : option (gmap string value)) (s s' : @server browser)
    (results : list (gmap string value)) :
  run_steps command steps variables [] s = (Ok results, s') ->
  List.length results <= List.length steps /\ all_but_last_ok results.
Proof.
  intros Hrun.
  destruct (run_steps_results_from steps variables [] s results s' Hrun)
    as (new & -> & Hlen & Hok); [constructor |].
  split; [exact Hlen | exact Hok].
Qed.

(** X3: once a step has failed, the steps after it are never executed:
    a run whose last result is a failure gives the same results and leaves
    the server in the same state whatever steps are appended. *)
Theorem run_steps_stops_at_failure (steps post : list value)
    (variables : option (gmap string value)) (s s' : @server browser)
    (results : list (gmap string value)) (r : gmap string value) :
  run_steps command steps variables [] s = (Ok results, s') ->
  last results = Some r ->
  failed r = true ->
  run_steps command (steps ++ post) variables [] s = (Ok results, s').
Proof.
  intros Hrun Hlast Hf.
  apply run_steps_cut_from; [constructor | exact Hrun | eauto].
Qed.

End MoreRunSteps.

Section MoreRunStepsExamples.
Import Py MCPServer MCPCommands ServerScenario.

Lemma run_steps_results_witness :
  run_steps offline_browser [step "navigate" "url" "https://example.com"]
    None [] sample_server = (Ok [navigation_failure], sample_server) /\
  List.length [navigation_failure] <= 1 /\
  all_but_last_ok [navigation_failure].
Proof.
  split; [reflexivity |].
  exact (run_steps_results offline_browser
           [step "navigate" "url" "https://example.com"] None
           sample_server sample_server [navigation_failure] eq_refl).
Defined.

Lemma run_steps_stops_at_failure_witness :
  run_steps offline_browser [step "navigate" "url" "https://example.com"]
    None [] sample_server = (Ok [navigation_failure], sample_server) /\
  last [navigation_failure] = Some navigation_failure /\
  failed navigation_failure = true /\
  run_steps offline_browser
    ([step "navigate" "url" "https://example.com"]
     ++ [step "screenshot" "path" "test.png"; step "extract" "selector" "h1"])%list
    None [] sample_server = (Ok [navigation_failure], sample_server).
Proof.
  split; [reflexivity |]. split; [reflexivity |]. split; [reflexivity |].
  exact (run_steps_stops_at_failure offline_browser
           [step "navigate" "url" "https://example.com"]
           [step "screenshot" "path" "test.png"; step "extract" "selector" "h1"]
           None sample_server sample_server [navigation_failure]
           navigation_failure eq_refl eq_refl eq_refl).
Defined.

End MoreRunStepsExamples.

Section MoreExecute.
Import Py MCPServer.
Context {browser : Type}.
Variable command : string -> gmap string value -> M (@server browser) (gmap string value).

(** X4: [execute_command] never raises. For a registered name the last
    log entry afterwards records the name, the parameters and exactly the
    dict that is returned, also when the command raised; for an unknown
    name nothing is logged and the server is left as it was. *)
Theorem execute_command_logged (name : string) (parameters : gmap string value)
    (s : server) :
  exists d s',
    execute_command command name parameters s = (Ok d, s') /\
    (name ∈ registered ->
       exists entry,
         last (logs s') = Some entry /\
         log_command entry = name /\
         log_parameters entry = parameters /\
         log_result entry = d) /\
    (name ∉ registered -> s' = s /\ d = unknown_command name).
Proof.
  unfold execute_command, try_except.
  destruct (bool_decide (name ∈ registered)) eqn:Hreg.
  - apply bool_decide_eq_true in Hreg.
    unfold bind at 1.
    destruct (command name parameters s) as [[result|e] s1].
    + unfold bind, append_log, modify, ret. eexists _, _. split; [reflexivity |].
      split; [| intros Hn; contradiction].
      intros _. eexists. split; [simpl; apply last_snoc |]. repeat split.
    + unfold bind, append_log, modify, ret. eexists _, _. split; [reflexivity |].
      split; [| intros Hn; contradiction].
      intros _. eexists. split; [simpl; apply last_snoc |]. repeat split.
  - apply bool_decide_eq_false in Hreg.
    unfold ret. eexists _, _. split; [reflexivity |].
    split; [intros Hin; contradiction | intros _; split; reflexivity].
Qed.

End MoreExecute.

Section MoreExecuteExamples.
Import Py MCPServer ServerScenario.

Lemma execute_command_logged_witness :
  "navigate" ∈ registered /\
  exists d s' entry,
    execute_command online_browser "navigate" {[ "url" := VStr "https://a.b" ]}
      sample_server = (Ok d, s') /\
    last (logs s') = Some entry /\ log_result entry = d.
Proof.
  assert (Hreg : "navigate" ∈ registered) by (apply list_elem_of_In; simpl; auto).
  split; [exact Hreg |].
  destruct (execute_command_logged online_browser "navigate"
              {[ "url" := VStr "https://a.b" ]} sample_server)
    as (d & s' & Hrun & Hlog & _).
  destruct (Hlog Hreg) as (entry & Hlast & _ & _ & Hres).
  exists d, s', entry. auto.
Defined.

End MoreExecuteExamples.

Section RecordAndList.
Import Py MCPServer MCPCommands.
Context {browser : Type}.
Variable command : string -> gmap string value -> M (@server browser) (gmap string value).

(** X5: recording a workflow writes an empty shell under that name and
    touches nothing else; running the workflow right afterwards, with any
    variables and any commands, succeeds with no results and calls no
    command. This holds also when a workflow of that name existed before:
    recording over it discards its steps. *)
Theorem record_then_run_is_empty (name : string)
    (variables : option (gmap string value)) (s : @server browser) :
  exists s1,
    record_workflow true name s = (Ok (recording name), s1) /\
    logs s1 = logs s /\ actuator s1 = actuator s /\
    (forall other, other <> name ->
       workflows_dir s1 !! other = workflows_dir s !! other) /\
    run_workflow command name variables s1 = (Ok (workflow_result name []), s1).
Proof.
  eexists. split; [reflexivity |]. simpl. repeat split.
  - intros other Hne. now rewrite lookup_insert_ne.
  - unfold run_workflow, try_except, bind, get, lift. simpl.
    rewrite lookup_insert_eq. simpl.
    reflexivity.
Qed.

Lemma listing_all_mappings (files : list (string * file)) :
  Forall (fun kf => is_mapping kf.2) files ->
  exists entries, listing files = Ok entries /\ List.length entries = List.length files.
Proof.
  induction 1 as [|[stem f] rest [d Hd] _ (entries & IH & Hlen)].
  - exists []. split; reflexivity.
  - simpl in Hd. subst f. simpl. rewrite IH. eexists. split; [reflexivity |].
    simpl. now rewrite Hlen.
Qed.

Lemma listing_entry_needs_mapping (stem : string) (f : file) (v : value) :
  listing_entry stem f = Ok v -> is_mapping f.
Proof.
  unfold listing_entry, is_mapping. destruct f as [w|]; simpl; [| discriminate].
  destruct w; simpl; try discriminate. eauto.
Qed.

Lemma listing_some_unreadable (files : list (string * file)) :
  Exists (fun kf => ~ is_mapping kf.2) files ->
  exists e, listing files = Raise e.
Proof.
  induction 1 as [[stem f] rest Hbad | [stem f] rest _ (e & IH)]; simpl.
  - destruct (listing_entry stem f) as [v|e] eqn:E; [| eauto].
    destruct Hbad. eapply listing_entry_needs_mapping; eauto.
  - destruct (listing_entry stem f) as [v|e']; [| eauto].
    rewrite IH. eauto.
Qed.

(** X6: [list_workflows] is all or nothing. If every file of the
    directory holds a mapping, the listing succeeds with one entry per
    file; if a single file is malformed or holds something else than a
    mapping (an empty file, a list), the whole listing fails with an error
    result. The server is left as it was in both cases. *)
Theorem list_workflows_all_or_nothing (s : @server browser) :
  ((forall stem f, workflows_dir s !! stem = Some f -> is_mapping f) ->
   exists entries,
     list_workflows s = (Ok (listed entries), s) /\
     List.length entries = size (workflows_dir s)) /\
  (forall stem f, workflows_dir s !! stem = Some f -> ~ is_mapping f ->
   exists e, list_workflows s = (Ok (error_result e), s)).
Proof.
  split.
  - intros Hall.
    destruct (listing_all_mappings (map_to_list (workflows_dir s))) as (entries & Hl & Hlen).
    { apply Forall_forall. intros [stem f] Hin. apply elem_of_map_to_list in Hin.
      simpl. eauto. }
    exists entries. unfold list_workflows, try_except, bind, get, lift. rewrite Hl.
    split; [reflexivity |]. rewrite Hlen. apply length_map_to_list.
  - intros stem f Hf Hbad.
    destruct (listing_some_unreadable (map_to_list (workflows_dir s))) as (e & He).
    { apply Exists_exists. exists (stem, f). split; [| exact Hbad].
      now apply elem_of_map_to_list. }
    exists e. unfold list_workflows, try_except, bind, get, lift. now rewrite He.
Qed.

End RecordAndList.

Section RecordAndListExamples.
Import Py MCPServer MCPCommands ServerScenario.

Lemma list_workflows_all_or_nothing_witness :
  (forall stem f, workflows_dir sample_server !! stem = Some f -> is_mapping f) /\
  exists entries,
    list_workflows sample_server = (Ok (listed entries), sample_server) /\
    List.length entries = 2.
Proof.
  assert (H : forall stem f,
            workflows_dir sample_server !! stem = Some f -> is_mapping f).
  { intros stem f Hf. simpl in Hf.
    apply lookup_insert_Some in Hf as [[_ <-] | [_ Hf]]; [eexists; reflexivity |].
    apply lookup_singleton_Some in Hf as [_ <-]. eexists; reflexivity. }
  split; [exact H |].
  destruct (list_workflows_all_or_nothing sample_server) as [Hall _].
  destruct (Hall H) as (entries & Hrun & Hlen).
  exists entries. split; [exact Hrun |]. rewrite Hlen. reflexivity.
Defined.

End RecordAndListExamples.

(* ===================================================================== *)
(** * More on the workflow store *)
(* ===================================================================== *)

Section SaveAndGet.
Import Store WorkflowRegistry RegistryShape.

Lemma dict_lookup_set_ne {A} (k k' : string) (v : A) (d : list (string * A)) :
  k <> k' -> dict_lookup k' (dict_set k v d) = dict_lookup k' d.
Proof.
  intros Hne. induction d as [|[k0 v0] d IH]; simpl.
  - destruct (String.eqb k k') eqn:E; [| reflexivity].
    apply String.eqb_eq in E. contradiction.
  - destruct (String.eqb k0 k) eqn:E; simpl.
    + apply String.eqb_eq in E. subst k0.
      destruct (String.eqb k k') eqn:E'; [| reflexivity].
      apply String.eqb_eq in E'. contradiction.
    + now rewrite IH.
Qed.

Lemma dict_set_keys {A} (k : string) (v : A) (d : list (string * A)) :
  (dict_set k v d).*1 = if bool_decide (k ∈ d.*1) then d.*1 else (d.*1 ++ [k])%list.
Proof.
  induction d as [|[k0 v0] d IH].
  - reflexivity.
  - cbn [dict_set]. destruct (String.eqb k0 k) eqn:E.
    + apply String.eqb_eq in E. subst k0. rewrite !fmap_cons. cbn [fst].
      rewrite bool_decide_eq_true_2 by apply list_elem_of_here. reflexivity.
    + apply String.eqb_neq in E. rewrite !fmap_cons. cbn [fst]. rewrite IH.
      destruct (bool_decide (k ∈ d.*1)) eqn:B.
      * apply bool_decide_eq_true in B.
        rewrite bool_decide_eq_true_2 by (now apply list_elem_of_further). reflexivity.
      * apply bool_decide_eq_false in B.
        rewrite bool_decide_eq_false_2; [reflexivity |].
        intros Hin. apply elem_of_cons in Hin as [-> | Hin]; contradiction.
Qed.

Lemma dict_set_forall {A} (P : string * A -> Prop) (k : string) (v : A)
    (d : list (string * A)) :
  P (k, v) -> Forall P d -> Forall P (dict_set k v d).
Proof.
  intros Hkv. induction 1 as [|[k0 v0] d H0 Hd IH]; simpl.
  - now constructor.
  - destruct (String.eqb k0 k); constructor; auto.
Qed.

(** X7: saving and looking up round-trip. After a successful
    [save_workflow(spec)], [get_workflow(spec.name)] returns that spec and
    its file holds it, while every other name reads as before, in the
    index and on disk. A failed write returns [False] and changes nothing. *)
Theorem save_then_get (spec : WorkflowSpec) (h : Store.heap) (r : registry) :
  let r' := (save_workflow spec h r).2 in
  (writable r = true ->
   (save_workflow spec h r).1 = true /\
   get_workflow (name spec) r' = Some spec /\
   files r' !! name spec = Some (spec, h) /\
   (forall other, other <> name spec ->
      get_workflow other r' = get_workflow other r /\
      files r' !! other = files r !! other)) /\
  (writable r = false -> save_workflow spec h r = (false, r)).
Proof.
  intros r'. split; [| unfold save_workflow; now intros ->].
  intros Hw. unfold r', save_workflow. rewrite Hw. simpl.
  split; [reflexivity |]. split; [| split].
  - unfold get_workflow. simpl. clear. induction (workflows r) as [|[k v] d IH]; simpl.
    + now rewrite String.eqb_refl.
    + destruct (String.eqb k (name spec)) eqn:E; simpl.
      * now rewrite String.eqb_refl.
      * now rewrite E.
  - apply lookup_insert_eq.
  - intros other Hne. split.
    + unfold get_workflow. simpl. apply dict_lookup_set_ne. congruence.
    + apply lookup_insert_ne. congruence.
Qed.

(** X8: the index stays a dict keyed by name. If every workflow is indexed
    under its own name and no key occurs twice, the same holds after
    [save_workflow], whether or not the write succeeds; the iteration order
    of the existing workflows is kept: an existing name keeps its place and
    a new name goes last. *)
Theorem save_keeps_shape (spec : WorkflowSpec) (h : Store.heap) (r : registry) :
  well_formed r ->
  let r' := (save_workflow spec h r).2 in
  well_formed r' /\
  (keys r' = keys r \/
   ((name spec ∉ keys r) /\ keys r' = (keys r ++ [name spec])%list)).
Proof.
  intros [Hk Hnd] r'. unfold r', save_workflow.
  destruct (writable r); simpl; [| split; [split; assumption | now left]].
  unfold well_formed, keyed_by_name, keys. simpl.
  rewrite dict_set_keys.
  destruct (bool_decide (name spec ∈ (workflows r).*1)) eqn:B.
  - split; [| now left]. split; [| exact Hnd].
    apply dict_set_forall; [reflexivity | exact Hk].
  - apply bool_decide_eq_false in B. split; [| right; now split].
    split; [apply dict_set_forall; [reflexivity | exact Hk] |].
    apply NoDup_app. repeat split; [exact Hnd | | apply NoDup_singleton].
    intros x Hx Hx'. apply list_elem_of_singleton in Hx'. subst. contradiction.
Qed.

Lemma contains_empty (s : string) : PyStr.contains "" s = true.
Proof. destruct s; reflexivity. Qed.

(** X9: edge inputs of [find_workflow]. An empty intent matches every
    name, so the first workflow of the store is returned (none for an
    empty store); an empty site string behaves like no site; and whatever
    is returned is a workflow of the store. *)
Theorem find_degenerate_inputs (r : registry) (site : option string) (intent : string) :
  find_workflow site "" r = head (values r) /\
  find_workflow (Some "") intent r = find_workflow None intent r /\
  (forall w, find_workflow site intent r = Some w -> w ∈ values r).
Proof.
  unfold find_workflow. repeat split.
  - destruct (values r) as [|w rest]; [reflexivity |]. rewrite find_in_step.
    assert (H : name_matches "" w = true) by apply contains_empty.
    rewrite H, orb_true_r. reflexivity.
  - induction (values r) as [|w rest IH]; [reflexivity |]. rewrite !find_in_step.
    assert (H1 : domain_matches (Some "") w = false)
      by (unfold domain_matches; destruct (domain w); reflexivity).
    assert (H2 : domain_matches None w = false) by reflexivity.
    now rewrite H1, H2, IH.
  - induction (values r) as [|x rest IH]; simpl; [discriminate |].
    intros w. destruct (domain_matches site x).
    + intros [= <-]. apply list_elem_of_here.
    + destruct (name_matches intent x).
      * intros [= <-]. apply list_elem_of_here.
      * intros H. apply list_elem_of_further. now apply IH.
Qed.

End SaveAndGet.

Section SaveAndGetExamples.
Import Store WorkflowRegistry RegistryShape.

Lemma save_then_get_witness :
  writable jira_only = true /\
  get_workflow "export_report" (save_workflow export_report empty_heap jira_only).2
    = Some export_report /\
  get_workflow "jira_ticket_export"
    (save_workflow export_report empty_heap jira_only).2
    = Some jira_ticket_export.
Proof.
  split; [reflexivity |].
  destruct (save_then_get export_report empty_heap jira_only) as [H _].
  destruct (H eq_refl) as (_ & Hget & _ & Hother).
  split; [exact Hget |].
  destruct (Hother "jira_ticket_export") as [Ho _]; [discriminate |].
  rewrite Ho. reflexivity.
Defined.

Lemma jira_only_well_formed : well_formed jira_only.
Proof.
  split.
  - repeat constructor.
  - apply NoDup_singleton.
Qed.

Lemma save_keeps_shape_witness :
  well_formed jira_only /\
  well_formed (save_workflow export_report empty_heap jira_only).2 /\
  keys (save_workflow export_report empty_heap jira_only).2
    = ["jira_ticket_export"; "export_report"].
Proof.
  split; [exact jira_only_well_formed |].
  destruct (save_keeps_shape export_report empty_heap jira_only jira_only_well_formed)
    as [Hwf _].
  split; [exact Hwf | reflexivity].
Defined.

Lemma find_degenerate_inputs_witness :
  find_workflow None "ticket" jira_only = Some jira_ticket_export /\
  jira_ticket_export ∈ values jira_only /\
  find_workflow None "" reports_then_jira = Some export_report.
Proof.
  destruct (find_degenerate_inputs jira_only None "ticket") as (_ & _ & Hin).
  destruct (find_degenerate_inputs reports_then_jira None "ticket") as (Hfirst & _).
  split; [reflexivity |]. split.
  - exact (Hin jira_ticket_export eq_refl).
  - rewrite Hfirst. reflexivity.
Defined.

End SaveAndGetExamples.

(* ===================================================================== *)
(** * More on the prompt router *)
(* ===================================================================== *)

Section UrlSearch.
Import Py Router RouterShape PyStrFacts.
Import SubstitutionSpec.

Lemma span_spec (p : ascii -> bool) (s : string) :
  s = (span p s).1 ++ (span p s).2 /\
  all_chars p (span p s).1 = true /\
  ((span p s).2 = "" \/ exists c rest, (span p s).2 = String c rest /\ p c = false).
Proof.
  induction s as [|c s (IH1 & IH2 & IH3)]; simpl.
  - repeat split. now left.
  - destruct (p c) eqn:Hc; simpl.
    + rewrite app_cons, <- IH1, Hc, IH2. repeat split. exact IH3.
    + repeat split. right. eauto.
Qed.

Lemma url_at_spec (s url : string) :
  url_at s = Some url -> exists rest, s = url ++ rest /\ url_shape url rest.
Proof.
  unfold url_at.
  assert (Hafter : forall scheme b,
            (scheme = "https://" \/ scheme = "http://") ->
            s = scheme ++ b -> drop (String.length scheme) s = b ->
            (let run := (span non_space (drop (String.length scheme) s)).1 in
             if String.eqb run "" then None else Some (scheme ++ run)) = Some url ->
            exists rest, s = url ++ rest /\ url_shape url rest).
  { intros scheme b Hscheme Hs Hdrop. rewrite Hdrop. cbv zeta.
    destruct (span_spec non_space b) as (Hb & Hall & Hrest).
    destruct (String.eqb (span non_space b).1 "") eqn:E; [discriminate |].
    intros [= <-]. exists (span non_space b).2. split.
    - rewrite app_assoc, <- Hb. exact Hs.
    - exists scheme, (span non_space b).1. repeat split; try assumption.
      + now apply String.eqb_neq.
      + destruct Hrest as [-> | (c & rest' & -> & Hc)]; [now left |].
        right. exists c, rest'. split; [reflexivity |].
        unfold non_space in Hc. now apply negb_false_iff in Hc. }
  destruct (PyStr.startswith s "https://") eqn:H1.
  - apply startswith_spec in H1 as [b Hb]. apply (Hafter "https://" b); auto.
    subst s. reflexivity.
  - destruct (PyStr.startswith s "http://") eqn:H2; [| discriminate].
    apply startswith_spec in H2 as [b Hb]. apply (Hafter "http://" b); auto.
    subst s. reflexivity.
Qed.

Lemma search_spec {A} (f : string -> option A) (s : string) (x : A) :
  search f s = Some x ->
  exists a b, s = a ++ b /\ f b = Some x /\
    forall a1 a2, a = a1 ++ a2 -> a2 <> "" -> f (a2 ++ b) = None.
Proof.
  induction s as [|c s IH]; simpl.
  - destruct (f "") eqn:E; [| discriminate]. intros [= <-]. exists "", "".
    repeat split; [exact E |]. intros a1 a2 Ha Hne.
    destruct a1; destruct a2; try discriminate. now destruct Hne.
  - destruct (f (String c s)) eqn:E.
    + intros [= <-]. exists "", (String c s). repeat split; [exact E |].
      intros a1 a2 Ha Hne. destruct a1; destruct a2; try discriminate.
      now destruct Hne.
    + intros H. destruct (IH H) as (a & b & -> & Hb & Hleft).
      exists (String c a), b. repeat split; [exact Hb |].
      intros a1 a2 Ha Hne. destruct a1 as [|c1 a1].
      * rewrite app_nil_l in Ha. subst a2. rewrite app_cons. exact E.
      * rewrite app_cons in Ha. injection Ha as <- Ha. now apply Hleft with a1.
Qed.

Lemma search_none {A} (f : string -> option A) (s : string) :
  search f s = None -> forall a b, s = a ++ b -> f b = None.
Proof.
  induction s as [|c s IH]; simpl.
  - destruct (f "") eqn:E; [discriminate |]. intros _ a b Hab.
    destruct a; destruct b; try discriminate. exact E.
  - destruct (f (String c s)) eqn:E; [discriminate |]. intros H a b Hab.
    destruct a as [|c1 a].
    + rewrite app_nil_l in Hab. now subst b.
    + rewrite app_cons in Hab. injection Hab as <- Hab. now apply (IH H a).
Qed.

(** X10: the URL that the router extracts from a prompt. When the search
    finds one, the prompt reads [before ++ url ++ rest] where [url] is
    ["http://"] or ["https://"] followed by a non-empty run of non-blank
    characters, the run ends at a blank or at the end of the prompt, and
    the pattern matches at no earlier position; when the search finds
    none, the pattern matches at no position of the prompt. *)
Theorem url_search_leftmost (prompt : string) :
  (forall url, search url_at prompt = Some url ->
     exists before rest,
       prompt = before ++ url ++ rest /\ url_shape url rest /\
       forall a1 a2, before = a1 ++ a2 -> a2 <> "" ->
                     url_at (a2 ++ url ++ rest) = None) /\
  (search url_at prompt = None ->
     forall before rest, prompt = before ++ rest -> url_at rest = None).
Proof.
  split.
  - intros url H. destruct (search_spec _ _ _ H) as (a & b & -> & Hb & Hleft).
    destruct (url_at_spec _ _ Hb) as (rest & -> & Hshape).
    exists a, rest. repeat split; assumption.
  - apply search_none.
Qed.

End UrlSearch.

Section UrlSearchExamples.
Import Py Router RouterShape.

Lemma url_search_leftmost_witness :
  search url_at "open https://foo.com now" = Some "https://foo.com" /\
  exists before rest,
    "open https://foo.com now" = before ++ "https://foo.com" ++ rest /\
    url_shape "https://foo.com" rest.
Proof.
  split; [reflexivity |].
  destruct (url_search_leftmost "open https://foo.com now") as [H _].
  destruct (H "https://foo.com" eq_refl) as (before & rest & Hp & Hs & _).
  exists before, rest. split; assumption.
Defined.

End UrlSearchExamples.

Section MoreRouting.
Import Py Router RouterShape.
Context {browser : Type}.
Variable command :
  string -> gmap string value -> M (@MCPServer.server browser) (gmap string value).
Variable oracle : string -> outcome answer.





End MoreRouting.

Section MoreRoutingExamples.
Import Py Router RouterShape.


End MoreRoutingExamples.

(* ===================================================================== *)
(** * More on self-healing: what suggestion generation leaves alone *)
(* ===================================================================== *)

Module HealingKeeps.
Import Py Store SelfHealing HealingBooks.

Lemma same_books_refl (e : engine) : same_books e e.
Proof. repeat split. Qed.

Lemma same_books_trans (e1 e2 e3 : engine) :
  same_books e1 e2 -> same_books e2 e3 -> same_books e1 e3.
Proof.
  unfold same_books. intros (A1 & A2 & A3 & A4 & A5 & A6 & A7)
    (B1 & B2 & B3 & B4 & B5 & B6 & B7).
  repeat split; congruence.
Qed.

Lemma keeps_ret {A} (a : A) : keeps_books (ret a).
Proof. intros e o e' [= <- <-]. apply same_books_refl. Qed.

Lemma keeps_raise {A} (x : exn) : keeps_books (@raise engine A x).
Proof. intros e o e' [= <- <-]. apply same_books_refl. Qed.

Lemma keeps_lift {A} (x : outcome A) : keeps_books (lift x).
Proof. intros e o e' [= <- <-]. apply same_books_refl. Qed.

Lemma keeps_get : keeps_books (@get engine).
Proof. intros e o e' [= <- <-]. apply same_books_refl. Qed.

Lemma keeps_bind {A B} (m : M engine A) (k : A -> M engine B) :
  keeps_books m -> (forall a, keeps_books (k a)) -> keeps_books (bind m k).
Proof.
  intros Hm Hk e o e'. unfold bind.
  destruct (m e) as [[a|x] e1] eqn:E.
  - intros H. eapply same_books_trans; [eapply Hm; eauto | eapply Hk; eauto].
  - intros [= <- <-]. eapply Hm; eauto.
Qed.

Lemma keeps_try_except {A} (m : M engine A) (k : exn -> M engine A) :
  keeps_books m -> (forall x, keeps_books (k x)) -> keeps_books (try_except m k).
Proof.
  intros Hm Hk e o e'. unfold try_except.
  destruct (m e) as [[a|x] e1] eqn:E.
  - intros [= <- <-]. eapply Hm; eauto.
  - intros H. eapply same_books_trans; [eapply Hm; eauto | eapply Hk; eauto].
Qed.


Lemma keeps_new_dict (d : gmap string hval) : keeps_books (new_dict d).
Proof.
  intros e o e'. unfold new_dict. destruct (alloc d (heap e)).
  intros [= <- <-]. repeat split.
Qed.

Lemma keeps_datetime_now : keeps_books datetime_now.
Proof. intros e o e' [= <- <-]. repeat split. Qed.

Lemma keeps_setitem (v : hval) (k : string) (x : hval) : keeps_books (setitem v k x).
Proof.
  intros e o e'. unfold setitem, bind, get, put, raise.
  destruct v; try (intros [= <- <-]; apply same_books_refl).
  destruct (deref (heap e) l); intros [= <- <-]; repeat split.
Qed.

End HealingKeeps.

Ltac keeps :=
  repeat first
    [ apply HealingKeeps.keeps_ret | apply HealingKeeps.keeps_raise | apply HealingKeeps.keeps_lift | apply HealingKeeps.keeps_get
    | apply HealingKeeps.keeps_new_dict | apply HealingKeeps.keeps_datetime_now | apply HealingKeeps.keeps_setitem
    | apply HealingKeeps.keeps_bind; [| intros ?]
    | apply HealingKeeps.keeps_try_except; [| intros ?]
    | match goal with
      | |- HealingBooks.keeps_books (match ?x with _ => _ end) => destruct x
      | |- HealingBooks.keeps_books (if ?x then _ else _) => destruct x
      end ].


Section Books.
Import Py Store SelfHealing HealingBooks HealingKeeps.

Lemma keeps_copy (v : hval) : keeps_books (copy v).
Proof. unfold copy. keeps. Qed.

Lemma keeps_getitem (v : hval) (k : string) : keeps_books (getitem v k).
Proof. unfold getitem. keeps. Qed.

Lemma keeps_get_ai (st : hval) : keeps_books (get_ai_selector_suggestion st).
Proof. unfold get_ai_selector_suggestion. keeps. Qed.

Lemma keeps_classify (f : WorkflowFailure.t) (st : hval) :
  keeps_books (classify_and_suggest_repair f st).
Proof.
  unfold classify_and_suggest_repair, suggest_selector_repair,
    suggest_timeout_repair, suggest_network_repair, suggest_auth_repair,
    suggest_generic_repair.
  pose proof keeps_copy. pose proof keeps_getitem. pose proof keeps_get_ai.
  repeat first
    [ apply keeps_copy | apply keeps_getitem | apply keeps_get_ai | progress keeps ].
Qed.

Lemma keeps_analyze (f : WorkflowFailure.t) : keeps_books (analyze_and_repair f).
Proof.
  unfold analyze_and_repair.
  repeat first [ apply keeps_classify | progress keeps ].
Qed.

End Books.

(* ===================================================================== *)
(** * More on self-healing: handling a failure *)
(* ===================================================================== *)

Section Handle.
Import Py Store SelfHealing HealingBooks HealingKeeps.

Lemma classify_names_failure (f : WorkflowFailure.t) (st : hval)
    (e e' : engine) (s : RepairSuggestion.t) :
  classify_and_suggest_repair f st e = (Ok (Some s), e') ->
  RepairSuggestion.workflow_name s = WorkflowFailure.workflow_name f /\
  RepairSuggestion.step_index s = WorkflowFailure.step_index f.
Proof.
  unfold classify_and_suggest_repair.
  repeat match goal with |- context [if ?b then _ else _] => destruct b end.
  - unfold suggest_selector_repair, copy, getitem, setitem, new_dict,
      get_ai_selector_suggestion, datetime_now.
    intros H. run_cases H; injection H as <- <-; split; reflexivity.
  - unfold suggest_timeout_repair, copy, getitem, setitem, new_dict, datetime_now.
    intros H. run_cases H; injection H as <- <-; split; reflexivity.
  - unfold suggest_network_repair, copy, getitem, setitem, new_dict, datetime_now.
    intros H. run_cases H; injection H as <- <-; split; reflexivity.
  - unfold suggest_auth_repair, copy, getitem, setitem, new_dict, datetime_now.
    intros H. run_cases H; injection H as <- <-; split; reflexivity.
  - unfold suggest_generic_repair, datetime_now.
    intros H. run_cases H; injection H as <- <-; split; reflexivity.
Qed.

Lemma analyze_returns (f : WorkflowFailure.t) (e : engine) :
  exists o e', analyze_and_repair f e = (Ok o, e') /\ same_books e e' /\
    forall s, o = Some s ->
      RepairSuggestion.workflow_name s = WorkflowFailure.workflow_name f /\
      RepairSuggestion.step_index s = WorkflowFailure.step_index f.
Proof.
  destruct (analyze_and_repair f e) as [o e'] eqn:Hrun.
  pose proof (keeps_analyze f e o e' Hrun) as Hbooks.
  unfold analyze_and_repair, try_except in Hrun.
  match type of Hrun with
  | (let (_, _) := ?m e in _) = _ => destruct (m e) as [[o1|x] e1] eqn:Hbody
  | match ?m e with _ => _ end = _ => destruct (m e) as [[o1|x] e1] eqn:Hbody
  end.
  - injection Hrun as <- <-. exists o1, e1.
    split; [reflexivity |]. split; [exact Hbooks |].
    intros s ->. unfold bind, get in Hbody.
    destruct (WorkflowRegistry.get_workflow _ _); [| discriminate].
    destruct (_ <=? _)%Z; [discriminate |].
    unfold lift in Hbody. destruct (step_at _ _); [| discriminate].
    now apply classify_names_failure in Hbody.
  - injection Hrun as <- <-. exists None, e1.
    split; [reflexivity |]. split; [exact Hbooks |]. discriminate.
Qed.

(** What a run of [handle_workflow_failure] returns and leaves behind. *)
Lemma handle_workflow_failure_run (workflow_name : string) (step_index : Z)
    (error_type error_message : string)
    (screenshot_path dom_snapshot : option string) (e : engine) :
  exists r e',
    handle_workflow_failure workflow_name step_index error_type error_message
      screenshot_path dom_snapshot e = (Ok r, e') /\
    registry e' = registry e /\
    (healing_enabled e = false ->
       e' = e /\ r = failure_with "Self-healing is disabled") /\
    (healing_enabled e = true ->
       (exists f,
          failures_log e' = (failures_log e ++ [f])%list /\
          WorkflowFailure.workflow_name f = workflow_name /\
          WorkflowFailure.step_index f = step_index /\
          WorkflowFailure.error_type f = error_type /\
          WorkflowFailure.error_message f = error_message) /\
       match suggestion r with
       | Some s =>
           r = suggested s /\
           repair_suggestions e' = (repair_suggestions e ++ [s])%list /\
           RepairSuggestion.workflow_name s = workflow_name /\
           RepairSuggestion.step_index s = step_index /\
           repairs_dir e' =
             (if repairs_writable e then (repairs_dir e ++ [s])%list
              else repairs_dir e)
       | None =>
           r = no_suggestion /\
           repair_suggestions e' = repair_suggestions e /\
           repairs_dir e' = repairs_dir e
       end).
Proof.
  unfold handle_workflow_failure, bind at 1, get.
  destruct (healing_enabled e) eqn:Hen; cbn [negb].
  - unfold try_except, bind at 1, datetime_now.
    unfold bind at 1, record_failure, modify.
    unfold bind at 1.
    match goal with
    | |- context [analyze_and_repair ?f ?e1] =>
        destruct (analyze_returns f e1)
          as (o & e2 & -> & (B1 & B2 & B3 & B4 & B5 & B6 & B7) & Hnames)
    end.
    cbn in B1, B2, B3, B4, B5, B6, B7.
    destruct o as [s|].
    + destruct (Hnames s eq_refl) as [Hn Hi]. cbn in Hn, Hi.
      unfold bind, record_suggestion, save_repair_suggestion, modify,
        datetime_now, ret. cbn.
      rewrite <- B7.
      destruct (repairs_writable e2) eqn:Hw; cbn; rewrite ?Hw;
        (eexists _, _; split; [reflexivity |]; cbn;
         split; [exact B1 |]; split; [discriminate |]; intros _; split;
         [ eexists; split; [exact B2 | repeat split]
         | repeat split; try assumption; congruence ]).
    + unfold ret. eexists _, _. split; [reflexivity |]. split; [exact B1 |].
      split; [discriminate |]. intros _. split.
      * eexists. split; [exact B2 | repeat split].
      * cbn. repeat split; assumption.
  - unfold ret. eexists _, _. split; [reflexivity |]. split; [reflexivity |].
    split; [intros _; split; reflexivity | discriminate].
Qed.


End Handle.

(* ===================================================================== *)
(** * More on self-healing: applying a repair *)
(* ===================================================================== *)

Section MoreApply.
Import Py Store SelfHealing HealingBooks.

Lemma set_index_in_range {A} (xs : list A) (i : Z) (x : A) :
  (i < Z.of_nat (List.length xs))%Z ->
  set_index xs i x =
    if (- Z.of_nat (List.length xs) <=? i)%Z
    then Some (<[ position (List.length xs) i := x ]> xs) else None.
Proof.
  intros Hlt. unfold set_index, position.
  destruct (0 <=? i)%Z eqn:H0.
  - apply Z.leb_le in H0. rewrite (proj2 (Z.ltb_lt _ _) Hlt).
    rewrite (proj2 (Z.leb_le _ _)) by lia. reflexivity.
  - apply Z.leb_gt in H0.
    destruct (0 <=? i + Z.of_nat (List.length xs))%Z eqn:H1.
    + apply Z.leb_le in H1. rewrite (proj2 (Z.leb_le _ _)) by lia. reflexivity.
    + apply Z.leb_gt in H1. rewrite (proj2 (Z.leb_gt _ _)) by lia. reflexivity.
Qed.

Lemma position_lt (n : nat) (i : Z) : in_range n i -> position n i < n.
Proof. unfold in_range, position. destruct (0 <=? i)%Z eqn:H; lia. Qed.

Lemma get_workflow_name (r : WorkflowRegistry.registry) (nm : string)
    (w : WorkflowRegistry.WorkflowSpec) :
  RegistryShape.keyed_by_name r ->
  WorkflowRegistry.get_workflow nm r = Some w -> WorkflowRegistry.name w = nm.
Proof.
  unfold RegistryShape.keyed_by_name, WorkflowRegistry.get_workflow.
  induction 1 as [|[k v] d Hk _ IH]; simpl; [discriminate |].
  destruct (String.eqb k nm) eqn:E.
  - intros [= <-]. apply String.eqb_eq in E. simpl in Hk. congruence.
  - exact IH.
Qed.

(** X14: [apply_repair] never raises and never touches the objects in
    memory, the failure log or the suggestion list. Without approval it
    changes nothing at all. It reports success only if it was approved, the
    workflow exists, the index is one Python accepts for the step list and
    the file could be written; whenever it reports failure, no file has
    changed. *)
Theorem apply_repair_outcomes (s : RepairSuggestion.t) (approved : bool) (e : engine) :
  exists r e',
    apply_repair s approved e = (Ok r, e') /\
    heap e' = heap e /\
    failures_log e' = failures_log e /\
    repair_suggestions e' = repair_suggestions e /\
    (approved = false ->
       e' = e /\ r = failure_with "Repair requires human approval") /\
    (success r = true ->
       approved = true /\
       WorkflowRegistry.writable (registry e) = true /\
       exists w,
         WorkflowRegistry.get_workflow (RepairSuggestion.workflow_name s) (registry e)
           = Some w /\
         in_range (List.length (WorkflowRegistry.steps w))
                  (RepairSuggestion.step_index s)) /\
    (success r = false ->
       WorkflowRegistry.files (registry e') = WorkflowRegistry.files (registry e)).
Proof.
  destruct approved; cbn [apply_repair negb];
    [| eexists _, _; repeat split; discriminate].
  unfold apply_repair, try_except, bind at 1, get. cbn [negb].
  destruct (WorkflowRegistry.get_workflow _ _) as [w|] eqn:Hget;
    [| eexists _, _; repeat split; discriminate].
  destruct (_ <? _)%Z eqn:Hlt;
    [| eexists _, _; repeat split; discriminate].
  apply Z.ltb_lt in Hlt.
  unfold bind at 1, assign_step. rewrite (set_index_in_range _ _ _ Hlt).
  destruct (_ <=? _)%Z eqn:Hlow.
  - apply Z.leb_le in Hlow.
    unfold bind at 1, get. unfold bind at 1, put. unfold ret at 1.
    unfold bind at 1, save, WorkflowRegistry.save_workflow.
    cbn [registry set_registry WorkflowRegistry.writable heap].
    destruct (WorkflowRegistry.writable (registry e)) eqn:Hw; unfold ret.
    + eexists _, _. split; [reflexivity |]. cbn. repeat split; try discriminate.
      exists w. split; [reflexivity |]. split; assumption.
    + eexists _, _. split; [reflexivity |]. cbn. repeat split; discriminate.
  - eexists _, _. split; [reflexivity |]. cbn. repeat split; discriminate.
Qed.

Lemma apply_repair_run (s : RepairSuggestion.t) (e : engine)
    (w : WorkflowRegistry.WorkflowSpec) :
  let nm := RepairSuggestion.workflow_name s in
  let i := RepairSuggestion.step_index s in
  let w' := with_step w i (RepairSuggestion.suggested_fix s) in
  RegistryShape.keyed_by_name (registry e) ->
  WorkflowRegistry.get_workflow nm (registry e) = Some w ->
  in_range (List.length (WorkflowRegistry.steps w)) i ->
  exists e',
    apply_repair s true e =
      (Ok (if WorkflowRegistry.writable (registry e) then applied
           else failure_with "Could not apply repair"), e') /\
    heap e' = heap e /\
    WorkflowRegistry.get_workflow nm (registry e') = Some w' /\
    (forall other, other <> nm ->
       WorkflowRegistry.get_workflow other (registry e') =
       WorkflowRegistry.get_workflow other (registry e)) /\
    WorkflowRegistry.files (registry e') =
      (if WorkflowRegistry.writable (registry e)
       then <[ nm := (w', heap e) ]> (WorkflowRegistry.files (registry e))
       else WorkflowRegistry.files (registry e)).
Proof.
  intros nm i w' Hkeyed Hget [Hlow Hhigh].
  pose proof (get_workflow_name _ _ _ Hkeyed Hget) as Hname.
  unfold apply_repair, try_except, bind at 1, get. cbn [negb].
  fold nm. rewrite Hget. fold i.
  rewrite (proj2 (Z.ltb_lt _ _) Hhigh).
  unfold bind at 1, assign_step. rewrite (set_index_in_range _ _ _ Hhigh).
  rewrite (proj2 (Z.leb_le _ _) Hlow).
  unfold bind at 1, get. unfold bind at 1, put. unfold ret at 1.
  unfold bind at 1, save, WorkflowRegistry.save_workflow.
  cbn [registry set_registry WorkflowRegistry.writable heap WorkflowRegistry.name].
  fold w'. rewrite Hname.
  destruct (WorkflowRegistry.writable (registry e)) eqn:Hw; unfold ret;
    eexists; (split; [reflexivity |]); cbn; unfold WorkflowRegistry.get_workflow; cbn;
    repeat split.
  all: try (intros other Hne; rewrite ?dict_lookup_set_ne by congruence;
            reflexivity).
  all: rewrite ?dict_lookup_set_eq; unfold w', with_step; rewrite ?Hname;
    reflexivity.
Qed.

(** X15: an approved repair on a writable registry replaces exactly one
    step. The step list keeps its length, the addressed position holds the
    suggested fix, every other position holds what it held, every other
    workflow is untouched, and the file of the workflow holds the new step
    list. *)
Theorem apply_repair_replaces_one_step (s : RepairSuggestion.t) (e : engine)
    (w : WorkflowRegistry.WorkflowSpec) :
  let nm := RepairSuggestion.workflow_name s in
  let i := RepairSuggestion.step_index s in
  let n := List.length (WorkflowRegistry.steps w) in
  RegistryShape.keyed_by_name (registry e) ->
  WorkflowRegistry.writable (registry e) = true ->
  WorkflowRegistry.get_workflow nm (registry e) = Some w ->
  in_range n i ->
  exists e' steps',
    apply_repair s true e = (Ok applied, e') /\
    steps_of nm e' = Some steps' /\
    List.length steps' = n /\
    steps' !! position n i = Some (RepairSuggestion.suggested_fix s) /\
    (forall j, j <> position n i -> steps' !! j = WorkflowRegistry.steps w !! j) /\
    (forall other, other <> nm -> steps_of other e' = steps_of other e) /\
    (exists w', WorkflowRegistry.files (registry e') !! nm = Some (w', heap e) /\
                WorkflowRegistry.steps w' = steps').
Proof.
  intros nm i n Hkeyed Hw Hget Hrange. subst nm i n.
  destruct (apply_repair_run s e w Hkeyed Hget Hrange)
    as (e' & Hrun & Hheap & Hget' & Hother & Hfiles).
  rewrite Hw in Hrun, Hfiles.
  exists e', (WorkflowRegistry.steps
                (with_step w (RepairSuggestion.step_index s)
                   (RepairSuggestion.suggested_fix s))).
  split; [exact Hrun |]. split; [unfold steps_of; now rewrite Hget' |].
  cbn [with_step WorkflowRegistry.steps]. repeat split.
  - apply length_insert.
  - apply list_lookup_insert_eq. now apply position_lt.
  - intros j Hj. now apply list_lookup_insert_ne.
  - intros other Hne. unfold steps_of. now rewrite Hother.
  - eexists. split; [rewrite Hfiles; apply lookup_insert_eq | reflexivity].
Qed.

(** X16: when the file cannot be written, an approved repair reports
    "Could not apply repair" and leaves the files as they were, but the
    step has already been replaced in the workflow the registry holds in
    memory: memory and disk disagree afterwards. *)
Theorem apply_repair_unsaved_still_replaces (s : RepairSuggestion.t) (e : engine)
    (w : WorkflowRegistry.WorkflowSpec) :
  let nm := RepairSuggestion.workflow_name s in
  let i := RepairSuggestion.step_index s in
  let n := List.length (WorkflowRegistry.steps w) in
  RegistryShape.keyed_by_name (registry e) ->
  WorkflowRegistry.writable (registry e) = false ->
  WorkflowRegistry.get_workflow nm (registry e) = Some w ->
  in_range n i ->
  exists e',
    apply_repair s true e = (Ok (failure_with "Could not apply repair"), e') /\
    WorkflowRegistry.files (registry e') = WorkflowRegistry.files (registry e) /\
    steps_of nm e' =
      Some (<[ position n i := RepairSuggestion.suggested_fix s ]>
              (WorkflowRegistry.steps w)).
Proof.
  intros nm i n Hkeyed Hw Hget Hrange. subst nm i n.
  destruct (apply_repair_run s e w Hkeyed Hget Hrange)
    as (e' & Hrun & Hheap & Hget' & Hother & Hfiles).
  rewrite Hw in Hrun, Hfiles.
  exists e'. split; [exact Hrun |]. split; [exact Hfiles |].
  unfold steps_of. now rewrite Hget'.
Qed.

(** X17: a suggestion whose fix is the very step it addresses changes
    nothing when applied: the step list afterwards is the one before.
    The generic generator makes such suggestions: its fix is the failing
    step itself, and it leaves the objects in memory alone. *)
Theorem unchanged_fix_is_noop (s : RepairSuggestion.t) (e : engine)
    (w : WorkflowRegistry.WorkflowSpec) :
  let nm := RepairSuggestion.workflow_name s in
  let i := RepairSuggestion.step_index s in
  RegistryShape.keyed_by_name (registry e) ->
  WorkflowRegistry.writable (registry e) = true ->
  WorkflowRegistry.get_workflow nm (registry e) = Some w ->
  index (WorkflowRegistry.steps w) i = Some (RepairSuggestion.suggested_fix s) ->
  (forall f st e0 s0 e1,
     suggest_generic_repair f st e0 = (Ok (Some s0), e1) ->
     RepairSuggestion.suggested_fix s0 = st /\ heap e1 = heap e0) /\
  exists e',
    apply_repair s true e = (Ok applied, e') /\
    steps_of nm e' = steps_of nm e /\ heap e' = heap e.
Proof.
  intros nm i Hkeyed Hw Hget Hidx. subst nm. split.
  { intros f st e0 s0 e1. unfold suggest_generic_repair, bind, get, datetime_now, ret.
    destruct (repair_agent e0); intros [= <- <-]; split; reflexivity. }
  assert (Hrange : in_range (List.length (WorkflowRegistry.steps w)) i /\
                   WorkflowRegistry.steps w
                     !! position (List.length (WorkflowRegistry.steps w)) i
                   = Some (RepairSuggestion.suggested_fix s)).
  { unfold index in Hidx. unfold in_range, position.
    destruct (0 <=? i)%Z eqn:H0.
    - apply Z.leb_le in H0. split; [| exact Hidx].
      apply lookup_lt_Some in Hidx. lia.
    - apply Z.leb_gt in H0.
      destruct (0 <=? i + _)%Z eqn:H1; [| discriminate].
      apply Z.leb_le in H1. split; [lia | exact Hidx]. }
  destruct Hrange as [Hrange Hat].
  destruct (apply_repair_run s e w Hkeyed Hget Hrange)
    as (e' & Hrun & Hheap & Hget' & Hother & Hfiles).
  rewrite Hw in Hrun. exists e'. split; [exact Hrun |]. split; [| exact Hheap].
  unfold steps_of. rewrite Hget', Hget. cbn.
  f_equal. now apply list_insert_id.
Qed.

End MoreApply.

Section MoreApplyExamples.
Import Py Store SelfHealing HealingBooks HealingScenario HealingMoreScenario.

Lemma sample_engine_keyed : RegistryShape.keyed_by_name (registry sample_engine).
Proof. repeat constructor. Qed.

Lemma readonly_engine_keyed : RegistryShape.keyed_by_name (registry readonly_engine).
Proof. repeat constructor. Qed.

Lemma in_range_second : in_range 3 1.
Proof. unfold in_range. lia. Qed.

Lemma apply_repair_outcomes_witness :
  exists r e',
    apply_repair replace_second false sample_engine = (Ok r, e') /\
    e' = sample_engine /\ success r = false.
Proof.
  destruct (apply_repair_outcomes replace_second false sample_engine)
    as (r & e' & Hrun & _ & _ & _ & Hno & _ & _).
  destruct (Hno eq_refl) as [He Hr].
  exists r, e'. split; [exact Hrun |]. split; [exact He |].
  rewrite Hr. reflexivity.
Defined.

Lemma apply_repair_replaces_one_step_witness :
  RegistryShape.keyed_by_name (registry sample_engine) /\
  WorkflowRegistry.writable (registry sample_engine) = true /\
  WorkflowRegistry.get_workflow "test_navigation" (registry sample_engine)
    = Some test_navigation /\
  in_range 3 1 /\
  exists e' steps',
    apply_repair replace_second true sample_engine = (Ok applied, e') /\
    steps_of "test_navigation" e' = Some steps' /\
    steps' !! 1 = Some (HRef 6) /\
    steps' !! 0 = Some (HRef 2) /\
    steps' !! 2 = Some (HRef 6).
Proof.
  split; [exact sample_engine_keyed |]. split; [reflexivity |].
  split; [reflexivity |]. split; [exact in_range_second |].
  destruct (apply_repair_replaces_one_step replace_second sample_engine
              test_navigation sample_engine_keyed eq_refl eq_refl in_range_second)
    as (e' & steps' & Hrun & Hsteps & _ & Hat & Hothers & _).
  exists e', steps'. split; [exact Hrun |]. split; [exact Hsteps |].
  split; [exact Hat |]. split.
  - rewrite (Hothers 0); [reflexivity | discriminate].
  - rewrite (Hothers 2); [reflexivity | discriminate].
Defined.

Lemma apply_repair_unsaved_still_replaces_witness :
  RegistryShape.keyed_by_name (registry readonly_engine) /\
  WorkflowRegistry.writable (registry readonly_engine) = false /\
  WorkflowRegistry.get_workflow "test_navigation" (registry readonly_engine)
    = Some test_navigation /\
  in_range 3 1 /\
  exists e',
    apply_repair replace_second true readonly_engine
      = (Ok (failure_with "Could not apply repair"), e') /\
    steps_of "test_navigation" e' = Some [HRef 2; HRef 6; HRef 6].
Proof.
  split; [exact readonly_engine_keyed |]. split; [reflexivity |].
  split; [reflexivity |]. split; [exact in_range_second |].
  destruct (apply_repair_unsaved_still_replaces replace_second readonly_engine
              test_navigation readonly_engine_keyed eq_refl eq_refl in_range_second)
    as (e' & Hrun & _ & Hsteps).
  exists e'. split; [exact Hrun | exact Hsteps].
Defined.

Lemma unchanged_fix_is_noop_witness :
  RegistryShape.keyed_by_name (registry sample_engine) /\
  WorkflowRegistry.writable (registry sample_engine) = true /\
  WorkflowRegistry.get_workflow "test_navigation" (registry sample_engine)
    = Some test_navigation /\
  index (WorkflowRegistry.steps test_navigation) 1 = Some (HRef 4) /\
  exists e',
    apply_repair keep_second true sample_engine = (Ok applied, e') /\
    steps_of "test_navigation" e' = Some [HRef 2; HRef 4; HRef 6].
Proof.
  split; [exact sample_engine_keyed |]. split; [reflexivity |].
  split; [reflexivity |]. split; [reflexivity |].
  destruct (unchanged_fix_is_noop keep_second sample_engine test_navigation
              sample_engine_keyed eq_refl eq_refl eq_refl)
    as (_ & e' & Hrun & Hsteps & _).
  exists e'. split; [exact Hrun | exact Hsteps].
Defined.

End MoreApplyExamples.

(* ===================================================================== *)
(** * More on self-healing: selector repairs *)
(* ===================================================================== *)

Section Selectors.
Import Py Store SelfHealing HealingBooks.

Lemma split_go_nonempty_cur (s : string) (c : ascii) (cur : string) :
  PyStr.split_go s (String c cur) <> [].
Proof.
  revert c cur. induction s as [|x s IH]; intros c cur; simpl; [discriminate |].
  destruct (PyStr.is_space x); [discriminate | apply IH].
Qed.

Lemma split_empty_iff_blank (s : string) :
  PyStr.split s = [] <-> is_blank s = true.
Proof.
  unfold PyStr.split. induction s as [|x s IH]; simpl.
  - split; reflexivity.
  - destruct (PyStr.is_space x); simpl.
    + exact IH.
    + split; [| discriminate]. intros H. now apply split_go_nonempty_cur in H.
Qed.

Lemma blank_no_prefix (s : string) (c : ascii) :
  is_blank s = true -> PyStr.is_space c = false ->
  PyStr.startswith s (String c "") = false.
Proof.
  destruct s as [|x s]; simpl; [reflexivity |].
  intros Hb Hc. apply andb_true_iff in Hb as [Hx _].
  destruct (Ascii.eqb c x) eqn:E; [| reflexivity].
  apply Ascii.eqb_eq in E. subst. congruence.
Qed.

Lemma last_token_some (xs : list string) :
  xs <> [] -> exists t, last_token xs = Ok t.
Proof.
  unfold last_token. intros H. destruct (last xs) eqn:E; [eauto |].
  apply last_None in E. contradiction.
Qed.

Lemma alternatives_blank_raises (sel : string) :
  is_blank sel = true ->
  alternatives sel = Raise (IndexError "list index out of range").
Proof.
  intros Hb. unfold alternatives.
  rewrite (blank_no_prefix _ "#" Hb eq_refl), (blank_no_prefix _ "." Hb eq_refl).
  apply split_empty_iff_blank in Hb. rewrite Hb. reflexivity.
Qed.

(** X18: deriving alternative selectors fails with an [IndexError] for a
    selector that is empty or all blanks; for every other selector of
    ASCII characters it gives three alternatives. A selector that starts with [#] gets the
    class, id-substring and name forms of the rest, one that starts with
    [.] the id, class-substring and button forms. *)
Theorem alternatives_fail_on_blank (current_selector : string) :
  (is_blank current_selector = true ->
     alternatives current_selector = Raise (IndexError "list index out of range")) /\
  (is_ascii current_selector = true -> is_blank current_selector = false ->
     exists a b c, alternatives current_selector = Ok [a; b; c]) /\
  (forall base,
     alternatives ("#" ++ base) =
       Ok [ "." ++ base; "[id*='" ++ base ++ "']"; "[name='" ++ base ++ "']" ] /\
     alternatives ("." ++ base) =
       Ok [ "#" ++ base; "[class*='" ++ base ++ "']";
            "button[class*='" ++ base ++ "']" ]).
Proof.
  split; [| split].
  - apply alternatives_blank_raises.
  - intros _ Hb. unfold alternatives.
    destruct (PyStr.startswith current_selector "#"); [eauto |].
    destruct (PyStr.startswith current_selector "."); [eauto |].
    destruct (last_token_some (PyStr.split current_selector)) as [t Ht].
    { intros H. apply split_empty_iff_blank in H. congruence. }
    rewrite Ht. eauto.
  - intros base. split; reflexivity.
Qed.



End Selectors.

(* ===================================================================== *)
(** * More on self-healing: harmless failures, and the two queries *)
(* ===================================================================== *)

Section Quiet.
Import Py Store SelfHealing HealingBooks.

Lemma preserves_refl (e : engine) : preserves_objects e e.
Proof. now split. Qed.

Lemma classify_quiet_preserves (f : WorkflowFailure.t) (st : hval) (e e' : engine)
    (o : outcome (option RepairSuggestion.t)) :
  ~ says_selector (PyStr.lower (WorkflowFailure.error_message f)) ->
  ~ says_timeout (PyStr.lower (WorkflowFailure.error_message f)) ->
  classify_and_suggest_repair f st e = (o, e') -> preserves_objects e e'.
Proof.
  intros Hs Ht. unfold classify_and_suggest_repair.
  rewrite (neither_contains _ _ _ Hs), (not_contains _ _ Ht).
  destruct (_ || _); [apply network_preserves |].
  destruct (_ || _); [apply auth_preserves | apply generic_preserves].
Qed.

Lemma analyze_quiet_preserves (f : WorkflowFailure.t) (e e' : engine)
    (o : outcome (option RepairSuggestion.t)) :
  ~ says_selector (PyStr.lower (WorkflowFailure.error_message f)) ->
  ~ says_timeout (PyStr.lower (WorkflowFailure.error_message f)) ->
  analyze_and_repair f e = (o, e') -> preserves_objects e e'.
Proof.
  intros Hs Ht. unfold analyze_and_repair, try_except, bind at 1, get.
  destruct (WorkflowRegistry.get_workflow _ _) as [w|].
  - destruct (_ <=? _)%Z.
    + intros [= <- <-]. apply preserves_refl.
    + unfold bind, lift. destruct (step_at _ _) as [st|x].
      * destruct (classify_and_suggest_repair f st e) as [[o1|x] e1] eqn:Hc;
          intros [= <- <-]; eapply classify_quiet_preserves; eauto.
      * intros [= <- <-]. apply preserves_refl.
  - intros [= <- <-]. apply preserves_refl.
Qed.

(** X20: handling a failure whose lower-cased message contains none of
    "selector", "element not found" and "timeout" changes no object that
    existed before, whatever the result: the network, authentication and
    generic generators only make new objects. The registry is unchanged
    too. *)
Theorem quiet_failure_keeps_objects (workflow_name : string) (step_index : Z)
    (error_type error_message : string)
    (screenshot_path dom_snapshot : option string)
    (e e' : engine) (r : outcome result) :
  ~ says_selector (PyStr.lower error_message) ->
  ~ says_timeout (PyStr.lower error_message) ->
  handle_workflow_failure workflow_name step_index error_type error_message
    screenshot_path dom_snapshot e = (r, e') ->
  preserves_objects e e'.
Proof.
  intros Hs Ht. unfold handle_workflow_failure, bind at 1, get.
  destruct (healing_enabled e); cbn [negb].
  - unfold try_except, bind at 1, datetime_now.
    unfold bind at 1, record_failure, modify. unfold bind at 1.
    match goal with
    | |- context [analyze_and_repair ?f ?e1] =>
        destruct (analyze_and_repair f e1) as [[o|x] e2] eqn:Han;
        (apply analyze_quiet_preserves in Han as [Hr Ho]; [| exact Hs | exact Ht])
    end; cbn in Hr, Ho.
    + destruct o as [s|].
      * unfold bind, record_suggestion, save_repair_suggestion, modify,
          datetime_now, ret. cbn.
        destruct (repairs_writable e2); intros [= <- <-]; split; cbn; assumption.
      * intros [= <- <-]. split; assumption.
    + intros [= <- <-]. split; assumption.
  - intros [= <- <-]. apply preserves_refl.
Qed.

End Quiet.

Section Histories.
Import Py Store SelfHealing HealingBooks.

Lemma filter_snoc_other {A} (P : A -> bool) (xs : list A) (x : A) :
  P x = false -> List.filter P (xs ++ [x])%list = List.filter P xs.
Proof.
  intros H. rewrite List.filter_app. cbn. rewrite H. apply app_nil_r.
Qed.

Lemma filter_snoc_same {A} (P : A -> bool) (xs : list A) (x : A) :
  P x = true -> List.filter P (xs ++ [x])%list = (List.filter P xs ++ [x])%list.
Proof.
  intros H. rewrite List.filter_app. cbn. now rewrite H.
Qed.

(** X21: with healing enabled, handling a failure of workflow [w] adds one
    record, carrying the given message, to the end of
    [get_failure_history(w)] and of the unfiltered history, and adds the
    returned suggestion, if there is one, to the end of
    [get_repair_suggestions(w)]; what both queries return for any other
    non-empty workflow name is unchanged. *)
Theorem histories_after_failure (workflow_name : string) (step_index : Z)
    (error_type error_message : string)
    (screenshot_path dom_snapshot : option string) (e : engine) :
  healing_enabled e = true ->
  exists r e' f,
    handle_workflow_failure workflow_name step_index error_type error_message
      screenshot_path dom_snapshot e = (Ok r, e') /\
    WorkflowFailure.error_message f = error_message /\
    get_failure_history (Some workflow_name) e'
      = (get_failure_history (Some workflow_name) e ++ [f])%list /\
    get_failure_history None e' = (get_failure_history None e ++ [f])%list /\
    get_repair_suggestions (Some workflow_name) e'
      = (get_repair_suggestions (Some workflow_name) e
         ++ match suggestion r with Some s => [s] | None => [] end)%list /\
    (forall other, other <> "" -> other <> workflow_name ->
       get_failure_history (Some other) e' = get_failure_history (Some other) e /\
       get_repair_suggestions (Some other) e'
         = get_repair_suggestions (Some other) e).
Proof.
  intros Hen.
  destruct (handle_workflow_failure_run workflow_name step_index error_type
              error_message screenshot_path dom_snapshot e)
    as (r & e' & Hrun & _ & _ & Hon).
  destruct (Hon Hen) as ((f & Hlog & Hfn & _ & _ & Hmsg) & Hsug).
  exists r, e', f. split; [exact Hrun |]. split; [exact Hmsg |].
  assert (Hsame : String.eqb (WorkflowFailure.workflow_name f) workflow_name = true)
    by now apply String.eqb_eq.
  unfold get_failure_history, get_repair_suggestions. rewrite Hlog.
  split; [| split; [reflexivity |]].
  { destruct (String.eqb workflow_name ""); [reflexivity |].
    now apply filter_snoc_same. }
  destruct (suggestion r) as [s|].
  - destruct Hsug as (_ & Hs & Hsn & _). rewrite Hs. split.
    + destruct (String.eqb workflow_name ""); [reflexivity |].
      apply filter_snoc_same. now apply String.eqb_eq.
    + intros other Hne Hother.
      rewrite (proj2 (String.eqb_neq other "") Hne).
      split; apply filter_snoc_other; apply String.eqb_neq; congruence.
  - destruct Hsug as (_ & Hs & _). rewrite Hs. split.
    + now rewrite app_nil_r.
    + intros other Hne Hother.
      rewrite (proj2 (String.eqb_neq other "") Hne).
      split; [| reflexivity].
      apply filter_snoc_other; apply String.eqb_neq; congruence.
Qed.

End Histories.


(* ===================================================================== *)
(** * More on self-healing: timeout repairs *)
(* ===================================================================== *)

Section Timeouts.
Import Py Store SelfHealing HealingBooks.

Lemma heap_ok_fresh (h : Store.heap) (l : loc) (d : gmap string hval) :
  heap_ok h -> objects h !! l = Some d -> l <> next h.
Proof.
  intros Hok Hl ->. rewrite (Hok (next h)) in Hl; [discriminate | lia].
Qed.

(** X22: for a failing step that has an [args] dict, the timeout repair
    returns a suggestion of type [timeout] with confidence 0.6 whose fix
    is a new copy of the step with the same items. The [args] dict is not
    copied: it is the step's own [args] object that gets [timeout] set to
    twice its old value (twice 30 when it had none) and [wait_for_load]
    set to [True]. No other object changes. *)
Theorem timeout_repair_doubles_shared_timeout (f : WorkflowFailure.t)
    (e : engine) (l a : loc) (d ad : gmap string hval) (doubled : hval) :
  heap_ok (heap e) ->
  objects (heap e) !! l = Some d ->
  d !! "args" = Some (HRef a) ->
  objects (heap e) !! a = Some ad ->
  times_two (default (HInt 30) (ad !! "timeout")) = Ok doubled ->
  exists s e',
    suggest_timeout_repair f (HRef l) e = (Ok (Some s), e') /\
    RepairSuggestion.issue_type s = "timeout" /\
    RepairSuggestion.confidence_score s = (6 # 10)%Q /\
    RepairSuggestion.suggested_fix s = HRef (next (heap e)) /\
    objects (heap e') !! next (heap e) = Some d /\
    objects (heap e') !! a =
      Some (<[ "wait_for_load" := HBool true ]> (<[ "timeout" := doubled ]> ad)) /\
    (forall l', l' <> a -> l' <> next (heap e) ->
       objects (heap e') !! l' = objects (heap e) !! l').
Proof.
  intros Hok Hl Hargs Ha Hdouble.
  pose proof (heap_ok_fresh _ _ _ Hok Ha) as Hna.
  assert (Hst : as_dict (heap e) (HRef l) = Ok d).
  { unfold as_dict, dict_of, deref. now rewrite Hl. }
  unfold suggest_timeout_repair.
  unfold bind at 1. rewrite (copy_run _ _ _ Hst).
  unfold bind at 1, get. unfold bind at 1, lift. rewrite as_dict_fresh.
  unfold bind at 1. rewrite Hargs. unfold ret at 1.
  unfold bind at 1, getitem. unfold bind at 1, get. unfold bind at 1, lift.
  rewrite as_dict_fresh, Hargs. unfold ret at 1.
  unfold bind at 1, get. unfold bind at 1, lift.
  unfold as_dict at 1, dict_of. rewrite (deref_after_alloc _ _ _ _ Ha).
  destruct (decide (next (heap e) = a)) as [E | _]; [congruence |].
  unfold bind at 1. rewrite Hdouble.
  unfold bind at 1, setitem at 1. unfold bind at 1, get.
  rewrite (deref_after_alloc _ _ _ _ Ha).
  unfold put at 1.
  unfold bind at 1, setitem at 1. unfold bind at 1, get.
  unfold deref at 1, store at 1. cbn [heap set_heap objects alloc snd].
  rewrite lookup_alter_eq, lookup_insert_ne by congruence. rewrite Ha.
  cbn [fmap option_fmap option_map]. unfold put, bind, datetime_now, ret.
  eexists _, _. split; [reflexivity |]. cbn.
  split; [reflexivity |]. split; [reflexivity |]. split; [reflexivity |].
  split; [| split].
  - rewrite !lookup_alter_ne by congruence. apply lookup_insert_eq.
  - rewrite !lookup_alter_eq, lookup_insert_ne by congruence. now rewrite Ha.
  - intros l' H1 H2. rewrite !lookup_alter_ne by congruence.
    now rewrite lookup_insert_ne.
Qed.

(** X23: for a failing step without [args], the timeout repair gives the
    copy an [args] dict of its own, holding [timeout = 60] and
    [wait_for_load = True]; every object that existed before, the failing
    step included, is unchanged. *)
Theorem timeout_repair_without_args (f : WorkflowFailure.t)
    (e : engine) (l : loc) (d : gmap string hval) :
  objects (heap e) !! l = Some d ->
  d !! "args" = None ->
  exists s e',
    suggest_timeout_repair f (HRef l) e = (Ok (Some s), e') /\
    RepairSuggestion.suggested_fix s = HRef (next (heap e)) /\
    objects (heap e') !! next (heap e) =
      Some (<[ "args" := HRef (Pos.succ (next (heap e))) ]> d) /\
    objects (heap e') !! Pos.succ (next (heap e)) =
      Some {[ "wait_for_load" := HBool true; "timeout" := HInt 60 ]} /\
    preserves_objects e e'.
Proof.
  intros Hl Hargs.
  assert (Hst : as_dict (heap e) (HRef l) = Ok d).
  { unfold as_dict, dict_of, deref. now rewrite Hl. }
  unfold suggest_timeout_repair.
  unfold bind at 1. rewrite (copy_run _ _ _ Hst).
  unfold bind at 1, get. unfold bind at 1, lift. rewrite as_dict_fresh.
  unfold bind at 1. rewrite Hargs.
  unfold bind at 1, new_dict at 1.
  cbn [heap set_heap objects alloc snd next].
  unfold setitem at 1, bind at 1, get. unfold deref at 1.
  cbn [heap set_heap objects next].
  rewrite lookup_insert_ne by lia. rewrite lookup_insert_eq.
  unfold put at 1.
  unfold bind at 1, getitem. unfold bind at 1, get. unfold bind at 1, lift.
  unfold as_dict at 1, dict_of, deref, store.
  cbn [heap set_heap objects next].
  rewrite lookup_alter_eq, lookup_insert_ne by lia. rewrite lookup_insert_eq.
  cbn [fmap option_fmap option_map]. rewrite lookup_insert_eq. unfold ret at 1.
  unfold bind at 1, get. unfold bind at 1, lift.
  unfold as_dict at 1, dict_of, deref.
  cbn [heap set_heap objects next].
  rewrite lookup_alter_ne by lia. rewrite lookup_insert_eq.
  unfold bind at 1. rewrite lookup_empty. cbn [default times_two].
  unfold bind at 1, setitem at 1. unfold bind at 1, get. unfold deref at 1.
  cbn [heap set_heap objects next].
  rewrite lookup_alter_ne by lia. rewrite lookup_insert_eq.
  unfold put at 1.
  unfold bind at 1, setitem at 1. unfold bind at 1, get. unfold deref at 1, store.
  cbn [heap set_heap objects next].
  rewrite lookup_alter_eq, lookup_alter_ne by lia. rewrite lookup_insert_eq.
  cbn [fmap option_fmap option_map]. unfold put, bind, datetime_now, ret.
  eexists _, _. split; [reflexivity |]. cbn.
  split; [reflexivity |].
  split; [| split; [| split; [reflexivity |]]].
  - rewrite !lookup_alter_ne by lia. rewrite lookup_alter_eq.
    rewrite lookup_insert_ne by lia. now rewrite lookup_insert_eq.
  - rewrite !lookup_alter_eq, lookup_alter_ne by lia. rewrite lookup_insert_eq.
    cbn [fmap option_fmap option_map]. now rewrite insert_empty.
  - intros l' Hl'. cbn. rewrite !lookup_alter_ne by lia.
    now rewrite !lookup_insert_ne by lia.
Qed.

End Timeouts.

(* ===================================================================== *)
(** * More on routing: the intent the regex parser finds *)
(* ===================================================================== *)

Section Intent.
Import Py Router RouterShape PyStrFacts.

Lemma any_in_spec (words : list string) (s : string) :
  any_in words s = true <-> mentions words s.
Proof.
  unfold any_in, mentions. rewrite existsb_exists. split.
  - intros (w & Hin & Hc). exists w. split; [now apply list_elem_of_In |].
    now apply contains_spec.
  - intros (w & Hin & Hc). exists w. split; [now apply list_elem_of_In |].
    now apply contains_spec.
Qed.

(** X24: the regex parser decides the intent by substring tests on the
    lower-cased prompt, in a fixed order: [export] exactly when one of
    "export", "download", "get", "extract" occurs; [navigate] exactly when
    none of those but one of "navigate", "go", "visit", "open" occurs;
    [test] exactly when none of those but one of "test", "check", "verify"
    occurs; [general] exactly when none of the eleven words occurs. *)
Theorem regex_intent_by_priority (prompt : string) :
  let text := PyStr.lower prompt in
  let intent := p_intent (regex_parse_prompt prompt) in
  let exporting := mentions ["export"; "download"; "get"; "extract"] text in
  let navigating := mentions ["navigate"; "go"; "visit"; "open"] text in
  let testing := mentions ["test"; "check"; "verify"] text in
  (intent = "export" <-> exporting) /\
  (intent = "navigate" <-> ~ exporting /\ navigating) /\
  (intent = "test" <-> ~ exporting /\ ~ navigating /\ testing) /\
  (intent = "general" <-> ~ exporting /\ ~ navigating /\ ~ testing).
Proof.
  intros text intent exporting navigating testing.
  subst intent exporting navigating testing. unfold regex_parse_prompt.
  cbn [p_intent]. fold text.
  rewrite <- !any_in_spec.
  destruct (any_in ["export"; "download"; "get"; "extract"] text);
    destruct (any_in ["navigate"; "go"; "visit"; "open"] text);
    destruct (any_in ["test"; "check"; "verify"] text);
    repeat split; try discriminate; try tauto; try congruence;
    intros; intuition congruence.
Qed.

End Intent.

Section MoreHealingExamples.
Import Py Store SelfHealing HealingBooks HealingScenario HealingMoreScenario.

Lemma sample_heap_ok : heap_ok sample_heap.
Proof.
  intros l Hl. unfold sample_heap in *. cbn [objects next] in *.
  rewrite !lookup_insert_ne by lia. apply lookup_singleton_ne. lia.
Qed.

Lemma login_required_is_quiet :
  ~ says_selector (PyStr.lower "login required") /\
  ~ says_timeout (PyStr.lower "login required").
Proof.
  split.
  - intros [H | H]; apply PyStrFacts.contains_spec in H; discriminate.
  - intros H. apply PyStrFacts.contains_spec in H. discriminate.
Qed.


Lemma alternatives_fail_on_blank_witness :
  is_blank "  " = true /\
  alternatives "  " = Raise (IndexError "list index out of range") /\
  is_ascii "submit button" = true /\
  is_blank "submit button" = false /\
  exists a b c, alternatives "submit button" = Ok [a; b; c].
Proof.
  destruct (alternatives_fail_on_blank "  ") as (Hblank & _ & _).
  destruct (alternatives_fail_on_blank "submit button") as (_ & Hsome & _).
  split; [reflexivity |]. split; [exact (Hblank eq_refl) |].
  split; [reflexivity |]. split; [reflexivity | exact (Hsome eq_refl eq_refl)].
Defined.


Lemma quiet_failure_keeps_objects_witness :
  ~ says_selector (PyStr.lower "login required") /\
  ~ says_timeout (PyStr.lower "login required") /\
  exists r e',
    handle_workflow_failure "portal_account" 1 "Exception" "login required"
      None None sample_engine = (r, e') /\
    preserves_objects sample_engine e'.
Proof.
  destruct login_required_is_quiet as [Hs Ht].
  split; [exact Hs |]. split; [exact Ht |].
  destruct (handle_workflow_failure "portal_account" 1 "Exception"
              "login required" None None sample_engine) as [r e'] eqn:Hrun.
  exists r, e'. split; [reflexivity |].
  exact (quiet_failure_keeps_objects _ _ _ _ _ _ _ _ _ Hs Ht Hrun).
Defined.

Lemma histories_after_failure_witness :
  healing_enabled sample_engine = true /\
  exists r e' f,
    handle_workflow_failure "portal_account" 1 "Exception" "login required"
      None None sample_engine = (Ok r, e') /\
    get_failure_history (Some "portal_account") e' = [f] /\
    get_failure_history (Some "test_navigation") e' = [].
Proof.
  split; [reflexivity |].
  destruct (histories_after_failure "portal_account" 1 "Exception"
              "login required" None None sample_engine eq_refl)
    as (r & e' & f & Hrun & _ & Hown & _ & _ & Hother).
  exists r, e', f. split; [exact Hrun |]. split; [exact Hown |].
  destruct (Hother "test_navigation") as [H _]; [discriminate .. | exact H].
Defined.

Lemma timeout_repair_doubles_shared_timeout_witness :
  heap_ok (heap sample_engine) /\
  exists s e',
    suggest_timeout_repair unclassified (HRef 4) sample_engine = (Ok (Some s), e') /\
    RepairSuggestion.suggested_fix s = HRef 10 /\
    objects (heap e') !! 3%positive =
      Some (<[ "wait_for_load" := HBool true ]>
              (<[ "timeout" := HInt 60 ]> {[ "path" := HStr "test.png" ]})).
Proof.
  split; [exact sample_heap_ok |].
  destruct (timeout_repair_doubles_shared_timeout unclassified sample_engine
              4%positive 3%positive
              {[ "action" := HStr "screenshot"; "args" := HRef 3 ]}
              {[ "path" := HStr "test.png" ]} (HInt 60)
              sample_heap_ok eq_refl eq_refl eq_refl eq_refl)
    as (s & e' & Hrun & _ & _ & Hfix & _ & Hargs & _).
  exists s, e'. split; [exact Hrun |]. split; [exact Hfix | exact Hargs].
Defined.

Lemma timeout_repair_without_args_witness :
  exists s e',
    suggest_timeout_repair unclassified (HRef 9) sample_engine = (Ok (Some s), e') /\
    objects (heap e') !! 11%positive =
      Some {[ "wait_for_load" := HBool true; "timeout" := HInt 60 ]} /\
    objects (heap e') !! 9%positive = Some {[ "action" := HStr "screenshot" ]}.
Proof.
  destruct (timeout_repair_without_args unclassified sample_engine 9%positive
              {[ "action" := HStr "screenshot" ]} eq_refl eq_refl)
    as (s & e' & Hrun & _ & _ & Hnew & _ & Hold).
  exists s, e'. split; [exact Hrun |]. split; [exact Hnew |].
  rewrite Hold; [reflexivity | reflexivity].
Defined.

End MoreHealingExamples.
